(** * On-call phone resolution middleware: model and verified properties

    A shallow embedding of the resolution pipeline of the JSM/CCX middleware:

    - [DirectClient]: the active client (direct-client.js) with its schedule
      cache, the three-stage lookup and the health probe;
    - [SqlData]: the legacy directory module (sql-data.js) with its one-hour
      directory snapshot cache;
    - [Server]: the route handler of server.js that calls the client.

    Asynchronous functions are modelled as state transformers that return an
    outcome (a value or a thrown error) together with the new module state.
    The module state carries the caches and a trace of the upstream calls
    issued so far.  Everything the outside world answers (clock, HTTP
    replies, database contents) is read from an environment record. *)

From Stdlib Require Import String Ascii List ZArith Bool Lia.
From Stdlib Require Import DecimalString.
Import ListNotations.
Local Open Scope string_scope.
Local Open Scope Z_scope.

(* ===================================================================== *)
(** ** JavaScript values used by the code *)
(* ===================================================================== *)

Module JS.

(** A JavaScript string is a sequence of 16-bit code units.  The model
    holds the strings whose code units are all below 256, one [ascii] per
    code unit (the range of ISO 8859-1); a string with a code unit from 256
    on has no counterpart here.  On the strings of the model the character
    classes below are the JavaScript ones:
    - [\D] is every code unit but the ten digits 0-9;
    - the white space [trim] strips is TAB, LF, VT, FF, CR, SPACE and the
      no-break space U+00A0 (the white space and line terminators from
      256 on are U+1680, U+2000-U+200A, U+2028, U+2029, U+202F, U+205F,
      U+3000 and U+FEFF);
    - [toLowerCase] maps A-Z and the capital letters U+00C0-U+00DE, the
      multiplication sign U+00D7 apart, to the code unit 32 above, and
      leaves every other code unit below 256 as it is. *)

Definition isDigit (c : ascii) : bool :=
  let n := nat_of_ascii c in (Nat.leb 48 n && Nat.leb n 57)%bool.

(** [s.replace(/\D/g, "")] *)
Fixpoint replaceNonDigits (s : string) : string :=
  match s with
  | EmptyString => EmptyString
  | String c r => if isDigit c then String c (replaceNonDigits r)
                  else replaceNonDigits r
  end.

Definition isSpace (c : ascii) : bool :=
  let n := nat_of_ascii c in
  (Nat.eqb n 32 || (Nat.leb 9 n && Nat.leb n 13) || Nat.eqb n 160)%bool.

Definition isEmpty (s : string) : bool :=
  match s with EmptyString => true | _ => false end.

Fixpoint trimStart (s : string) : string :=
  match s with
  | EmptyString => EmptyString
  | String c r => if isSpace c then trimStart r else s
  end.

Fixpoint trimEnd (s : string) : string :=
  match s with
  | EmptyString => EmptyString
  | String c r =>
      let r' := trimEnd r in
      if (isSpace c && isEmpty r')%bool then EmptyString else String c r'
  end.

(** [s.trim()] *)
Definition trim (s : string) : string := trimEnd (trimStart s).

Definition isUpper (c : ascii) : bool :=
  let n := nat_of_ascii c in
  ((Nat.leb 65 n && Nat.leb n 90)
   || (Nat.leb 192 n && Nat.leb n 222 && negb (Nat.eqb n 215)))%bool.

Definition lowerChar (c : ascii) : ascii :=
  if isUpper c then ascii_of_nat (nat_of_ascii c + 32) else c.

(** [s.toLowerCase()] *)
Fixpoint toLowerCase (s : string) : string :=
  match s with
  | EmptyString => EmptyString
  | String c r => String (lowerChar c) (toLowerCase r)
  end.

(** [s.startsWith(p)] *)
Fixpoint startsWith (s p : string) {struct p} : bool :=
  match p with
  | EmptyString => true
  | String a p' =>
      match s with
      | EmptyString => false
      | String b s' => (Ascii.eqb a b && startsWith s' p')%bool
      end
  end.

(** Truthiness of a string value that may be [null]/[undefined]:
    only a present, non-empty string is truthy. *)
Definition truthy (v : option string) : bool :=
  match v with
  | Some s => negb (isEmpty s)
  | None => false
  end.

(** Template-literal rendering of an integer, as in [`${response.status}`]. *)
Definition showZ (n : Z) : string := NilZero.string_of_int (Z.to_int n).

(** A thrown value.  [Error msg] is what [new Error(msg)] builds in this
    code base; [Rejection msg] is an error object raised by a library
    call ([fetch], [response.json()], the [mssql] driver) and passed on
    unchanged by the [throw error] of the catch blocks. *)
Inductive Thrown : Type :=
| Error (message : string)
| Rejection (message : string).

Definition message (e : Thrown) : string :=
  match e with Error m => m | Rejection m => m end.

(** Result of running an async function to completion. *)
Inductive Outcome (A : Type) : Type :=
| Returns (a : A)
| Throws (e : Thrown).
Arguments Returns {A} a.
Arguments Throws {A} e.

End JS.

Import JS.

(* ===================================================================== *)
(** ** Phone number formatting *)
(* ===================================================================== *)

(** The formatting step shared by both directory lookups
    (direct-client.js, "Format the phone number"; sql-data.js, the
    [record.cellPhone] branch):
<<
    let phoneNumber = record.cellPhone.trim();
    phoneNumber = phoneNumber.replace(/\D/g, "");
    if (phoneNumber.length === 10) { phoneNumber = "1" + phoneNumber; }
>> *)
Definition formatPhoneNumber (cellPhone : string) : string :=
  let phoneNumber := trim cellPhone in
  let phoneNumber := replaceNonDigits phoneNumber in
  if Nat.eqb (String.length phoneNumber) 10 then "1" ++ phoneNumber
  else phoneNumber.

(** A string made of decimal digits only. *)
Definition allDigits (s : string) : bool :=
  forallb isDigit (list_ascii_of_string s).

(* ===================================================================== *)
(** ** Configuration (config.js) *)
(* ===================================================================== *)

(** Values read from the process environment are strings or [undefined]. *)
Record Config : Type := {
  jira_username : option string;
  jira_apiToken : option string;
  jira_cloudId : option string;
  jira_hostUrl : option string;
  jira_basePath : option string;
  sql_database : option string;
  sql_authMode : string;
  sql_username : option string;
  sql_password : option string;
  fallback_useTempFile : bool;
  defaultPhoneNumber : string
}.

(* ===================================================================== *)
(** ** The outside world *)
(* ===================================================================== *)

(** One schedule of the roster service ([data.values] entries). *)
Record Schedule : Type := { id : string; name : string }.

(** Body of the on-call endpoint: [onCallParticipants] may be missing;
    each participant carries an account id. *)
Record OnCallData : Type := { onCallParticipants : option (list string) }.

(** Body of the user endpoint. *)
Record UserData : Type := {
  emailAddress : option string;
  displayName : option string
}.

(** One row of the phone directory table, with the column aliases of the
    queries.  A column may be [NULL]. *)
Record DirectoryRecord : Type := {
  fullName : option string;
  extension : option string;
  cellPhone : option string;
  primaryResponsibility : option string;
  backup : option string;
  email : option string
}.

(** What [await response.json()] gives. *)
Inductive JsonBody (A : Type) : Type :=
| JsonRejects (reason : string)
| Json (value : A).
Arguments JsonRejects {A} reason.
Arguments Json {A} value.

(** What [await fetch(url, ...)] gives. *)
Inductive HttpReply (A : Type) : Type :=
| FetchRejects (reason : string)
| Response (status : Z) (statusText : string) (json : JsonBody A).
Arguments FetchRejects {A} reason.
Arguments Response {A} status statusText json.

(** [response.ok]: the status is in the range 200-299. *)
Definition ok (status : Z) : bool := (200 <=? status) && (status <=? 299).

(** Everything a call reads from outside the module at the time it runs. *)
Record Env : Type := {
  now : Z;                                 (* Date.now(), milliseconds *)
  config : Config;
  (* GET .../v1/schedules; [None] in the body: [data.values] is missing
     or not an array *)
  fetchSchedules : HttpReply (option (list Schedule));
  (* GET .../v1/schedules/{id}/on-calls?date=... *)
  fetchOnCalls : string -> HttpReply OnCallData;
  (* GET .../rest/api/3/user?accountId=... *)
  fetchUser : string -> HttpReply UserData;
  sqlConnect : option string;              (* [Some m]: sql.connect rejects *)
  sqlQuery : option string;                (* [Some m]: the query rejects *)
  sqlClose : option string;                (* [Some m]: pool.close rejects *)
  sqlTable : list DirectoryRecord;         (* rows of the directory table *)
  sqlEquals : string -> string -> bool;    (* [=] under the column collation *)
  (* sql-data.js only *)
  opsJiraApi_forceRefresh : option bool;   (* [None]: the import rejects *)
  tempFileExists : bool;
  tempFileRecords : option (list DirectoryRecord) (* [None]: read/parse throws *)
}.

(** Calls that leave the process. *)
Inductive Upstream : Type :=
| HttpSchedules
| HttpOnCalls (scheduleId : string)
| HttpUser (accountId : string)
| SqlConnect
| SqlQueryByEmail (email : string)
| SqlQueryAll
| SqlClose
| FileRead.

Definition isSchedulesCall (u : Upstream) : bool :=
  match u with HttpSchedules => true | _ => false end.

Definition isDatabaseCall (u : Upstream) : bool :=
  match u with
  | SqlConnect | SqlQueryByEmail _ | SqlQueryAll | SqlClose => true
  | _ => false
  end.

(** [SELECT TOP 1 ... FROM table WHERE EmailAddress = @email]: the rows
    whose address equals the parameter under the collation (a [NULL]
    address equals nothing), cut to the first one. *)
Definition selectTop1ByEmail (e : Env) (addr : string) : list DirectoryRecord :=
  firstn 1
    (filter (fun row => match email row with
                        | Some a => sqlEquals e a addr
                        | None => false
                        end)
            (sqlTable e)).

(* ===================================================================== *)
(** ** State-and-exception monad for async functions *)
(* ===================================================================== *)

Section Monad.

Variable St : Type.

(** An async function body: it runs from a module state to an outcome
    and a module state.  State changes made before a throw persist. *)
Definition M (A : Type) : Type := St -> Outcome A * St.

Definition ret {A} (a : A) : M A := fun s => (Returns a, s).

Definition throw {A} (e : Thrown) : M A := fun s => (Throws e, s).

Definition bind {A B} (m : M A) (f : A -> M B) : M B :=
  fun s =>
    match m s with
    | (Returns a, s') => f a s'
    | (Throws e, s') => (Throws e, s')
    end.

(** [try { m } catch (error) { h error }] *)
Definition tryCatch {A} (m : M A) (h : Thrown -> M A) : M A :=
  fun s =>
    match m s with
    | (Returns a, s') => (Returns a, s')
    | (Throws e, s') => h e s'
    end.

(** [try { m } finally { fin }]: [fin] runs on every exit path, and an
    error thrown by [fin] replaces the outcome of [m]. *)
Definition tryFinally {A} (m : M A) (fin : M unit) : M A :=
  fun s =>
    let '(r, s') := m s in
    match fin s' with
    | (Returns _, s'') => (r, s'')
    | (Throws e, s'') => (Throws e, s'')
    end.

End Monad.

Arguments ret {St A} a.
Arguments throw {St A} e.
Arguments bind {St A B} m f.
Arguments tryCatch {St A} m h.
Arguments tryFinally {St A} m fin.

Declare Scope async_scope.
Delimit Scope async_scope with async.
Notation "x <- m ;; k" := (bind m (fun x => k))
  (at level 100, m at next level, right associativity) : async_scope.
Notation "m ;; k" := (bind m (fun _ => k))
  (at level 100, right associativity) : async_scope.
Local Open Scope async_scope.

(** The catch blocks of the client log the error and throw it again. *)
Definition logAndRethrow {St A} (e : Thrown) : M St A := throw e.

(* ===================================================================== *)
(** ** direct-client.js *)
(* ===================================================================== *)

Module DirectClient.

(** One entry of the module-level [cache] object. *)
Record Slot (A : Type) : Type := {
  data : option A;
  expiry : option Z;
  duration : Z
}.
Arguments data {A} s.
Arguments expiry {A} s.
Arguments duration {A} s.

Record Cache : Type := {
  schedules : Slot (list Schedule);
  phoneData : Slot (list DirectoryRecord)
}.

(** Module state: the cache object, and the upstream calls issued so
    far, oldest first. *)
Record State : Type := {
  cache : Cache;
  calls : list Upstream
}.

(** The [cache] object as the module creates it. *)
Definition initialCache : Cache := {|
  schedules := {| data := None; expiry := None;
                  duration := 15 * 60 * 1000 |};
  phoneData := {| data := None; expiry := None;
                  duration := 60 * 60 * 1000 |}
|}.

Definition initialState : State :=
  {| cache := initialCache; calls := [] |}.

(** Issue one upstream call. *)
Definition call (u : Upstream) : M State unit :=
  fun s => (Returns tt, {| cache := cache s; calls := calls s ++ [u] |}).

(** [cache.schedules.data = values; cache.schedules.expiry = t + duration] *)
Definition updateSchedules (values : list Schedule) (t : Z) : M State unit :=
  fun s =>
    let c := cache s in
    (Returns tt,
     {| cache := {| schedules :=
                      {| data := Some values;
                         expiry := Some (t + duration (schedules c));
                         duration := duration (schedules c) |};
                    phoneData := phoneData c |};
        calls := calls s |}).

(** [cache.schedules.data && cache.schedules.expiry &&
     now < cache.schedules.expiry]: an array is truthy even when empty,
    a number is truthy unless it is [0]. *)
Definition schedulesFresh (c : Cache) (t : Z) : bool :=
  match data (schedules c), expiry (schedules c) with
  | Some _, Some e => negb (e =? 0) && (t <? e)
  | _, _ => false
  end.

Definition jiraConfigured (cfg : Config) : bool :=
  truthy (jira_username cfg) && truthy (jira_apiToken cfg) &&
  truthy (jira_cloudId cfg) && truthy (jira_hostUrl cfg) &&
  truthy (jira_basePath cfg).

Definition httpError (status : Z) (statusText : string) : Thrown :=
  Error ("HTTP error " ++ showZ status ++ ": " ++ statusText).

(** [await fetch(...)], [if (!response.ok) throw ...],
    [await response.json()] *)
Definition fetchJson {A} (u : Upstream) (reply : HttpReply A) : M State A :=
  call u ;;
  match reply with
  | FetchRejects m => throw (Rejection m)
  | Response status statusText body =>
      if negb (ok status) then throw (httpError status statusText)
      else match body with
           | JsonRejects m => throw (Rejection m)
           | Json v => ret v
           end
  end.

(** The part of [getSchedules] after the cache check: configuration
    guard, request, validation of the body and cache update. *)
Definition fetchSchedulesFromJira (e : Env) : M State (list Schedule) :=
  if negb (jiraConfigured (config e))
  then throw (Error "Incomplete Jira API configuration")
  else
    tryCatch
      (d <- fetchJson HttpSchedules (fetchSchedules e) ;;
       match d with
       | None => throw (Error "Invalid response format from Jira API")
       | Some values =>
           updateSchedules values (now e) ;;
           ret values
       end)
      logAndRethrow.

(** [getSchedules(requestId)] *)
Definition getSchedules (e : Env) : M State (list Schedule) :=
  fun s =>
    match data (schedules (cache s)) with
    | Some cached =>
        if schedulesFresh (cache s) (now e) then (Returns cached, s)
        else fetchSchedulesFromJira e s
    | None => fetchSchedulesFromJira e s
    end.

(** [schedules.find((schedule) => schedule.name === teamName)] *)
Definition findSchedule (teamName : string) (l : list Schedule)
  : option Schedule :=
  find (fun schedule => String.eqb (name schedule) teamName) l.

(** [getTeamSchedule(teamName, requestId)]; [None] stands for the
    [null]/[undefined] results. *)
Definition getTeamSchedule (e : Env) (teamName : string)
  : M State (option Schedule) :=
  l <- getSchedules e ;;
  match l with
  | [] => ret None
  | _ => ret (findSchedule teamName l)
  end.

(** [getOnCallUser(scheduleId, requestId)]; [None] stands for [null]. *)
Definition getOnCallUser (e : Env) (scheduleId : string)
  : M State (option UserData) :=
  tryCatch
    (onCallData <- fetchJson (HttpOnCalls scheduleId)
                     (fetchOnCalls e scheduleId) ;;
     match onCallParticipants onCallData with
     | None | Some [] => ret None
     | Some (participant :: _) =>
         userData <- fetchJson (HttpUser participant)
                       (fetchUser e participant) ;;
         if negb (truthy (emailAddress userData)) then ret None
         else ret (Some userData)
     end)
    logAndRethrow.

(** The part of [getPhoneNumberByEmail] that runs with an open pool. *)
Definition queryPhoneNumber (e : Env) (addr : string)
  : M State (option string) :=
  call (SqlQueryByEmail addr) ;;
  match sqlQuery e with
  | Some m => throw (Rejection m)
  | None =>
      match selectTop1ByEmail e addr with
      | [] => ret None
      | record :: _ =>
          match cellPhone record with
          | Some raw =>
              if isEmpty raw then ret None
              else ret (Some (formatPhoneNumber raw))
          | None => ret None
          end
      end
  end.

(** [await pool.close()] in the [finally] block. *)
Definition closePool (e : Env) : M State unit :=
  call SqlClose ;;
  match sqlClose e with
  | Some m => throw (Rejection m)
  | None => ret tt
  end.

(** [getPhoneNumberByEmail(email, requestId)]; [None] stands for
    [null]. *)
Definition getPhoneNumberByEmail (e : Env) (addr : string)
  : M State (option string) :=
  let cfg := config e in
  if negb (String.eqb (sql_authMode cfg) "windows") &&
     negb (truthy (sql_username cfg) && truthy (sql_password cfg))
  then throw (Error "SQL authentication requires username and password")
  else if negb (truthy (sql_database cfg))
  then throw (Error "SQL database name is required")
  else
    (* let pool = null; try { pool = await sql.connect(sqlConfig); ... } *)
    call SqlConnect ;;
    match sqlConnect e with
    | Some m =>
        (* pool is still null: catch rethrows, finally closes nothing *)
        tryCatch (throw (Rejection m)) logAndRethrow
    | None =>
        tryFinally (tryCatch (queryPhoneNumber e addr) logAndRethrow)
                   (closePool e)
    end.

(** [getTeamOnCallPhoneNumber(teamName, requestId)] *)
Definition getTeamOnCallPhoneNumber (e : Env) (teamName : string)
  : M State string :=
  tryCatch
    (schedule <- getTeamSchedule e teamName ;;
     match schedule with
     | None => throw (Error ("No schedule found for team: " ++ teamName))
     | Some schedule =>
         user <- getOnCallUser e (id schedule) ;;
         match user with
         | Some {| emailAddress := Some addr |} =>
             if isEmpty addr then
               throw (Error ("No on-call user with email found for team: "
                             ++ teamName))
             else
               phoneNumber <- getPhoneNumberByEmail e addr ;;
               match phoneNumber with
               | Some p =>
                   if isEmpty p then
                     throw (Error ("No phone number found for email: "
                                   ++ addr))
                   else ret p
               | None =>
                   throw (Error ("No phone number found for email: "
                                 ++ addr))
               end
         | _ =>
             throw (Error ("No on-call user with email found for team: "
                           ++ teamName))
         end
     end)
    logAndRethrow.

(** [clearCaches()] *)
Definition clearCaches : M State bool :=
  fun s =>
    let c := cache s in
    (Returns true,
     {| cache := {| schedules := {| data := None; expiry := None;
                                    duration := duration (schedules c) |};
                    phoneData := {| data := None; expiry := None;
                                    duration := duration (phoneData c) |} |};
        calls := calls s |}).

(** [isHealthy(requestId)]: [schedules && schedules.length > 0]. *)
Definition isHealthy (e : Env) : M State bool :=
  tryCatch
    (l <- getSchedules e ;;
     ret (match l with [] => false | _ => true end))
    (fun _ => ret false).

(** [closeSqlConnections()] *)
Definition closeSqlConnections : M State bool := ret true.

(** The functions the module exports, as requests a caller can make. *)
Inductive Request : Type :=
| GetTeamOnCallPhoneNumber (teamName : string)
| GetTeamSchedule (teamName : string)
| GetSchedules
| GetOnCallUser (scheduleId : string)
| GetPhoneNumberByEmail (addr : string)
| ClearCaches
| IsHealthy
| CloseSqlConnections.

(** State after serving one request in environment [e]. *)
Definition serve (e : Env) (r : Request) (s : State) : State :=
  match r with
  | GetTeamOnCallPhoneNumber t => snd (getTeamOnCallPhoneNumber e t s)
  | GetTeamSchedule t => snd (getTeamSchedule e t s)
  | GetSchedules => snd (getSchedules e s)
  | GetOnCallUser i => snd (getOnCallUser e i s)
  | GetPhoneNumberByEmail a => snd (getPhoneNumberByEmail e a s)
  | ClearCaches => snd (clearCaches s)
  | IsHealthy => snd (isHealthy e s)
  | CloseSqlConnections => snd (closeSqlConnections s)
  end.

(** States the module can be in: the initial one, and any state reached
    by serving a request, each in an environment of its own. *)
Inductive reachable : State -> Prop :=
| reachable_initial : reachable initialState
| reachable_serve e r s : reachable s -> reachable (serve e r s).

(** State after a successful refresh of the schedule slot at the time
    of [e]: what [call HttpSchedules] followed by [updateSchedules]
    leaves. *)
Definition refreshed (e : Env) (values : list Schedule) (s : State) : State :=
  {| cache := {| schedules :=
                   {| data := Some values;
                      expiry := Some (now e + duration (schedules (cache s)));
                      duration := duration (schedules (cache s)) |};
                 phoneData := phoneData (cache s) |};
     calls := calls s ++ [HttpSchedules] |}.

End DirectClient.

(* ===================================================================== *)
(** ** server.js: the team route handler *)
(* ===================================================================== *)

Module Server.

(** Endpoint name to Jira schedule name. *)
Definition TEAM_MAPPING : list (string * string) :=
  [ ("helpdesk", "Help-Desk-schedule");
    ("network", "Network-schedule");
    ("ibmi", "IBM-i-schedule");
    ("windows", "Windows-schedule");
    ("sql", "SQL-schedule");
    ("sharepoint", "SharePoint-schedule") ].

(** What the handler sends: [res.send(text)] or
    [res.sendError(status, message)]. *)
Inductive HttpResponse : Type :=
| Send (body : string)
| SendError (status : Z) (message : string).

Definition isWordChar (c : ascii) : bool :=
  let n := nat_of_ascii c in
  (isDigit c || (Nat.leb 65 n && Nat.leb n 90)
   || (Nat.leb 97 n && Nat.leb n 122) || Nat.eqb n 95)%bool.

Definition upperChar (c : ascii) : ascii :=
  let n := nat_of_ascii c in
  if (Nat.leb 97 n && Nat.leb n 122)%bool then ascii_of_nat (n - 32) else c.

Fixpoint capitalizeFrom (afterWordChar : bool) (s : string) : string :=
  match s with
  | EmptyString => EmptyString
  | String c r =>
      String (if (isWordChar c && negb afterWordChar)%bool
              then upperChar c else c)
             (capitalizeFrom (isWordChar c) r)
  end.

(** [teamName.replace(/\b\w/g, (char) => char.toUpperCase())] *)
Definition friendlyTeamName (teamName : string) : string :=
  capitalizeFrom false teamName.

(** [handleTeamPhoneLookup(req, res, teamName)] *)
Definition handleTeamPhoneLookup (e : Env) (teamName : string)
    (s : DirectClient.State) : HttpResponse * DirectClient.State :=
  match DirectClient.getTeamOnCallPhoneNumber e teamName s with
  | (Returns phoneNumber, s') =>
      if isEmpty phoneNumber
      then (SendError 404 ("No on-call phone number found for "
                           ++ friendlyTeamName teamName ++ " team"), s')
      else (Send phoneNumber, s')
  | (Throws err, s') =>
      (SendError 500
         (if isEmpty (message err)
          then "Internal server error processing on-call lookup"
          else message err), s')
  end.

End Server.

(* ===================================================================== *)
(** ** sql-data.js: directory lookup over a cached snapshot *)
(* ===================================================================== *)

Module SqlData.

(** Module-level variables, and the upstream calls issued so far. *)
Record State : Type := {
  phoneDataCache : option (list DirectoryRecord);
  phoneDataExpiry : option Z;
  pool : bool;                  (* [pool] is not null *)
  _forceRefresh : bool;
  calls : list Upstream
}.

Definition CACHE_DURATION : Z := 60 * 60 * 1000.

Definition initialState : State := {|
  phoneDataCache := None; phoneDataExpiry := None;
  pool := false; _forceRefresh := false; calls := []
|}.

Definition call (u : Upstream) : M State unit :=
  fun s => (Returns tt,
            {| phoneDataCache := phoneDataCache s;
               phoneDataExpiry := phoneDataExpiry s;
               pool := pool s; _forceRefresh := _forceRefresh s;
               calls := calls s ++ [u] |}).

Definition setPool (b : bool) : M State unit :=
  fun s => (Returns tt,
            {| phoneDataCache := phoneDataCache s;
               phoneDataExpiry := phoneDataExpiry s;
               pool := b; _forceRefresh := _forceRefresh s;
               calls := calls s |}).

Definition setForceRefresh (b : bool) : M State unit :=
  fun s => (Returns tt,
            {| phoneDataCache := phoneDataCache s;
               phoneDataExpiry := phoneDataExpiry s;
               pool := pool s; _forceRefresh := b;
               calls := calls s |}).

(** [phoneDataCache = records; phoneDataExpiry = t + CACHE_DURATION] *)
Definition setPhoneData (records : list DirectoryRecord) (t : Z)
  : M State unit :=
  fun s => (Returns tt,
            {| phoneDataCache := Some records;
               phoneDataExpiry := Some (t + CACHE_DURATION);
               pool := pool s; _forceRefresh := _forceRefresh s;
               calls := calls s |}).

Definition get : M State State := fun s => (Returns s, s).

(** [initSqlPool()] *)
Definition initSqlPool (e : Env) : M State bool :=
  s <- get ;;
  if pool s then ret true
  else
    call SqlConnect ;;
    match sqlConnect e with
    | Some _ => ret false
    | None => setPool true ;; ret true
    end.

(** [record["Column"] || ""] *)
Definition orEmpty (v : option string) : option string :=
  match v with
  | Some s => Some s
  | None => Some ""
  end.

(** The CSV rows in the record shape of the module. *)
Definition transformRecord (r : DirectoryRecord) : DirectoryRecord := {|
  fullName := orEmpty (fullName r);
  extension := orEmpty (extension r);
  cellPhone := orEmpty (cellPhone r);
  primaryResponsibility := orEmpty (primaryResponsibility r);
  backup := orEmpty (backup r);
  email := orEmpty (email r)
|}.

Definition sqlConfigComplete (cfg : Config) : bool :=
  truthy (sql_username cfg) && truthy (sql_password cfg) &&
  truthy (sql_database cfg).

(** The SQL part of [fetchPhoneData]: every failure ends in the catch
    block, which returns an empty array. *)
Definition fetchFromSql (e : Env) : M State (list DirectoryRecord) :=
  tryCatch
    (if negb (sqlConfigComplete (config e)) then ret []
     else
       initialized <- initSqlPool e ;;
       if negb initialized
       then throw (Error "SQL connection pool not initialized")
       else
         call SqlQueryAll ;;
         match sqlQuery e with
         | Some m => throw (Rejection m)
         | None => ret (sqlTable e)
         end)
    (fun _ => ret []).

(** [fetchPhoneData()]: the CSV file first when configured, then SQL. *)
Definition fetchPhoneData (e : Env) : M State (list DirectoryRecord) :=
  if fallback_useTempFile (config e) then
    if tempFileExists e then
      call FileRead ;;
      match tempFileRecords e with
      | Some records => ret (map transformRecord records)
      | None => fetchFromSql e       (* caught: falls back to SQL *)
      end
    else fetchFromSql e
  else fetchFromSql e.

(** [!_forceRefresh && phoneDataCache && phoneDataExpiry &&
     now < phoneDataExpiry] *)
Definition cacheUsable (s : State) (t : Z) : bool :=
  negb (_forceRefresh s) &&
  match phoneDataCache s, phoneDataExpiry s with
  | Some _, Some x => negb (x =? 0) && (t <? x)
  | _, _ => false
  end.

(** [ensurePhoneDataLoaded()] *)
Definition ensurePhoneDataLoaded (e : Env) : M State unit :=
  match opsJiraApi_forceRefresh e with
  | Some flag => setForceRefresh flag
  | None => ret tt
  end ;;
  s <- get ;;
  if cacheUsable s (now e) then ret tt
  else
    (if _forceRefresh s then setForceRefresh false else ret tt) ;;
    records <- fetchPhoneData e ;;
    setPhoneData records (now e).

(** [(row) => row.email && row.email.toLowerCase() === email.toLowerCase()] *)
Definition emailMatches (addr : string) (row : DirectoryRecord) : bool :=
  match email row with
  | Some a => negb (isEmpty a) && String.eqb (toLowerCase a) (toLowerCase addr)
  | None => false
  end.

(** What the lookup hands to its callback for a record it has found. *)
Definition phoneOfRecord (cfg : Config) (record : DirectoryRecord)
  : option string :=
  if truthy (cellPhone record) then
    match cellPhone record with
    | Some raw => Some (formatPhoneNumber raw)
    | None => None
    end
  else if truthy (extension record) then
    match extension record with
    | Some ext =>
        if negb (isEmpty (trim ext)) then Some (defaultPhoneNumber cfg)
        else None
    | None => None
    end
  else None.

(** [getPhoneNumberByEmail(email, callback)]: the result is the value
    passed to the callback, [None] for [null]. *)
Definition getPhoneNumberByEmail (e : Env) (addr : string)
  : M State (option string) :=
  tryCatch
    (ensurePhoneDataLoaded e ;;
     s <- get ;;
     match phoneDataCache s with
     | None | Some [] => ret None
     | Some rows =>
         match find (emailMatches addr) rows with
         | None => ret None
         | Some record => ret (phoneOfRecord (config e) record)
         end
     end)
    (fun _ => ret None).

End SqlData.

(* ===================================================================== *)
(** ** Vocabulary of the properties *)
(* ===================================================================== *)

(** Eleven decimal digits, the first one "1". *)
Definition elevenDigitsFrom1 (s : string) : bool :=
  (Nat.eqb (String.length s) 11 && allDigits s && startsWith s "1")%bool.

(** The two failure kinds a caller may want to tell apart. *)
Inductive Kind : Type := NotFound | UpstreamError.

(** Reading the kind off a thrown value: the three messages with which
    [getTeamOnCallPhoneNumber] reports a missing schedule, user or phone
    number are NotFound; every other error is an upstream error. *)
Definition classify (err : Thrown) : Kind :=
  match err with
  | Error m =>
      if (startsWith m "No schedule found for team: "
          || startsWith m "No on-call user with email found for team: "
          || startsWith m "No phone number found for email: ")%bool
      then NotFound else UpstreamError
  | Rejection _ => UpstreamError
  end.

(** An HTTP exchange that does not deliver a JSON body: transport
    failure, status outside 200-299 (which covers rejected credentials),
    or a body that does not parse. *)
Definition delivers {A} (reply : HttpReply A) : option A :=
  match reply with
  | Response status _ (Json v) => if ok status then Some v else None
  | _ => None
  end.

(** The SQL guards of the direct client pass. *)
Definition sqlConfigured (cfg : Config) : bool :=
  (String.eqb (sql_authMode cfg) "windows"
   || (truthy (sql_username cfg) && truthy (sql_password cfg)))
  && truthy (sql_database cfg).

(** The database answers: connect, query and close all succeed. *)
Definition sqlAnswers (e : Env) : bool :=
  match sqlConnect e, sqlQuery e, sqlClose e with
  | None, None, None => true
  | _, _, _ => false
  end.

Module Failure.

Import DirectClient.

(** The ways in which a resolution can fail, stage by stage.  The three
    stage functions are those of the client; the replies are those of
    the environment. *)
Inductive cause (e : Env) (teamName : string) (s : State) : Kind -> Prop :=
(* NotFound *)
| no_rotation_match l s1 :
    getSchedules e s = (Returns l, s1) ->
    findSchedule teamName l = None ->
    cause e teamName s NotFound
| no_on_call_participant sch s1 d :
    getTeamSchedule e teamName s = (Returns (Some sch), s1) ->
    delivers (fetchOnCalls e (id sch)) = Some d ->
    onCallParticipants d = None \/ onCallParticipants d = Some [] ->
    cause e teamName s NotFound
| profile_without_email sch s1 d p ps u :
    getTeamSchedule e teamName s = (Returns (Some sch), s1) ->
    delivers (fetchOnCalls e (id sch)) = Some d ->
    onCallParticipants d = Some (p :: ps) ->
    delivers (fetchUser e p) = Some u ->
    truthy (emailAddress u) = false ->
    cause e teamName s NotFound
| no_directory_record sch s1 u s2 addr :
    getTeamSchedule e teamName s = (Returns (Some sch), s1) ->
    getOnCallUser e (id sch) s1 = (Returns (Some u), s2) ->
    emailAddress u = Some addr ->
    sqlConfigured (config e) = true -> sqlAnswers e = true ->
    selectTop1ByEmail e addr = [] ->
    cause e teamName s NotFound
| no_phone_on_record sch s1 u s2 addr record rest :
    getTeamSchedule e teamName s = (Returns (Some sch), s1) ->
    getOnCallUser e (id sch) s1 = (Returns (Some u), s2) ->
    emailAddress u = Some addr ->
    sqlConfigured (config e) = true -> sqlAnswers e = true ->
    selectTop1ByEmail e addr = record :: rest ->
    truthy (cellPhone record) = false ->
    cause e teamName s NotFound
| phone_without_digits sch s1 u s2 addr record rest raw :
    getTeamSchedule e teamName s = (Returns (Some sch), s1) ->
    getOnCallUser e (id sch) s1 = (Returns (Some u), s2) ->
    emailAddress u = Some addr ->
    sqlConfigured (config e) = true -> sqlAnswers e = true ->
    selectTop1ByEmail e addr = record :: rest ->
    cellPhone record = Some raw ->
    isEmpty (formatPhoneNumber raw) = true ->
    cause e teamName s NotFound
(* UpstreamError *)
| schedules_request_fails :
    schedulesFresh (cache s) (now e) = false ->
    jiraConfigured (config e) = true ->
    delivers (fetchSchedules e) = None \/
    delivers (fetchSchedules e) = Some None ->
    cause e teamName s UpstreamError
| on_call_request_fails sch s1 :
    getTeamSchedule e teamName s = (Returns (Some sch), s1) ->
    delivers (fetchOnCalls e (id sch)) = None ->
    cause e teamName s UpstreamError
| user_request_fails sch s1 d p ps :
    getTeamSchedule e teamName s = (Returns (Some sch), s1) ->
    delivers (fetchOnCalls e (id sch)) = Some d ->
    onCallParticipants d = Some (p :: ps) ->
    delivers (fetchUser e p) = None ->
    cause e teamName s UpstreamError
| database_fails sch s1 u s2 addr :
    getTeamSchedule e teamName s = (Returns (Some sch), s1) ->
    getOnCallUser e (id sch) s1 = (Returns (Some u), s2) ->
    emailAddress u = Some addr ->
    sqlConfigured (config e) = true -> sqlAnswers e = false ->
    cause e teamName s UpstreamError.

End Failure.

(** The three errors with which [getTeamOnCallPhoneNumber] reports that
    there is nothing to return. *)
Definition noSchedule (teamName : string) : Thrown :=
  Error ("No schedule found for team: " ++ teamName).
Definition noUser (teamName : string) : Thrown :=
  Error ("No on-call user with email found for team: " ++ teamName).
Definition noPhone (addr : string) : Thrown :=
  Error ("No phone number found for email: " ++ addr).

(** What the direct lookup reads from the directory once the query has
    run: the formatted cell phone of the first row selected, [None] when
    no row is selected or the row has no cell phone. *)
Definition recordPhone (e : Env) (addr : string) : option string :=
  match selectTop1ByEmail e addr with
  | [] => None
  | record :: _ =>
      match cellPhone record with
      | Some raw => if isEmpty raw then None else Some (formatPhoneNumber raw)
      | None => None
      end
  end.

(** The upstream calls of one direct lookup that gets as far as the
    query. *)
Definition lookupCalls (addr : string) : list Upstream :=
  [SqlConnect; SqlQueryByEmail addr; SqlClose].

(** The flag [ensurePhoneDataLoaded] works with once it has tried to
    import it from ops-jira-api.js. *)
Definition syncedForceRefresh (e : Env) (s : SqlData.State) : bool :=
  match opsJiraApi_forceRefresh e with
  | Some flag => flag
  | None => SqlData._forceRefresh s
  end.

(** The lookup has to refresh the directory snapshot. *)
Definition refreshDue (e : Env) (s : SqlData.State) : bool :=
  negb (negb (syncedForceRefresh e s) &&
        match SqlData.phoneDataCache s, SqlData.phoneDataExpiry s with
        | Some _, Some x => negb (x =? 0) && (now e <? x)
        | _, _ => false
        end).

(** The refresh is served from the CSV file. *)
Definition servedFromFile (e : Env) : bool :=
  fallback_useTempFile (config e) && tempFileExists e &&
  match tempFileRecords e with Some _ => true | None => false end.

Module Refresh.

Import SqlData.

(** A pool is at hand for the bulk query: it exists already or the
    connection attempt succeeds. *)
Definition poolReady (e : Env) (s : State) : bool :=
  pool s || match sqlConnect e with None => true | Some _ => false end.

(** Rows the SQL part of a refresh yields: the table when the
    configuration is complete, a pool is at hand and the query answers;
    no rows otherwise. *)
Definition sqlRows (e : Env) (s : State) : list DirectoryRecord :=
  if sqlConfigComplete (config e) && poolReady e s
  then match sqlQuery e with None => sqlTable e | Some _ => [] end
  else [].

(** Upstream calls of the SQL part of a refresh. *)
Definition sqlCalls (e : Env) (s : State) : list Upstream :=
  if sqlConfigComplete (config e)
  then (if pool s then [] else [SqlConnect])
       ++ (if poolReady e s then [SqlQueryAll] else [])
  else [].

Definition fileCalls (e : Env) : list Upstream :=
  if fallback_useTempFile (config e) && tempFileExists e
  then [FileRead] else [].

(** The snapshot a refresh stores. *)
Definition snapshot (e : Env) (s : State) : list DirectoryRecord :=
  if servedFromFile e
  then match tempFileRecords e with
       | Some records => map transformRecord records
       | None => []
       end
  else sqlRows e s.

(** State after a refresh in [e]. *)
Definition fetched (e : Env) (s : State) : State := {|
  phoneDataCache := Some (snapshot e s);
  phoneDataExpiry := Some (now e + CACHE_DURATION);
  pool := if servedFromFile e then pool s
          else if sqlConfigComplete (config e) then poolReady e s
          else pool s;
  _forceRefresh := false;
  calls := calls s ++ fileCalls e
           ++ (if servedFromFile e then [] else sqlCalls e s)
|}.

(** State after a lookup served from the snapshot in memory. *)
Definition served (e : Env) (s : State) : State := {|
  phoneDataCache := phoneDataCache s;
  phoneDataExpiry := phoneDataExpiry s;
  pool := pool s;
  _forceRefresh := syncedForceRefresh e s;
  calls := calls s
|}.

(** What a lookup answers from a given snapshot. *)
Definition answer (cfg : Config) (addr : string)
    (rows : option (list DirectoryRecord)) : option string :=
  match rows with
  | None | Some [] => None
  | Some rows =>
      match find (emailMatches addr) rows with
      | None => None
      | Some record => phoneOfRecord cfg record
      end
  end.

End Refresh.

(* ===================================================================== *)
(** ** Scenarios *)
(* ===================================================================== *)

Module Scenario.

Definition cfg : Config := {|
  jira_username := Some "svc-oncall";
  jira_apiToken := Some "token";
  jira_cloudId := Some "cloud-1";
  jira_hostUrl := Some "https://api.example.com";
  jira_basePath := Some "jsm/ops/api";
  sql_database := Some "Directory";
  sql_authMode := "sql";
  sql_username := Some "reader";
  sql_password := Some "secret";
  fallback_useTempFile := false;
  defaultPhoneNumber := "15555555555"
|}.

Definition helpDesk : Schedule :=
  {| id := "sched-1"; name := "Help-Desk-schedule" |}.
Definition network : Schedule :=
  {| id := "sched-2"; name := "Network-schedule" |}.

Definition alice : UserData :=
  {| emailAddress := Some "a@x.com"; displayName := Some "Alice" |}.

(** A directory row for a@x.com. *)
Definition row (cell ext : option string) : DirectoryRecord := {|
  fullName := Some "Alice"; extension := ext; cellPhone := cell;
  primaryResponsibility := None; backup := None;
  email := Some "a@x.com"
|}.

(** A world in which the roster answers with [rota], Alice is on call
    and the directory table is [table]; the query rejects with
    [queryError] when that is given. *)
Definition world (t : Z) (rota : HttpReply (option (list Schedule)))
    (table : list DirectoryRecord) (queryError : option string) : Env := {|
  now := t;
  config := cfg;
  fetchSchedules := rota;
  fetchOnCalls := fun _ =>
    Response 200 "OK" (Json {| onCallParticipants := Some ["acct-1"] |});
  fetchUser := fun _ => Response 200 "OK" (Json alice);
  sqlConnect := None;
  sqlQuery := queryError;
  sqlClose := None;
  sqlTable := table;
  sqlEquals := String.eqb;
  opsJiraApi_forceRefresh := None;
  tempFileExists := false;
  tempFileRecords := None
|}.

Definition rota : HttpReply (option (list Schedule)) :=
  Response 200 "OK" (Json (Some [helpDesk; network])).

Definition unavailable : HttpReply (option (list Schedule)) :=
  Response 503 "Service Unavailable" (JsonRejects "no body").

(** The no-break space U+00A0, as a string of one code unit. *)
Definition nbsp : string := String (ascii_of_nat 160) "".

End Scenario.

(* ===================================================================== *)
(** ** console-dashboard.js: request statistics and screen updates *)
(* ===================================================================== *)

Module Dashboard.

(** The team names [requestTracking] hands to [trackRequest]: the eight
    routes it recognises, and ["other"]. *)
Inductive Route : Type :=
| helpdesk | network | ibmi | windows | sql | sharepoint | test | health
| other.

Definition routeName (r : Route) : string :=
  match r with
  | helpdesk => "helpdesk" | network => "network" | ibmi => "ibmi"
  | windows => "windows" | sql => "sql" | sharepoint => "sharepoint"
  | test => "test" | health => "health" | other => "other"
  end.

Definition isLowerAlnum (c : ascii) : bool :=
  let n := nat_of_ascii c in
  (isDigit c || (Nat.leb 97 n && Nat.leb n 122))%bool.

(** [s.replace(/[^a-z0-9]/g, ...)] with the empty replacement. *)
Fixpoint keepLowerAlnum (s : string) : string :=
  match s with
  | EmptyString => EmptyString
  | String c r => if isLowerAlnum c then String c (keepLowerAlnum r)
                  else keepLowerAlnum r
  end.

(** One entry of [appState.errors]. *)
Record ErrorEntry : Type := {
  timestamp : Z;
  message : string;
  error : option string     (* [error.stack || error.toString()], or null *)
}.

(** [appState]; [requests_teams] holds the own keys of
    [appState.requests.teams] in insertion order. *)
Record AppState : Type := {
  requests_total : Z;
  requests_success : Z;
  requests_error : Z;
  requests_teams : list (string * Z);
  lastError : option ErrorEntry;
  errors : list ErrorEntry;
  maxErrors : nat
}.

Definition initialAppState : AppState := {|
  requests_total := 0; requests_success := 0; requests_error := 0;
  requests_teams :=
    [("helpdesk", 0); ("network", 0); ("ibmi", 0); ("windows", 0);
     ("sql", 0); ("sharepoint", 0); ("test", 0); ("health", 0)];
  lastError := None; errors := []; maxErrors := 10
|}.

(** [if (teams[key] !== undefined) teams[key]++] on the own keys. *)
Fixpoint increment (key : string) (teams : list (string * Z))
  : list (string * Z) :=
  match teams with
  | [] => []
  | (k, v) :: rest =>
      if String.eqb k key then (k, v + 1) :: rest
      else (k, v) :: increment key rest
  end.

(** [trackRequest(team, success)] *)
Definition trackRequest (team : Route) (success : bool) (s : AppState)
  : AppState :=
  let normTeam := keepLowerAlnum (toLowerCase (routeName team)) in
  {| requests_total := requests_total s + 1;
     requests_success :=
       if success then requests_success s + 1 else requests_success s;
     requests_error :=
       if success then requests_error s else requests_error s + 1;
     requests_teams := increment normTeam (requests_teams s);
     lastError := lastError s; errors := errors s;
     maxErrors := maxErrors s |}.

(** [trackError(message, error)] at time [t]: the entry goes to the front
    and the oldest one is dropped when the list exceeds [maxErrors]. *)
Definition trackError (t : Z) (msg : string) (err : option string)
    (s : AppState) : AppState :=
  let errorObj := {| timestamp := t; message := msg; error := err |} in
  let unshifted := errorObj :: errors s in
  {| requests_total := requests_total s;
     requests_success := requests_success s;
     requests_error := requests_error s;
     requests_teams := requests_teams s;
     lastError := Some errorObj;
     errors := if Nat.ltb (maxErrors s) (List.length unshifted)
               then removelast unshifted else unshifted;
     maxErrors := maxErrors s |}.

(** [resetStats()] *)
Definition resetStats (s : AppState) : AppState :=
  {| requests_total := 0; requests_success := 0; requests_error := 0;
     requests_teams := map (fun entry => (fst entry, 0)) (requests_teams s);
     lastError := lastError s; errors := errors s;
     maxErrors := maxErrors s |}.

(** The team [requestTracking] derives from [req.url]. *)
Definition teamOfUrl (reqUrl : string) : Route :=
  let url := toLowerCase reqUrl in
  if startsWith url "/helpdesk" then helpdesk
  else if startsWith url "/network" then network
  else if startsWith url "/ibmi" then ibmi
  else if startsWith url "/windows" then windows
  else if startsWith url "/sql" then sql
  else if startsWith url "/sharepoint" then sharepoint
  else if startsWith url "/test" then test
  else if startsWith url "/health" then health
  else other.

(** What [requestTracking] does when the response of a request for
    [reqUrl] ends with [statusCode]. *)
Definition requestTracking (reqUrl : string) (statusCode : Z)
    (s : AppState) : AppState :=
  trackRequest (teamOfUrl reqUrl) (statusCode <? 400) s.

(** Module variables of the screen update, and the redraws made so far,
    newest first, each with its time and whether it was forced. *)
Record Screen : Type := {
  isDashboardVisible : bool;
  lastUpdateTime : Z;
  pendingUpdate : bool;
  redraws : list (Z * bool)
}.

Definition initialScreen : Screen := {|
  isDashboardVisible := false; lastUpdateTime := 0;
  pendingUpdate := false; redraws := []
|}.

(** [updateDashboard(force)] at time [t] *)
Definition updateDashboard (force : bool) (t : Z) (s : Screen) : Screen :=
  if negb (isDashboardVisible s) then s
  else if negb force && (t - lastUpdateTime s <? 250) then
    {| isDashboardVisible := isDashboardVisible s;
       lastUpdateTime := lastUpdateTime s;
       pendingUpdate := true;
       redraws := redraws s |}
  else
    {| isDashboardVisible := isDashboardVisible s;
       lastUpdateTime := t;
       pendingUpdate := false;
       redraws := (t, force) :: redraws s |}.

(** [initializeDashboard()] at time [t], as far as the screen goes. *)
Definition initializeDashboard (t : Z) (s : Screen) : Screen :=
  updateDashboard true t
    {| isDashboardVisible := true;
       lastUpdateTime := lastUpdateTime s;
       pendingUpdate := pendingUpdate s;
       redraws := redraws s |}.

(** The 15-second interval callback at time [t]. *)
Definition intervalTick (t : Z) (s : Screen) : Screen :=
  if pendingUpdate s || (15000 <=? t - lastUpdateTime s)
  then updateDashboard true t s else s.

(** The whole module: statistics and screen. *)
Record State : Type := { app : AppState; screen : Screen }.

Definition initialState : State :=
  {| app := initialAppState; screen := initialScreen |}.

(** What can happen to the module. *)
Inductive Event : Type :=
| Initialize (t : Z)                       (* initializeDashboard() *)
| Log (t : Z)                              (* logger.info/success/warning *)
| LogError (t : Z) (msg : string) (err : option string)  (* logger.error *)
| RequestEnd (reqUrl : string) (statusCode : Z)  (* res.end of a request *)
| ResetStats                               (* resetStats() *)
| Tick (t : Z)                             (* the interval fires *)
| KeyR (t : Z).                            (* 'r' is pressed *)

Definition step (ev : Event) (s : State) : State :=
  match ev with
  | Initialize t =>
      {| app := app s; screen := initializeDashboard t (screen s) |}
  | Log t =>
      {| app := app s; screen := updateDashboard false t (screen s) |}
  | LogError t msg err =>
      {| app := trackError t msg err (app s);
         screen := updateDashboard true t (screen s) |}
  | RequestEnd reqUrl statusCode =>
      {| app := requestTracking reqUrl statusCode (app s);
         screen := screen s |}
  | ResetStats => {| app := resetStats (app s); screen := screen s |}
  | Tick t => {| app := app s; screen := intervalTick t (screen s) |}
  | KeyR t =>
      {| app := app s; screen := updateDashboard true t (screen s) |}
  end.

Inductive reachable : State -> Prop :=
| reachable_initial : reachable initialState
| reachable_step ev s : reachable s -> reachable (step ev s).

(** [teams[key]], with [0] for a name that is no own key. *)
Fixpoint teamCount (key : string) (teams : list (string * Z)) : Z :=
  match teams with
  | [] => 0
  | (k, v) :: rest => if String.eqb k key then v else teamCount key rest
  end.

(** Sum of the team counters. *)
Definition teamsTotal (teams : list (string * Z)) : Z :=
  fold_right (fun entry acc => snd entry + acc) 0 teams.

(** No unforced redraw comes sooner than 250 ms after the redraw before
    it. *)
Fixpoint throttled (l : list (Z * bool)) : Prop :=
  match l with
  | (t2, forced) :: (((t1, _) :: _) as older) =>
      (forced = false -> t1 + 250 <= t2) /\ throttled older
  | _ => True
  end.

(** [key] is an own key of the object. *)
Definition hasKey (key : string) (teams : list (string * Z)) : bool :=
  existsb (fun entry => String.eqb (fst entry) key) teams.

(** What holds of the statistics in every state the module can reach. *)
Definition consistent (a : AppState) : Prop :=
  requests_total a = requests_success a + requests_error a
  /\ 0 <= requests_success a /\ 0 <= requests_error a
  /\ 0 <= teamsTotal (requests_teams a)
  /\ teamsTotal (requests_teams a) <= requests_total a
  /\ map fst (requests_teams a) = map fst (requests_teams initialAppState)
  /\ (List.length (errors a) <= 10)%nat
  /\ lastError a = hd_error (errors a)
  /\ maxErrors a = 10%nat.

(** What holds of the screen in every state the module can reach. *)
Definition orderly (sc : Screen) : Prop :=
  throttled (redraws sc)
  /\ match redraws sc with
     | (t, _) :: _ => lastUpdateTime sc = t
     | [] => True
     end
  /\ (isDashboardVisible sc = false -> redraws sc = []).

End Dashboard.

(* ===================================================================== *)
(** ** server.js: masking of numbers in the log *)
(* ===================================================================== *)

Module ServerLog.

(** [s.substring(n)]: the characters from index [n] on. *)
Fixpoint substringFrom (n : nat) (s : string) : string :=
  match n, s with
  | O, _ => s
  | S n', String _ r => substringFrom n' r
  | S _, EmptyString => EmptyString
  end.

(** The [number] field [handleTeamPhoneLookup] logs for a number it
    sends:
<<
    phoneNumber.length > 4
      ? `****${phoneNumber.substring(phoneNumber.length - 4)}` : "****"
>> *)
Definition maskedNumber (phoneNumber : string) : string :=
  if Nat.ltb 4 (String.length phoneNumber)
  then "****" ++ substringFrom (String.length phoneNumber - 4) phoneNumber
  else "****".

(** The [number] field the test route logs: [`****${testNumber.slice(-4)}`],
    where [slice(-4)] starts at [max(length - 4, 0)]. *)
Definition maskedTestNumber (testNumber : string) : string :=
  "****" ++ substringFrom (String.length testNumber - 4) testNumber.

End ServerLog.

(* ===================================================================== *)
(** ** sql-data.js: pool shutdown and health probe *)
(* ===================================================================== *)

Module SqlDataPool.

Import SqlData.

(** [closePool()] *)
Definition closePool (e : Env) : M State bool :=
  s <- get ;;
  if negb (pool s) then ret true
  else
    call SqlClose ;;
    match sqlClose e with
    | Some _ => ret false                 (* caught: the pool is kept *)
    | None => setPool false ;; ret true
    end.

(** The module state together with the number of probe queries
    ([SELECT 1 AS healthCheck]) sent so far. *)
Record Probed : Type := { moduleState : State; probeQueries : nat }.

(** [isHealthy()].  The file exists for [fs.promises.access] exactly when
    it does for [fs.existsSync].  In the last branch the argument [err] of
    [logError] names no variable in scope, so evaluating it throws a
    ReferenceError. *)
Definition isHealthy (e : Env) (s : Probed) : Outcome bool * Probed :=
  if fallback_useTempFile (config e) then
    (Returns (tempFileExists e), s)
  else if sqlConfigComplete (config e) then
    match initSqlPool e (moduleState s) with
    | (Returns initialized, s1) =>
        if negb initialized
        then (Returns false,
              {| moduleState := s1; probeQueries := probeQueries s |})
        else
          (Returns (match sqlQuery e with None => true | Some _ => false end),
           {| moduleState := s1; probeQueries := S (probeQueries s) |})
    | (Throws _, s1) =>
        (Returns false,
         {| moduleState := s1; probeQueries := probeQueries s |})
    end
  else (Throws (Rejection "err is not defined"), s).

End SqlDataPool.

(* ===================================================================== *)
(** ** config.js: loading and validation *)
(* ===================================================================== *)

Module ConfigJs.

(** [process.env] *)
Definition ProcessEnv : Type := string -> option string.

(** [value || fallback] for a string or [undefined]. *)
Definition orDefault (value : option string) (fallback : string) : string :=
  match value with
  | Some s => if isEmpty s then fallback else s
  | None => fallback
  end.

(** The [config] object, as far as the client reads it. *)
Definition loadConfig (penv : ProcessEnv) : Config := {|
  jira_username := penv "JIRA_USERNAME";
  jira_apiToken := penv "JIRA_API_TOKEN";
  jira_cloudId := penv "JIRA_CLOUD_ID";
  jira_hostUrl := penv "JIRA_HOST_URL";
  jira_basePath := penv "JIRA_BASE_PATH";
  sql_database := penv "SQL_DATABASE";
  sql_authMode := toLowerCase (orDefault (penv "SQL_AUTH_MODE") "sql");
  sql_username := penv "SQL_USERNAME";
  sql_password := penv "SQL_PASSWORD";
  fallback_useTempFile := false;
  defaultPhoneNumber := orDefault (penv "DEFAULT_PHONE_NUMBER") "15555555555"
|}.

(** [config.sql.server] *)
Definition sql_server (penv : ProcessEnv) : string :=
  orDefault (penv "SQL_SERVER") "localhost".

(** [config.fallback.tempFile] *)
Definition fallback_tempFile (penv : ProcessEnv) : string :=
  orDefault (penv "TEMP_FILE") "phone-list.csv".

(** The entries of [requiredVars]: the name of the variable and the
    configuration value its path leads to. *)
Definition jiraVars (cfg : Config) : list (string * option string) :=
  [ ("JIRA_USERNAME", jira_username cfg);
    ("JIRA_API_TOKEN", jira_apiToken cfg);
    ("JIRA_CLOUD_ID", jira_cloudId cfg);
    ("JIRA_HOST_URL", jira_hostUrl cfg);
    ("JIRA_BASE_PATH", jira_basePath cfg) ].

(** What [checkSqlConfig(requiredVars)] pushes. *)
Definition checkSqlConfig (penv : ProcessEnv) (cfg : Config)
  : list (string * option string) :=
  [ ("SQL_SERVER", Some (sql_server penv));
    ("SQL_DATABASE", sql_database cfg) ]
  ++ (if String.eqb (sql_authMode cfg) "sql"
      then [ ("SQL_USERNAME", sql_username cfg);
             ("SQL_PASSWORD", sql_password cfg) ]
      else [])%list.

(** The names [validateConfig()] reports as missing. *)
Definition missingVars (penv : ProcessEnv) : list string :=
  let cfg := loadConfig penv in
  let requiredVars :=
    (jiraVars cfg
     ++ (if negb (fallback_useTempFile cfg) then checkSqlConfig penv cfg
         else []))%list in
  map fst (filter (fun variable => negb (truthy (snd variable))) requiredVars).

End ConfigJs.

(* ===================================================================== *)
(** ** test-jira.js: the offline schedule listing *)
(* ===================================================================== *)

Module Diagnostic.

Definition isLineBreak (c : ascii) : bool :=
  let n := nat_of_ascii c in (Nat.eqb n 13 || Nat.eqb n 10)%bool.

Definition isQuote (c : ascii) : bool :=
  let n := nat_of_ascii c in (Nat.eqb n 34 || Nat.eqb n 39)%bool.

(** [s.replace(/[\r\n]/g, ...)] with one space as replacement. *)
Fixpoint replaceLineBreaks (s : string) : string :=
  match s with
  | EmptyString => EmptyString
  | String c r =>
      String (if isLineBreak c then " "%char else c) (replaceLineBreaks r)
  end.

(** [s.replace] with the class of the double and the single quote and
    the empty replacement. *)
Fixpoint removeQuotes (s : string) : string :=
  match s with
  | EmptyString => EmptyString
  | String c r => if isQuote c then removeQuotes r
                  else String c (removeQuotes r)
  end.

(** [sanitize(str)] *)
Definition sanitize (str : string) : string :=
  removeQuotes (replaceLineBreaks str).

(** [hay.includes(needle)] *)
Fixpoint includes (hay needle : string) : bool :=
  (startsWith hay needle ||
   match hay with
   | EmptyString => false
   | String _ rest => includes rest needle
   end)%bool.

(** The schedules the listing suggests for an endpoint. *)
Definition potentialMatches (endpoint : string) (schedules : list Schedule)
  : list Schedule :=
  let normalized := toLowerCase endpoint in
  filter (fun s => (includes (toLowerCase (name s)) normalized
                    || includes normalized (toLowerCase (name s)))%bool)
         schedules.

(** The endpoints the listing goes through. *)
Definition endpoints : list string :=
  ["helpdesk"; "network"; "ibmi"; "windows"; "sql"; "sharepoint"].

(** Neither a line break nor a quote. *)
Definition clean (c : ascii) : bool :=
  (negb (isLineBreak c) && negb (isQuote c))%bool.

End Diagnostic.

(* ===================================================================== *)
(** ** Vocabulary of the further properties *)
(* ===================================================================== *)

Definition isConnect (u : Upstream) : bool :=
  match u with SqlConnect => true | _ => false end.



Definition isFileRead (u : Upstream) : bool :=
  match u with FileRead => true | _ => false end.

(** The upstream calls of a resolution that runs to the end, after the
    schedule list is at hand. *)
Definition stageCalls (scheduleId acct addr : string) : list Upstream :=
  [HttpOnCalls scheduleId; HttpUser acct; SqlConnect; SqlQueryByEmail addr;
   SqlClose].

(** The text the route handler sends when the thrown error has an empty
    message. *)
Definition fallbackMessage : string :=
  "Internal server error processing on-call lookup".


(** Text in ASCII: every code unit is below 128.  On such text white
    space and case mapping are those of ASCII, however the text was
    encoded before it reached the code. *)
Definition isAscii (s : string) : bool :=
  forallb (fun c => Nat.ltb (nat_of_ascii c) 128) (list_ascii_of_string s).

(** The addresses of the rows are ASCII text. *)
Definition asciiEmails (rows : list DirectoryRecord) : bool :=
  forallb (fun r => match email r with
                    | Some a => isAscii a
                    | None => true
                    end) rows.


(* ===================================================================== *)
(** ** Process environments for the scenarios *)
(* ===================================================================== *)

Module ScenarioEnv.

(** A process environment with the Jira variables and the database name
    set, and the authentication mode and the SQL credentials as given. *)
Definition processEnv (authMode username password : option string)
  : ConfigJs.ProcessEnv :=
  fun variable =>
    if String.eqb variable "JIRA_USERNAME" then Some "svc-oncall"
    else if String.eqb variable "JIRA_API_TOKEN" then Some "token"
    else if String.eqb variable "JIRA_CLOUD_ID" then Some "cloud-1"
    else if String.eqb variable "JIRA_HOST_URL"
         then Some "https://api.example.com"
    else if String.eqb variable "JIRA_BASE_PATH" then Some "jsm/ops/api"
    else if String.eqb variable "SQL_DATABASE" then Some "Directory"
    else if String.eqb variable "SQL_AUTH_MODE" then authMode
    else if String.eqb variable "SQL_USERNAME" then username
    else if String.eqb variable "SQL_PASSWORD" then password
    else None.

(** The world of [Scenario.world] under a configuration of its own. *)
Definition worldWith (cfg : Config) (table : list DirectoryRecord) : Env := {|
  now := 1000;
  config := cfg;
  fetchSchedules := Scenario.rota;
  fetchOnCalls := fun _ =>
    Response 200 "OK" (Json {| onCallParticipants := Some ["acct-1"] |});
  fetchUser := fun _ => Response 200 "OK" (Json Scenario.alice);
  sqlConnect := None;
  sqlQuery := None;
  sqlClose := None;
  sqlTable := table;
  sqlEquals := String.eqb;
  opsJiraApi_forceRefresh := None;
  tempFileExists := true;
  tempFileRecords := Some []
|}.

End ScenarioEnv.

(* ===================================================================== *)
(** ** Proof automation *)
(* ===================================================================== *)

(** Unfold the monad to plain case analysis. *)
Ltac run :=
  unfold tryFinally, tryCatch, logAndRethrow, bind, ret, throw,
    DirectClient.call, DirectClient.updateSchedules in *; simpl in *.

(* ===================================================================== *)
(** * Properties *)
(* ===================================================================== *)

(** ** Strings and phone formatting *)

Lemma space_not_digit (c : ascii) : isSpace c = true -> isDigit c = false.
Proof.
  destruct c as [[] [] [] [] [] [] [] []]; cbv; congruence.
Qed.

Lemma replaceNonDigits_filter (s : string) :
  replaceNonDigits s =
  string_of_list_ascii (filter isDigit (list_ascii_of_string s)).
Proof.
  induction s as [|c r IH]; simpl; [reflexivity|].
  destruct (isDigit c); simpl; now rewrite IH.
Qed.

Lemma replaceNonDigits_trimStart (s : string) :
  replaceNonDigits (trimStart s) = replaceNonDigits s.
Proof.
  induction s as [|c r IH]; simpl; [reflexivity|].
  destruct (isSpace c) eqn:Hc; [|reflexivity].
  now rewrite (space_not_digit c Hc).
Qed.

Lemma replaceNonDigits_trimEnd (s : string) :
  replaceNonDigits (trimEnd s) = replaceNonDigits s.
Proof.
  induction s as [|c r IH]; simpl; [reflexivity|].
  destruct (isSpace c) eqn:Hc; simpl.
  - rewrite (space_not_digit c Hc), <- IH.
    destruct (trimEnd r); simpl; [reflexivity|].
    now rewrite (space_not_digit c Hc).
  - now rewrite IH.
Qed.

Lemma replaceNonDigits_trim (s : string) :
  replaceNonDigits (trim s) = replaceNonDigits s.
Proof.
  unfold trim. now rewrite replaceNonDigits_trimEnd, replaceNonDigits_trimStart.
Qed.

Lemma replaceNonDigits_allDigits (s : string) :
  allDigits (replaceNonDigits s) = true.
Proof.
  unfold allDigits.
  induction s as [|c r IH]; simpl; [reflexivity|].
  destruct (isDigit c) eqn:Hc; simpl; [now rewrite Hc|exact IH].
Qed.

Lemma allDigits_append (a b : string) :
  allDigits (a ++ b) = allDigits a && allDigits b.
Proof.
  unfold allDigits.
  induction a as [|c r IH]; simpl; [reflexivity|].
  now rewrite IH, andb_assoc.
Qed.

Lemma formatPhoneNumber_unfold (raw : string) :
  formatPhoneNumber raw =
  if Nat.eqb (String.length (replaceNonDigits raw)) 10
  then "1" ++ replaceNonDigits raw
  else replaceNonDigits raw.
Proof.
  unfold formatPhoneNumber. now rewrite replaceNonDigits_trim.
Qed.

Lemma formatPhoneNumber_allDigits (raw : string) :
  allDigits (formatPhoneNumber raw) = true.
Proof.
  rewrite formatPhoneNumber_unfold.
  destruct (Nat.eqb _ 10).
  - rewrite allDigits_append, replaceNonDigits_allDigits. reflexivity.
  - apply replaceNonDigits_allDigits.
Qed.

Lemma formatPhoneNumber_length (raw : string) :
  String.length (formatPhoneNumber raw) <> 10%nat.
Proof.
  rewrite formatPhoneNumber_unfold.
  destruct (Nat.eqb _ 10) eqn:H.
  - apply Nat.eqb_eq in H. simpl. rewrite H. discriminate.
  - now apply Nat.eqb_neq in H.
Qed.

(** C4.  Formatting keeps exactly the decimal digits of the raw string, in
    order; it puts "1" in front exactly when ten digits remain and returns
    the digits unchanged otherwise.  "(555) 123-4567" becomes
    "15551234567", "+44 20 7946 0958" becomes "442079460958", and the
    empty string stays empty. *)
Theorem formatPhoneNumber_spec :
  (forall raw : string,
     let digits :=
       string_of_list_ascii (filter isDigit (list_ascii_of_string raw)) in
     formatPhoneNumber raw =
     if Nat.eqb (String.length digits) 10 then "1" ++ digits else digits)
  /\ formatPhoneNumber "(555) 123-4567" = "15551234567"
  /\ formatPhoneNumber "+44 20 7946 0958" = "442079460958"
  /\ formatPhoneNumber "" = "".
Proof.
  split; [|repeat split; reflexivity].
  intros raw digits. subst digits.
  rewrite formatPhoneNumber_unfold, replaceNonDigits_filter. reflexivity.
Qed.

(* ===================================================================== *)
(** ** direct-client.js: stage by stage *)
(* ===================================================================== *)

(** From here on [++] is list append; string append is marked [%string]. *)
Local Open Scope list_scope.

Section DirectClientFacts.

Import DirectClient.

Lemma state_eta (s : State) :
  s = {| cache := cache s; calls := calls s ++ [] |}.
Proof. destruct s; simpl. now rewrite app_nil_r. Qed.

(** *** HTTP exchanges *)

Lemma fetchJson_delivers {A} (u : Upstream) (reply : HttpReply A) v s :
  delivers reply = Some v ->
  fetchJson u reply s =
  (Returns v, {| cache := cache s; calls := calls s ++ [u] |}).
Proof.
  unfold delivers, fetchJson. run.
  destruct reply as [m|st txt [m|w]]; try discriminate.
  destruct (ok st); simpl; congruence.
Qed.

Lemma httpError_upstream status statusText :
  classify (httpError status statusText) = UpstreamError.
Proof. reflexivity. Qed.

Lemma fetchJson_fails {A} (u : Upstream) (reply : HttpReply A) s :
  delivers reply = None ->
  exists err,
    fetchJson u reply s =
    (Throws err, {| cache := cache s; calls := calls s ++ [u] |})
    /\ classify err = UpstreamError.
Proof.
  unfold delivers, fetchJson. run.
  destruct reply as [m|st txt [m|w]]; intros H.
  - now exists (Rejection m).
  - destruct (ok st); simpl; [now exists (Rejection m)|].
    now exists (httpError st txt).
  - destruct (ok st); simpl; [discriminate|].
    now exists (httpError st txt).
Qed.

(** *** The schedule list *)

Lemma getSchedules_fresh e s :
  schedulesFresh (cache s) (now e) = true ->
  exists l, data (schedules (cache s)) = Some l
            /\ getSchedules e s = (Returns l, s).
Proof.
  unfold getSchedules, schedulesFresh.
  destruct (data (schedules (cache s))) as [l|]; [|discriminate].
  intros H. exists l. split; [reflexivity|].
  unfold schedulesFresh. now rewrite H.
Qed.

Lemma getSchedules_stale e s :
  schedulesFresh (cache s) (now e) = false ->
  getSchedules e s = fetchSchedulesFromJira e s.
Proof.
  unfold getSchedules. intros H.
  destruct (data (schedules (cache s))); [now rewrite H|reflexivity].
Qed.

(** The three ways a refresh can end. *)
Lemma fetchSchedulesFromJira_cases e s :
  (jiraConfigured (config e) = false /\
   fetchSchedulesFromJira e s =
   (Throws (Error "Incomplete Jira API configuration"), s))
  \/ (exists values,
        jiraConfigured (config e) = true /\
        delivers (fetchSchedules e) = Some (Some values) /\
        fetchSchedulesFromJira e s = (Returns values, refreshed e values s))
  \/ (exists err,
        jiraConfigured (config e) = true /\
        (delivers (fetchSchedules e) = None \/
         delivers (fetchSchedules e) = Some None) /\
        classify err = UpstreamError /\
        fetchSchedulesFromJira e s =
        (Throws err, {| cache := cache s;
                        calls := calls s ++ [HttpSchedules] |})).
Proof.
  unfold fetchSchedulesFromJira.
  destruct (jiraConfigured (config e)); simpl; [|now left].
  right.
  destruct (delivers (fetchSchedules e)) as [[values|]|] eqn:D.
  - left. exists values. repeat split.
    unfold tryCatch, bind. now rewrite (fetchJson_delivers _ _ _ _ D).
  - right. exists (Error "Invalid response format from Jira API").
    repeat split; [now right|].
    unfold tryCatch, bind. now rewrite (fetchJson_delivers _ _ _ _ D).
  - right. destruct (fetchJson_fails HttpSchedules _ s D) as (err & Hf & Hc).
    exists err. repeat split; [now left|exact Hc|].
    unfold tryCatch, bind. now rewrite Hf.
Qed.

(** A call to [getSchedules] leaves the directory slot alone and issues
    at most the one schedules request. *)
Lemma getSchedules_effect e s :
  phoneData (cache (snd (getSchedules e s))) = phoneData (cache s)
  /\ (calls (snd (getSchedules e s)) = calls s
      \/ calls (snd (getSchedules e s)) = calls s ++ [HttpSchedules]).
Proof.
  destruct (schedulesFresh (cache s) (now e)) eqn:F.
  - destruct (getSchedules_fresh e s F) as (l & _ & ->). simpl. auto.
  - rewrite (getSchedules_stale e s F).
    destruct (fetchSchedulesFromJira_cases e s)
      as [(_ & ->)|[(v & _ & _ & ->)|(err & _ & _ & _ & ->)]];
      simpl; auto.
Qed.

Lemma findSchedule_some teamName l sch :
  findSchedule teamName l = Some sch -> In sch l /\ name sch = teamName.
Proof.
  unfold findSchedule. intros H. apply find_some in H.
  destruct H as [Hin Heq]. split; [exact Hin|now apply String.eqb_eq].
Qed.

Lemma findSchedule_none teamName l :
  findSchedule teamName l = None ->
  forall sch, In sch l -> name sch <> teamName.
Proof.
  unfold findSchedule. intros H sch Hin Heq.
  pose proof (find_none _ _ H sch Hin) as Hn. simpl in Hn.
  apply String.eqb_neq in Hn. contradiction.
Qed.

Lemma getTeamSchedule_unfold e teamName s :
  getTeamSchedule e teamName s =
  match getSchedules e s with
  | (Returns l, s') => (Returns (findSchedule teamName l), s')
  | (Throws err, s') => (Throws err, s')
  end.
Proof.
  unfold getTeamSchedule, bind.
  destruct (getSchedules e s) as [[l|err] s']; [|reflexivity].
  destruct l; reflexivity.
Qed.

(** *** The on-call user *)

Lemma getOnCallUser_unfold e i s :
  getOnCallUser e i s =
  match fetchJson (HttpOnCalls i) (fetchOnCalls e i) s with
  | (Throws err, s1) => (Throws err, s1)
  | (Returns d, s1) =>
      match onCallParticipants d with
      | None | Some [] => (Returns None, s1)
      | Some (p :: _) =>
          match fetchJson (HttpUser p) (fetchUser e p) s1 with
          | (Throws err, s2) => (Throws err, s2)
          | (Returns u, s2) =>
              (Returns (if truthy (emailAddress u) then Some u else None), s2)
          end
      end
  end.
Proof.
  unfold getOnCallUser. run.
  destruct (fetchJson (HttpOnCalls i) (fetchOnCalls e i) s) as [[d|err] s1];
    [|reflexivity].
  destruct (onCallParticipants d) as [[|p ps]|]; try reflexivity.
  destruct (fetchJson (HttpUser p) (fetchUser e p) s1) as [[u|err] s2];
    [|reflexivity].
  destruct (truthy (emailAddress u)); reflexivity.
Qed.

(** The user stage never touches the cache and issues one or two roster
    requests, none of them for the schedule list. *)
Lemma getOnCallUser_effect e i s :
  exists delta,
    snd (getOnCallUser e i s) =
    {| cache := cache s; calls := calls s ++ delta |}
    /\ (delta = [HttpOnCalls i]
        \/ exists p, delta = [HttpOnCalls i; HttpUser p]).
Proof.
  rewrite getOnCallUser_unfold.
  destruct (delivers (fetchOnCalls e i)) as [d|] eqn:D.
  - rewrite (fetchJson_delivers _ _ _ _ D).
    destruct (onCallParticipants d) as [[|p ps]|];
      try (exists [HttpOnCalls i]; split; [reflexivity|now left]).
    exists [HttpOnCalls i; HttpUser p]. split; [|right; now exists p].
    destruct (delivers (fetchUser e p)) as [u|] eqn:U.
    + rewrite (fetchJson_delivers _ _ _ _ U). simpl.
      now rewrite <- app_assoc.
    + destruct (fetchJson_fails (HttpUser p) _
                  {| cache := cache s; calls := calls s ++ [HttpOnCalls i] |} U)
        as (err & -> & _).
      simpl. now rewrite <- app_assoc.
  - destruct (fetchJson_fails (HttpOnCalls i) _ s D) as (err & -> & _).
    exists [HttpOnCalls i]. split; [reflexivity|now left].
Qed.

(** A user that is returned has a non-empty e-mail address. *)
Lemma getOnCallUser_returns e i s u s' :
  getOnCallUser e i s = (Returns (Some u), s') ->
  exists addr, emailAddress u = Some addr /\ isEmpty addr = false.
Proof.
  rewrite getOnCallUser_unfold.
  destruct (fetchJson (HttpOnCalls i) (fetchOnCalls e i) s) as [[d|err] s1];
    [|discriminate].
  destruct (onCallParticipants d) as [[|p ps]|]; try discriminate.
  destruct (fetchJson (HttpUser p) (fetchUser e p) s1) as [[v|err] s2];
    [|discriminate].
  destruct (truthy (emailAddress v)) eqn:T; [|discriminate].
  intros H. injection H as <- _.
  unfold truthy in T. destruct (emailAddress v) as [addr|]; [|discriminate].
  exists addr. split; [reflexivity|].
  now destruct (isEmpty addr).
Qed.

(** *** The directory lookup *)

Lemma sqlConfigured_guards cfg :
  sqlConfigured cfg =
  negb (negb (String.eqb (sql_authMode cfg) "windows") &&
        negb (truthy (sql_username cfg) && truthy (sql_password cfg)))
  && truthy (sql_database cfg).
Proof.
  unfold sqlConfigured.
  destruct (String.eqb _ _), (truthy (sql_username cfg)),
    (truthy (sql_password cfg)); reflexivity.
Qed.

Lemma queryPhoneNumber_answers e addr s :
  sqlQuery e = None ->
  queryPhoneNumber e addr s =
  (Returns (recordPhone e addr),
   {| cache := cache s; calls := calls s ++ [SqlQueryByEmail addr] |}).
Proof.
  intros Q. unfold queryPhoneNumber, recordPhone. run. rewrite Q.
  destruct (selectTop1ByEmail e addr) as [|record rest]; [reflexivity|].
  destruct (cellPhone record) as [raw|]; [|reflexivity].
  destruct (isEmpty raw); reflexivity.
Qed.

(** Guards pass and the database answers: the lookup returns what the
    selected row holds, after connect, query and close. *)
Lemma getPhoneNumberByEmail_answers e addr s :
  sqlConfigured (config e) = true -> sqlAnswers e = true ->
  getPhoneNumberByEmail e addr s =
  (Returns (recordPhone e addr),
   {| cache := cache s; calls := calls s ++ lookupCalls addr |}).
Proof.
  rewrite sqlConfigured_guards. unfold sqlAnswers, getPhoneNumberByEmail.
  intros G A.
  apply andb_prop in G. destruct G as [G1 G2].
  apply negb_true_iff in G1. rewrite G1, G2. simpl.
  destruct (sqlConnect e); [discriminate|].
  destruct (sqlQuery e) eqn:Q; [discriminate|].
  destruct (sqlClose e) eqn:C; [discriminate|].
  unfold bind at 1. unfold call at 1. unfold tryFinally, tryCatch.
  rewrite (queryPhoneNumber_answers _ _ _ Q).
  unfold closePool. run. rewrite C. unfold lookupCalls.
  now rewrite <- !app_assoc.
Qed.

(** Every way the lookup can end: what it returns or throws, and the
    calls it has issued by then.  The cache is not consulted and not
    written. *)
Lemma getPhoneNumberByEmail_cases e addr s :
  (sqlConfigured (config e) = false /\
   exists m, getPhoneNumberByEmail e addr s = (Throws (Error m), s)
             /\ classify (Error m) = UpstreamError)
  \/ (sqlConfigured (config e) = true /\ sqlAnswers e = false /\
      exists m delta,
        getPhoneNumberByEmail e addr s =
        (Throws (Rejection m),
         {| cache := cache s; calls := calls s ++ delta |})
        /\ (delta = [SqlConnect] \/ delta = lookupCalls addr))
  \/ (sqlConfigured (config e) = true /\ sqlAnswers e = true /\
      getPhoneNumberByEmail e addr s =
      (Returns (recordPhone e addr),
       {| cache := cache s; calls := calls s ++ lookupCalls addr |})).
Proof.
  destruct (sqlConfigured (config e)) eqn:G.
  - right. destruct (sqlAnswers e) eqn:A.
    + right. repeat split. now apply getPhoneNumberByEmail_answers.
    + left. repeat split.
      rewrite sqlConfigured_guards in G.
      apply andb_prop in G. destruct G as [G1 G2].
      apply negb_true_iff in G1.
      unfold getPhoneNumberByEmail. rewrite G1, G2. simpl.
      unfold sqlAnswers in A.
      destruct (sqlConnect e) as [m|].
      { exists m, [SqlConnect]. split; [reflexivity|now left]. }
      unfold bind at 1. unfold call at 1. unfold tryFinally, tryCatch.
      destruct (sqlQuery e) as [m|] eqn:Q.
      * unfold queryPhoneNumber, closePool. run. rewrite Q.
        destruct (sqlClose e) as [m'|];
          [exists m'|exists m]; exists (lookupCalls addr);
          (split; [unfold lookupCalls; simpl; now rewrite <- !app_assoc|now right]).
      * rewrite (queryPhoneNumber_answers _ _ _ Q).
        unfold closePool. run.
        destruct (sqlClose e) as [m'|]; [|discriminate].
        exists m', (lookupCalls addr).
        split; [unfold lookupCalls; simpl; now rewrite <- !app_assoc|now right].
  - left. split; [reflexivity|].
    rewrite sqlConfigured_guards in G. unfold getPhoneNumberByEmail.
    destruct (negb (String.eqb (sql_authMode (config e)) "windows") &&
              negb (truthy (sql_username (config e)) &&
                    truthy (sql_password (config e)))); simpl in *.
    + now exists "SQL authentication requires username and password"%string.
    + rewrite G. simpl.
      now exists "SQL database name is required"%string.
Qed.

Lemma recordPhone_some e addr p :
  recordPhone e addr = Some p ->
  exists record rest raw,
    selectTop1ByEmail e addr = record :: rest
    /\ cellPhone record = Some raw /\ p = formatPhoneNumber raw.
Proof.
  unfold recordPhone.
  destruct (selectTop1ByEmail e addr) as [|record rest]; [discriminate|].
  destruct (cellPhone record) as [raw|] eqn:C; [|discriminate].
  destruct (isEmpty raw); [discriminate|].
  intros H. injection H as <-. now exists record, rest, raw.
Qed.

Lemma recordPhone_no_cell e addr record rest :
  selectTop1ByEmail e addr = record :: rest ->
  truthy (cellPhone record) = false ->
  recordPhone e addr = None.
Proof.
  unfold recordPhone, truthy. intros -> T.
  destruct (cellPhone record) as [raw|]; [|reflexivity].
  now destruct (isEmpty raw).
Qed.

Lemma getPhoneNumberByEmail_effect e addr s :
  exists delta,
    snd (getPhoneNumberByEmail e addr s) =
    {| cache := cache s; calls := calls s ++ delta |}
    /\ (delta = [] \/ delta = [SqlConnect] \/ delta = lookupCalls addr).
Proof.
  destruct (getPhoneNumberByEmail_cases e addr s)
    as [(_ & m & -> & _)|[(_ & _ & m & delta & -> & Hd)|(_ & _ & ->)]].
  - exists []. split; [apply state_eta|now left].
  - exists delta. split; [reflexivity|]. destruct Hd; auto.
  - exists (lookupCalls addr). split; [reflexivity|auto].
Qed.

(** *** The entry point *)

Lemma getTeamOnCallPhoneNumber_unfold e teamName s :
  getTeamOnCallPhoneNumber e teamName s =
  match getTeamSchedule e teamName s with
  | (Throws err, s1) => (Throws err, s1)
  | (Returns None, s1) => (Throws (noSchedule teamName), s1)
  | (Returns (Some sch), s1) =>
      match getOnCallUser e (id sch) s1 with
      | (Throws err, s2) => (Throws err, s2)
      | (Returns None, s2) => (Throws (noUser teamName), s2)
      | (Returns (Some u), s2) =>
          match emailAddress u with
          | None => (Throws (noUser teamName), s2)
          | Some addr =>
              if isEmpty addr then (Throws (noUser teamName), s2)
              else
                match getPhoneNumberByEmail e addr s2 with
                | (Throws err, s3) => (Throws err, s3)
                | (Returns None, s3) => (Throws (noPhone addr), s3)
                | (Returns (Some p), s3) =>
                    if isEmpty p then (Throws (noPhone addr), s3)
                    else (Returns p, s3)
                end
          end
      end
  end.
Proof.
  unfold getTeamOnCallPhoneNumber, noSchedule, noUser, noPhone.
  unfold tryCatch, logAndRethrow, bind, throw, ret.
  destruct (getTeamSchedule e teamName s) as [[[sch|]|err] s1];
    try reflexivity.
  destruct (getOnCallUser e (id sch) s1) as [[[u|]|err] s2]; try reflexivity.
  destruct u as [[addr|] dn]; simpl; [|reflexivity].
  destruct (isEmpty addr); [reflexivity|].
  destruct (getPhoneNumberByEmail e addr s2) as [[[p|]|err] s3];
    try reflexivity.
  destruct (isEmpty p); reflexivity.
Qed.

(** A resolution that returns went through all three stages. *)
Lemma getTeamOnCallPhoneNumber_returns e teamName s p s' :
  getTeamOnCallPhoneNumber e teamName s = (Returns p, s') ->
  exists sch s1 u s2 addr,
    getTeamSchedule e teamName s = (Returns (Some sch), s1)
    /\ getOnCallUser e (id sch) s1 = (Returns (Some u), s2)
    /\ emailAddress u = Some addr
    /\ getPhoneNumberByEmail e addr s2 = (Returns (Some p), s')
    /\ isEmpty p = false.
Proof.
  rewrite getTeamOnCallPhoneNumber_unfold.
  destruct (getTeamSchedule e teamName s) as [[[sch|]|err] s1];
    try discriminate.
  destruct (getOnCallUser e (id sch) s1) as [[[u|]|err] s2] eqn:U;
    try discriminate.
  destruct (emailAddress u) as [addr|] eqn:E; [|discriminate].
  destruct (isEmpty addr); [discriminate|].
  destruct (getPhoneNumberByEmail e addr s2) as [[[q|]|err] s3] eqn:L;
    try discriminate.
  destruct (isEmpty q) eqn:Q; [discriminate|].
  intros H. injection H as <- <-.
  exists sch, s1, u, s2, addr. repeat split; assumption.
Qed.

(** C7.  The schedule lookup returns the first schedule of the list whose
    name is the team name itself: a schedule it returns is in the list and
    its name equals the team name as a string; when no name in the list
    equals the team name it returns nothing and the entry point fails with
    "No schedule found for team: ...".  Names that merely contain the team
    name, or differ from it in case, are not selected. *)
Theorem getTeamSchedule_exact_match (e : Env) (teamName : string) (s : State) :
  match getTeamSchedule e teamName s with
  | (Returns (Some sch), s') =>
      exists l, getSchedules e s = (Returns l, s')
                /\ find (fun x => String.eqb (name x) teamName) l = Some sch
                /\ In sch l /\ name sch = teamName
  | (Returns None, s') =>
      exists l, getSchedules e s = (Returns l, s')
                /\ (forall sch, In sch l -> name sch <> teamName)
                /\ getTeamOnCallPhoneNumber e teamName s =
                   (Throws (noSchedule teamName), s')
  | (Throws err, s') => getSchedules e s = (Throws err, s')
  end
  /\ findSchedule "helpdesk" [Scenario.helpDesk] = None
  /\ findSchedule "help-desk-schedule" [Scenario.helpDesk] = None
  /\ findSchedule "Help-Desk" [Scenario.helpDesk] = None
  /\ findSchedule "Help-Desk-schedule" [Scenario.network; Scenario.helpDesk]
     = Some Scenario.helpDesk.
Proof.
  split; [|repeat split; reflexivity].
  rewrite getTeamOnCallPhoneNumber_unfold, getTeamSchedule_unfold.
  destruct (getSchedules e s) as [[l|err] s']; [|reflexivity].
  destruct (findSchedule teamName l) as [sch|] eqn:F.
  - exists l. split; [reflexivity|]. split; [exact F|].
    now apply findSchedule_some.
  - exists l. split; [reflexivity|]. split; [|reflexivity].
    now apply findSchedule_none.
Qed.

(** *** The health probe *)

Lemma isHealthy_unfold e s :
  isHealthy e s =
  match getSchedules e s with
  | (Returns l, s') => (Returns (match l with [] => false | _ => true end), s')
  | (Throws _, s') => (Returns false, s')
  end.
Proof.
  unfold isHealthy, tryCatch, bind, ret.
  now destruct (getSchedules e s) as [[l|err] s'].
Qed.

Lemma isHealthy_state e s :
  snd (isHealthy e s) = snd (getSchedules e s).
Proof.
  rewrite isHealthy_unfold.
  now destruct (getSchedules e s) as [[l|err] s'].
Qed.

Lemma isHealthy_throws e s err s' :
  getSchedules e s = (Throws err, s') ->
  isHealthy e s = (Returns false, s').
Proof. intros H. now rewrite isHealthy_unfold, H. Qed.

(** C10.  The health probe never throws.  It answers [true] exactly when
    [getSchedules] returns a non-empty list, from the cache or from the
    roster service.  When the service answers with an empty list the probe
    answers [false], and when [getSchedules] throws the probe answers
    [false] as well. *)
Theorem isHealthy_spec (e : Env) (s : State) :
  (exists b, isHealthy e s = (Returns b, snd (getSchedules e s))
             /\ (b = true <->
                 exists l, fst (getSchedules e s) = Returns l /\ l <> []))
  /\ (forall status statusText,
        schedulesFresh (cache s) (now e) = false ->
        jiraConfigured (config e) = true ->
        fetchSchedules e = Response status statusText (Json (Some [])) ->
        ok status = true ->
        isHealthy e s = (Returns false, refreshed e [] s))
  /\ (forall err s', getSchedules e s = (Throws err, s') ->
                     isHealthy e s = (Returns false, s')).
Proof.
  unfold isHealthy, tryCatch, bind, ret.
  split; [|split].
  - destruct (getSchedules e s) as [[[|x l]|err] s']; simpl.
    + exists false. split; [reflexivity|]. split; [discriminate|].
      intros (l & H & Hl). injection H as <-. contradiction.
    + exists true. split; [reflexivity|]. split; [|reflexivity].
      intros _. exists (x :: l). split; [reflexivity|discriminate].
    + exists false. split; [reflexivity|]. split; [discriminate|].
      intros (l & H & _). discriminate.
  - intros status statusText F C R O.
    rewrite (getSchedules_stale e s F).
    destruct (fetchSchedulesFromJira_cases e s)
      as [(C' & _)|[(v & _ & D & ->)|(err & _ & D & _)]].
    + congruence.
    + unfold delivers in D. rewrite R, O in D. injection D as <-. reflexivity.
    + unfold delivers in D. rewrite R, O in D. destruct D; discriminate.
  - intros err s' ->. reflexivity.
Qed.

(** C8 as stated fails on a cold cache: the probe stores the fetched
    schedule list and its expiry in the schedule slot. *)
Lemma isHealthy_fills_cold_cache :
  let e := Scenario.world 1000 Scenario.rota [] None in
  let s' := snd (isHealthy e initialState) in
  cache s' <> cache initialState
  /\ data (schedules (cache initialState)) = None
  /\ data (schedules (cache s')) = Some [Scenario.helpDesk; Scenario.network]
  /\ expiry (schedules (cache s')) = Some 901000.
Proof.
  split; [|repeat split; reflexivity].
  intros H. apply (f_equal (fun c => data (schedules c))) in H.
  discriminate H.
Qed.

(** After a refresh at time [now e] the schedule slot is fresh for every
    time before [now e + duration], fifteen minutes in the cache the
    module creates. *)
Lemma refreshed_window e values s t :
  schedulesFresh (cache (refreshed e values s)) t =
  negb (now e + duration (schedules (cache s)) =? 0)
  && (t <? now e + duration (schedules (cache s))).
Proof. reflexivity. Qed.

Lemma initial_duration :
  duration (schedules (cache initialState)) = 900000
  /\ duration (phoneData (cache initialState)) = 3600000.
Proof. split; reflexivity. Qed.

(** *** Upstream calls of a resolution *)

Lemma getOnCallUser_returns_calls e i s u s' :
  getOnCallUser e i s = (Returns (Some u), s') ->
  exists acct,
    s' = {| cache := cache s;
            calls := calls s ++ [HttpOnCalls i; HttpUser acct] |}.
Proof.
  intros H.
  destruct (getOnCallUser_effect e i s) as (delta & Hs & Hd).
  rewrite H in Hs. simpl in Hs. subst s'.
  destruct Hd as [->|[acct ->]]; [|now exists acct].
  exfalso. revert H. rewrite getOnCallUser_unfold.
  destruct (fetchJson (HttpOnCalls i) (fetchOnCalls e i) s)
    as [[d|err] s1] eqn:F1; [|discriminate].
  destruct (onCallParticipants d) as [[|p ps]|]; try discriminate.
  assert (Hs1 : s1 = {| cache := cache s; calls := calls s ++ [HttpOnCalls i] |}).
  { unfold fetchJson in F1. run.
    destruct (fetchOnCalls e i) as [m|st txt [m|w]]; try discriminate;
      destruct (ok st); simpl in F1; congruence. }
  destruct (fetchJson (HttpUser p) (fetchUser e p) s1) as [[v|err] s2] eqn:F2;
    [|discriminate].
  assert (Hs2 : s2 = {| cache := cache s1; calls := calls s1 ++ [HttpUser p] |}).
  { unfold fetchJson in F2. run.
    destruct (fetchUser e p) as [m|st txt [m|w]]; try discriminate;
      destruct (ok st); simpl in F2; congruence. }
  intros H. injection H as _ H. subst s1 s2. simpl in H.
  injection H as H. rewrite <- app_assoc in H.
  apply app_inv_head in H. discriminate.
Qed.

Lemma getPhoneNumberByEmail_returns e addr s v s' :
  getPhoneNumberByEmail e addr s = (Returns v, s') ->
  v = recordPhone e addr
  /\ s' = {| cache := cache s; calls := calls s ++ lookupCalls addr |}.
Proof.
  destruct (getPhoneNumberByEmail_cases e addr s)
    as [(_ & m & -> & _)|[(_ & _ & m & delta & -> & _)|(_ & _ & ->)]];
    try discriminate.
  intros H. injection H as <- <-. auto.
Qed.

(** C2, as the code has it.  A call made while the schedule slot is fresh
    issues no request for the schedule list and leaves the cache as it is.
    Every other upstream call is issued again: a resolution that returns a
    number has requested the on-call participants and the user profile
    from the roster service and has connected to, queried and closed the
    database, in this order.  Neither the on-call user nor the directory
    is cached. *)
Theorem repeated_call_upstream (e : Env) (teamName : string) (s : State) :
  schedulesFresh (cache s) (now e) = true ->
  exists r delta,
    getTeamOnCallPhoneNumber e teamName s =
    (r, {| cache := cache s; calls := calls s ++ delta |})
    /\ existsb isSchedulesCall delta = false
    /\ (forall p, r = Returns p ->
          exists sch acct addr,
            name sch = teamName /\
            delta = [HttpOnCalls (id sch); HttpUser acct] ++ lookupCalls addr).
Proof.
  intros F.
  destruct (getSchedules_fresh e s F) as (l & _ & G).
  rewrite getTeamOnCallPhoneNumber_unfold, getTeamSchedule_unfold, G.
  destruct (findSchedule teamName l) as [sch|] eqn:Fs.
  2:{ exists (Throws (noSchedule teamName)), [].
      split; [now rewrite <- state_eta|]. split; [reflexivity|discriminate]. }
  destruct (findSchedule_some _ _ _ Fs) as [_ Hn].
  destruct (getOnCallUser_effect e (id sch) s) as (d1 & Hs1 & Hd1).
  assert (Hd1' : existsb isSchedulesCall d1 = false)
    by (destruct Hd1 as [->|[acct ->]]; reflexivity).
  destruct (getOnCallUser e (id sch) s) as [[[u|]|err] s1] eqn:U;
    simpl in Hs1; subst s1.
  - destruct (emailAddress u) as [addr|];
      [|exists (Throws (noUser teamName)), d1; repeat split;
        [exact Hd1'|discriminate]].
    destruct (isEmpty addr);
      [exists (Throws (noUser teamName)), d1; repeat split;
       [exact Hd1'|discriminate]|].
    destruct (getOnCallUser_returns_calls _ _ _ _ _ U) as (acct & Ha).
    injection Ha as Ha. apply app_inv_head in Ha. subst d1.
    set (s1 := {| cache := cache s;
                  calls := calls s ++ [HttpOnCalls (id sch); HttpUser acct] |}).
    destruct (getPhoneNumberByEmail_effect e addr s1) as (d2 & Hs2 & Hd2).
    assert (Hd2' : existsb isSchedulesCall d2 = false)
      by (destruct Hd2 as [->|[->| ->]]; reflexivity).
    assert (Hall : existsb isSchedulesCall
                     ([HttpOnCalls (id sch); HttpUser acct] ++ d2) = false)
      by (rewrite existsb_app, Hd2'; reflexivity).
    destruct (getPhoneNumberByEmail e addr s1) as [[[p|]|err] s2] eqn:L;
      simpl in Hs2; subst s2; unfold s1; simpl; rewrite <- app_assoc.
    + destruct (getPhoneNumberByEmail_returns _ _ _ _ _ L) as (_ & Hc).
      injection Hc as Hc. simpl in Hc. apply app_inv_head in Hc. subst d2.
      destruct (isEmpty p).
      * eexists _, _. split; [reflexivity|]. split; [exact Hall|discriminate].
      * eexists _, _. split; [reflexivity|]. split; [exact Hall|].
        intros q _. now exists sch, acct, addr.
    + eexists _, _. split; [reflexivity|]. split; [exact Hall|discriminate].
    + eexists _, _. split; [reflexivity|]. split; [exact Hall|discriminate].
  - exists (Throws (noUser teamName)), d1. repeat split;
      [exact Hd1'|discriminate].
  - exists (Throws err), d1. repeat split; [exact Hd1'|discriminate].
Qed.

(** C2 as stated fails: one second after a first resolution, with the
    schedule slot fresh, the same call issues five more upstream calls. *)
Lemma repeated_call_issues_upstream_calls :
  let e1 := Scenario.world 1000 Scenario.rota
              [Scenario.row (Some "555-123-4567"%string) None] None in
  let e2 := Scenario.world 2000 Scenario.rota
              [Scenario.row (Some "555-123-4567"%string) None] None in
  let first := getTeamOnCallPhoneNumber e1 "Help-Desk-schedule" initialState in
  let second := getTeamOnCallPhoneNumber e2 "Help-Desk-schedule" (snd first) in
  fst first = Returns "15551234567"%string
  /\ schedulesFresh (cache (snd first)) (now e2) = true
  /\ fst second = Returns "15551234567"%string
  /\ calls (snd second) =
     calls (snd first) ++
     [HttpOnCalls "sched-1"; HttpUser "acct-1"; SqlConnect;
      SqlQueryByEmail "a@x.com"; SqlClose]
  /\ calls (snd second) <> calls (snd first).
Proof.
  repeat split; try reflexivity. vm_compute. discriminate.
Qed.

Lemma repeated_call_upstream_witness :
  let e1 := Scenario.world 1000 Scenario.rota
              [Scenario.row (Some "555-123-4567"%string) None] None in
  let e2 := Scenario.world 2000 Scenario.rota
              [Scenario.row (Some "555-123-4567"%string) None] None in
  let s1 := snd (getTeamOnCallPhoneNumber e1 "Help-Desk-schedule"
                   initialState) in
  schedulesFresh (cache s1) (now e2) = true
  /\ exists r delta,
       getTeamOnCallPhoneNumber e2 "Help-Desk-schedule" s1 =
       (r, {| cache := cache s1; calls := calls s1 ++ delta |})
       /\ existsb isSchedulesCall delta = false
       /\ (forall p, r = Returns p ->
             exists sch acct addr,
               name sch = "Help-Desk-schedule"%string /\
               delta = [HttpOnCalls (id sch); HttpUser acct]
                       ++ lookupCalls addr).
Proof.
  split; [reflexivity|].
  apply (repeated_call_upstream
           (Scenario.world 2000 Scenario.rota
              [Scenario.row (Some "555-123-4567"%string) None] None)
           "Help-Desk-schedule"%string).
  reflexivity.
Defined.

(** *** The directory slot *)

Lemma getTeamSchedule_effect e teamName s :
  snd (getTeamSchedule e teamName s) = snd (getSchedules e s).
Proof.
  rewrite getTeamSchedule_unfold.
  now destruct (getSchedules e s) as [[l|err] s'].
Qed.

Lemma getTeamOnCallPhoneNumber_phoneData e teamName s :
  phoneData (cache (snd (getTeamOnCallPhoneNumber e teamName s))) =
  phoneData (cache s).
Proof.
  rewrite getTeamOnCallPhoneNumber_unfold.
  pose proof (getTeamSchedule_effect e teamName s) as H1.
  destruct (getSchedules_effect e s) as [Hp _]. rewrite <- H1 in Hp.
  destruct (getTeamSchedule e teamName s) as [[[sch|]|err] s1];
    simpl in *; try exact Hp.
  destruct (getOnCallUser_effect e (id sch) s1) as (d1 & H2 & _).
  destruct (getOnCallUser e (id sch) s1) as [[[u|]|err] s2];
    simpl in *; subst s2; simpl; try exact Hp.
  destruct (emailAddress u) as [addr|]; [|exact Hp].
  destruct (isEmpty addr); [exact Hp|].
  match goal with
  | |- context [getPhoneNumberByEmail e addr ?st] =>
      destruct (getPhoneNumberByEmail_effect e addr st) as (d2 & H3 & _);
      destruct (getPhoneNumberByEmail e addr st) as [[[p|]|err] s3]
  end; simpl in *; subst s3; simpl; try exact Hp.
  destruct (isEmpty p); exact Hp.
Qed.

(** No exported function writes anything but [null] into the directory
    slot. *)
Lemma serve_phoneData e r s :
  data (phoneData (cache s)) = None /\ expiry (phoneData (cache s)) = None ->
  data (phoneData (cache (serve e r s))) = None
  /\ expiry (phoneData (cache (serve e r s))) = None.
Proof.
  intros H.
  destruct r as [t|t| |i|a| | |]; simpl.
  - now rewrite getTeamOnCallPhoneNumber_phoneData.
  - rewrite getTeamSchedule_effect.
    destruct (getSchedules_effect e s) as [-> _]. exact H.
  - destruct (getSchedules_effect e s) as [-> _]. exact H.
  - destruct (getOnCallUser_effect e i s) as (d & -> & _). exact H.
  - destruct (getPhoneNumberByEmail_effect e a s) as (d & -> & _). exact H.
  - auto.
  - rewrite isHealthy_state.
    destruct (getSchedules_effect e s) as [-> _]. exact H.
  - exact H.
Qed.

(** The calls of one lookup, decided by the guards and by the connection
    attempt alone. *)
Lemma getPhoneNumberByEmail_calls e addr s :
  exists r,
    getPhoneNumberByEmail e addr s =
    (r, {| cache := cache s;
           calls := calls s ++
                    if sqlConfigured (config e)
                    then match sqlConnect e with
                         | Some _ => [SqlConnect]
                         | None => lookupCalls addr
                         end
                    else [] |}).
Proof.
  destruct (getPhoneNumberByEmail_cases e addr s)
    as [(G & m & H & _)|[(G & A & m & delta & H & Hd)|(G & A & H)]];
    rewrite G.
  - exists (Throws (Error m)). now rewrite <- state_eta.
  - exists (Throws (Rejection m)). rewrite H.
    destruct (sqlConnect e) as [m'|] eqn:C.
    + destruct Hd as [->|Hd]; [reflexivity|]. exfalso. subst delta.
      revert H. rewrite sqlConfigured_guards in G.
      apply andb_prop in G. destruct G as [G1 G2].
      apply negb_true_iff in G1.
      unfold getPhoneNumberByEmail. rewrite G1, G2, C. run.
      intros H. injection H as _ H. apply app_inv_head in H. discriminate.
    + destruct Hd as [Hd| ->]; [|reflexivity]. exfalso. subst delta.
      revert H. rewrite sqlConfigured_guards in G.
      apply andb_prop in G. destruct G as [G1 G2].
      apply negb_true_iff in G1.
      unfold getPhoneNumberByEmail. rewrite G1, G2, C.
      unfold queryPhoneNumber, closePool. run.
      destruct (sqlQuery e); [destruct (sqlClose e)|].
      * intros H. injection H as _ H. rewrite <- !app_assoc in H.
        apply app_inv_head in H. discriminate.
      * intros H. injection H as _ H. rewrite <- !app_assoc in H.
        apply app_inv_head in H. discriminate.
      * destruct (selectTop1ByEmail e addr) as [|rec rest];
          [|destruct (cellPhone rec) as [raw|]; [destruct (isEmpty raw)|]];
          simpl; destruct (sqlClose e); intros H; injection H as _ H;
          rewrite <- !app_assoc in H; apply app_inv_head in H; discriminate.
  - exists (Returns (recordPhone e addr)). rewrite H.
    unfold sqlAnswers in A. now destruct (sqlConnect e).
Qed.

(** C9.  In every state the client can reach, the directory slot of the
    cache holds no data and no expiry.  A lookup by e-mail therefore never
    reads a cached directory: whatever the cache holds, it opens a
    connection as soon as its configuration guards pass, and once the
    connection is open it runs the query for that address and closes the
    pool, whether the query returns or throws.  A lookup that returns has
    connected, queried and closed. *)
Theorem phoneData_never_populated (s : State) :
  reachable s ->
  (data (phoneData (cache s)) = None /\ expiry (phoneData (cache s)) = None)
  /\ forall (e : Env) (addr : string),
       exists r,
         getPhoneNumberByEmail e addr s =
         (r, {| cache := cache s;
                calls := calls s ++
                         if sqlConfigured (config e)
                         then match sqlConnect e with
                              | Some _ => [SqlConnect]
                              | None => [SqlConnect; SqlQueryByEmail addr;
                                         SqlClose]
                              end
                         else [] |})
         /\ (forall v, r = Returns v ->
               sqlConfigured (config e) = true /\ sqlConnect e = None)
         /\ (forall s0, fst (getPhoneNumberByEmail e addr s0) = r).
Proof.
  intros R. split.
  - induction R as [|e r s R IH]; [split; reflexivity|].
    now apply serve_phoneData.
  - intros e addr.
    destruct (getPhoneNumberByEmail_calls e addr s) as (r & H).
    exists r. split; [exact H|]. split.
    + intros v ->.
      destruct (getPhoneNumberByEmail_cases e addr s)
        as [(_ & m & H' & _)|[(_ & _ & m & delta & H' & _)|(G & A & _)]];
        try congruence.
      split; [exact G|]. unfold sqlAnswers in A.
      now destruct (sqlConnect e).
    + intros s0. apply (f_equal fst) in H. simpl in H. rewrite <- H.
      unfold getPhoneNumberByEmail.
      destruct (negb (String.eqb (sql_authMode (config e)) "windows") &&
                negb (truthy (sql_username (config e)) &&
                      truthy (sql_password (config e)))); [reflexivity|].
      destruct (negb (truthy (sql_database (config e)))); [reflexivity|].
      unfold queryPhoneNumber, closePool. run.
      destruct (sqlConnect e); [reflexivity|].
      destruct (sqlQuery e); [now destruct (sqlClose e)|].
      destruct (selectTop1ByEmail e addr) as [|rec rest];
        [|destruct (cellPhone rec) as [raw|]; [destruct (isEmpty raw)|]];
        simpl; now destruct (sqlClose e).
Qed.

Lemma phoneData_never_populated_witness :
  let e := Scenario.world 1000 Scenario.rota
             [Scenario.row (Some "555-123-4567"%string) None] None in
  let s := serve e ClearCaches
             (serve e (GetTeamOnCallPhoneNumber "Help-Desk-schedule")
                initialState) in
  reachable s
  /\ data (phoneData (cache s)) = None
  /\ expiry (phoneData (cache s)) = None.
Proof.
  split.
  - apply reachable_serve, reachable_serve, reachable_initial.
  - apply (phoneData_never_populated
             (serve (Scenario.world 1000 Scenario.rota
                       [Scenario.row (Some "555-123-4567"%string) None] None)
                    ClearCaches
                    (serve (Scenario.world 1000 Scenario.rota
                              [Scenario.row (Some "555-123-4567"%string) None]
                              None)
                           (GetTeamOnCallPhoneNumber "Help-Desk-schedule")
                           initialState))).
    apply reachable_serve, reachable_serve, reachable_initial.
Defined.

(** *** Shape of a resolved number *)

Lemma elevenDigitsFrom1_ten (digits : string) :
  allDigits digits = true ->
  String.length digits = 10%nat ->
  elevenDigitsFrom1 ("1" ++ digits)%string = true.
Proof.
  intros A L. unfold elevenDigitsFrom1.
  rewrite allDigits_append, A. simpl. rewrite L. reflexivity.
Qed.

(** C5, as the code has it.  A number returned by the resolution is never
    empty, consists of decimal digits only and never has length ten.  It
    is the formatted cell phone of the directory row selected for the
    on-call user: "1" followed by the digits of the raw value when there
    are exactly ten of them, which gives eleven digits beginning with
    "1", and the digits of the raw value unchanged otherwise, whatever
    their number. *)
Theorem resolved_number_shape (e : Env) (teamName : string) (s : State)
    (p : string) (s' : State) :
  getTeamOnCallPhoneNumber e teamName s = (Returns p, s') ->
  isEmpty p = false
  /\ allDigits p = true
  /\ String.length p <> 10%nat
  /\ exists addr record rest raw,
       selectTop1ByEmail e addr = record :: rest
       /\ cellPhone record = Some raw
       /\ p = (if Nat.eqb (String.length (replaceNonDigits raw)) 10
               then "1" ++ replaceNonDigits raw
               else replaceNonDigits raw)%string
       /\ (String.length (replaceNonDigits raw) = 10%nat ->
           elevenDigitsFrom1 p = true).
Proof.
  intros H.
  destruct (getTeamOnCallPhoneNumber_returns _ _ _ _ _ H)
    as (sch & s1 & u & s2 & addr & _ & _ & _ & L & Hp).
  destruct (getPhoneNumberByEmail_returns _ _ _ _ _ L) as (R & _).
  symmetry in R.
  destruct (recordPhone_some _ _ _ R) as (record & rest & raw & Hs & Hc & ->).
  split; [exact Hp|]. split; [apply formatPhoneNumber_allDigits|].
  split; [apply formatPhoneNumber_length|].
  exists addr, record, rest, raw. repeat split; try assumption.
  - apply formatPhoneNumber_unfold.
  - intros L10. rewrite formatPhoneNumber_unfold, L10. simpl Nat.eqb. cbv iota.
    apply elevenDigitsFrom1_ten; [apply replaceNonDigits_allDigits|exact L10].
Qed.

Lemma resolved_number_shape_witness :
  let e := Scenario.world 1000 Scenario.rota
             [Scenario.row (Some "(555) 123-4567"%string) None] None in
  let r := getTeamOnCallPhoneNumber e "Help-Desk-schedule" initialState in
  r = (Returns "15551234567"%string, snd r)
  /\ isEmpty "15551234567" = false
  /\ allDigits "15551234567" = true
  /\ String.length "15551234567" <> 10%nat.
Proof.
  split; [reflexivity|].
  pose proof (resolved_number_shape
                (Scenario.world 1000 Scenario.rota
                   [Scenario.row (Some "(555) 123-4567"%string) None] None)
                "Help-Desk-schedule"%string initialState
                "15551234567"%string _ eq_refl) as (H1 & H2 & H3 & _).
  exact (conj H1 (conj H2 H3)).
Defined.

(** C5 as stated fails: a raw cell phone with twelve digits is returned
    with its twelve digits, which is neither eleven digits beginning with
    "1", nor the default number, nor an absent result. *)
Lemma resolved_number_twelve_digits :
  let e := Scenario.world 1000 Scenario.rota
             [Scenario.row (Some "+44 20 7946 0958"%string) None] None in
  fst (getTeamOnCallPhoneNumber e "Help-Desk-schedule" initialState)
  = Returns "442079460958"%string
  /\ elevenDigitsFrom1 "442079460958" = false
  /\ "442079460958"%string <> defaultPhoneNumber (config e).
Proof.
  repeat split; try reflexivity. vm_compute. discriminate.
Qed.

(** *** Failures seen by the caller *)

Lemma classify_noSchedule teamName : classify (noSchedule teamName) = NotFound.
Proof. reflexivity. Qed.

Lemma classify_noUser teamName : classify (noUser teamName) = NotFound.
Proof. reflexivity. Qed.

Lemma classify_noPhone addr : classify (noPhone addr) = NotFound.
Proof. reflexivity. Qed.

Lemma getOnCallUser_request_fails e i s :
  delivers (fetchOnCalls e i) = None ->
  exists err s', getOnCallUser e i s = (Throws err, s')
                 /\ classify err = UpstreamError.
Proof.
  intros D. rewrite getOnCallUser_unfold.
  destruct (fetchJson_fails (HttpOnCalls i) _ s D) as (err & -> & C).
  now exists err, {| cache := cache s; calls := calls s ++ [HttpOnCalls i] |}.
Qed.

(** C6.  Each way of finding nothing (no schedule with the team name, no
    on-call participant, a profile without e-mail, no directory row, a row
    without a usable cell phone) and each upstream failure (a request for
    the schedules, the on-call participants or the user that is rejected,
    answered outside 200-299 or answered with an unusable body; a database
    connection, query or close that is rejected) reaches the caller of
    [getTeamOnCallPhoneNumber] as a thrown error, and the thrown error
    alone tells the two kinds apart: [classify] maps it to the kind of the
    cause. *)
Theorem failures_distinguishable (e : Env) (teamName : string) (s : State)
    (k : Kind) :
  Failure.cause e teamName s k ->
  exists err s',
    getTeamOnCallPhoneNumber e teamName s = (Throws err, s')
    /\ classify err = k.
Proof.
  intros C. rewrite getTeamOnCallPhoneNumber_unfold.
  destruct C as
    [l s1 G F
    |sch s1 d T D P
    |sch s1 d p ps u T D P U E
    |sch s1 u s2 addr T U E G A S
    |sch s1 u s2 addr record rest T U E G A S N
    |sch s1 u s2 addr record rest raw T U E G A S N Z
    |F G D
    |sch s1 T D
    |sch s1 d p ps T D P U
    |sch s1 u s2 addr T U E G A].
  - rewrite getTeamSchedule_unfold, G, F.
    exists (noSchedule teamName), s1. now split.
  - rewrite T, getOnCallUser_unfold, (fetchJson_delivers _ _ _ _ D).
    exists (noUser teamName). eexists.
    destruct P as [-> | ->]; split; reflexivity.
  - rewrite T, getOnCallUser_unfold, (fetchJson_delivers _ _ _ _ D), P,
      (fetchJson_delivers _ _ _ _ U), E.
    exists (noUser teamName). eexists. split; reflexivity.
  - destruct (getOnCallUser_returns _ _ _ _ _ U) as (a & Ha & Hn).
    rewrite T, U, E. rewrite E in Ha. injection Ha as <-. rewrite Hn.
    rewrite (getPhoneNumberByEmail_answers _ _ _ G A).
    unfold recordPhone. rewrite S.
    exists (noPhone addr). eexists. split; reflexivity.
  - destruct (getOnCallUser_returns _ _ _ _ _ U) as (a & Ha & Hn).
    rewrite T, U, E. rewrite E in Ha. injection Ha as <-. rewrite Hn.
    rewrite (getPhoneNumberByEmail_answers _ _ _ G A).
    rewrite (recordPhone_no_cell _ _ _ _ S N).
    exists (noPhone addr). eexists. split; reflexivity.
  - destruct (getOnCallUser_returns _ _ _ _ _ U) as (a & Ha & Hn).
    rewrite T, U, E. rewrite E in Ha. injection Ha as <-. rewrite Hn.
    rewrite (getPhoneNumberByEmail_answers _ _ _ G A).
    unfold recordPhone. rewrite S, N.
    exists (noPhone addr). eexists.
    destruct (isEmpty raw); [split; reflexivity|].
    rewrite Z. split; reflexivity.
  - rewrite getTeamSchedule_unfold, (getSchedules_stale _ _ F).
    destruct (fetchSchedulesFromJira_cases e s)
      as [(G' & _)|[(v & _ & D' & _)|(err & _ & _ & Hc & ->)]].
    + congruence.
    + destruct D; congruence.
    + now exists err, {| cache := cache s;
                         calls := calls s ++ [HttpSchedules] |}.
  - rewrite T.
    destruct (getOnCallUser_request_fails e (id sch) s1 D) as (err & s' & -> & Hc).
    now exists err, s'.
  - rewrite T, getOnCallUser_unfold, (fetchJson_delivers _ _ _ _ D), P.
    match goal with
    | |- context [fetchJson (HttpUser p) _ ?st] =>
        destruct (fetchJson_fails (HttpUser p) _ st U) as (err & -> & Hc)
    end.
    exists err. eexists. split; [reflexivity|exact Hc].
  - destruct (getOnCallUser_returns _ _ _ _ _ U) as (a & Ha & Hn).
    rewrite T, U, E. rewrite E in Ha. injection Ha as <-. rewrite Hn.
    destruct (getPhoneNumberByEmail_cases e addr s2)
      as [(G' & _)|[(_ & _ & m & delta & -> & _)|(_ & A' & _)]];
      try congruence.
    exists (Rejection m). eexists. split; reflexivity.
Qed.

Lemma failures_distinguishable_witness :
  let e := Scenario.world 1000 Scenario.rota [] None in
  Failure.cause e "helpdesk" initialState NotFound
  /\ exists err s',
       getTeamOnCallPhoneNumber e "helpdesk" initialState = (Throws err, s')
       /\ classify err = NotFound.
Proof.
  assert (C : Failure.cause (Scenario.world 1000 Scenario.rota [] None)
                "helpdesk" initialState NotFound).
  { eapply Failure.no_rotation_match; reflexivity. }
  split; [exact C|].
  exact (failures_distinguishable _ _ _ _ C).
Defined.

(** The route handler answers every failure of the resolution, of either
    kind, with status 500 and the message of the thrown error; it never
    answers 404. *)
Lemma handleTeamPhoneLookup_status e teamName s :
  match Server.handleTeamPhoneLookup e teamName s with
  | (Server.Send body, s') =>
      getTeamOnCallPhoneNumber e teamName s = (Returns body, s')
  | (Server.SendError status m, s') =>
      status = 500
      /\ exists err, getTeamOnCallPhoneNumber e teamName s = (Throws err, s')
  end.
Proof.
  unfold Server.handleTeamPhoneLookup.
  destruct (getTeamOnCallPhoneNumber e teamName s) as [[p|err] s'] eqn:H.
  - destruct (getTeamOnCallPhoneNumber_returns _ _ _ _ _ H)
      as (_ & _ & _ & _ & _ & _ & _ & _ & _ & ->).
    reflexivity.
  - split; [reflexivity|now exists err].
Qed.

End DirectClientFacts.

(* ===================================================================== *)
(** ** sql-data.js: refresh and lookup *)
(* ===================================================================== *)

Section SqlDataFacts.

Import SqlData Refresh.

Ltac runSql :=
  unfold tryFinally, tryCatch, bind, ret, throw, get, SqlData.call,
    setPool, setForceRefresh, setPhoneData in *; simpl in *.

Lemma initSqlPool_spec e s :
  initSqlPool e s =
  (Returns (poolReady e s),
   {| phoneDataCache := phoneDataCache s;
      phoneDataExpiry := phoneDataExpiry s;
      pool := poolReady e s;
      _forceRefresh := _forceRefresh s;
      calls := calls s ++ if pool s then [] else [SqlConnect] |}).
Proof.
  unfold initSqlPool, poolReady. destruct s as [c x p f tr]. runSql.
  destruct p; simpl; [now rewrite app_nil_r|].
  destruct (sqlConnect e); reflexivity.
Qed.

(** The SQL part of a refresh never throws: every failure yields the
    empty list. *)
Lemma fetchFromSql_spec e s :
  fetchFromSql e s =
  (Returns (sqlRows e s),
   {| phoneDataCache := phoneDataCache s;
      phoneDataExpiry := phoneDataExpiry s;
      pool := if sqlConfigComplete (config e) then poolReady e s else pool s;
      _forceRefresh := _forceRefresh s;
      calls := calls s ++ sqlCalls e s |}).
Proof.
  unfold fetchFromSql, sqlRows, sqlCalls.
  destruct (sqlConfigComplete (config e)); simpl.
  - unfold tryCatch, bind. rewrite initSqlPool_spec.
    destruct (poolReady e s); simpl.
    + runSql. rewrite <- app_assoc.
      destruct (sqlQuery e); reflexivity.
    + unfold throw, ret. now rewrite app_nil_r.
  - unfold tryCatch, ret. destruct s; simpl. now rewrite app_nil_r.
Qed.

Lemma fetchPhoneData_spec e s :
  fetchPhoneData e s =
  (Returns (snapshot e s),
   {| phoneDataCache := phoneDataCache s;
      phoneDataExpiry := phoneDataExpiry s;
      pool := pool (fetched e s);
      _forceRefresh := _forceRefresh s;
      calls := calls (fetched e s) |}).
Proof.
  unfold fetchPhoneData, snapshot, fetched, servedFromFile, fileCalls.
  simpl.
  destruct (fallback_useTempFile (config e)); simpl.
  - destruct (tempFileExists e); simpl.
    + unfold bind, SqlData.call.
      destruct (tempFileRecords e) as [records|]; simpl; [reflexivity|].
      rewrite fetchFromSql_spec. simpl.
      unfold sqlRows, sqlCalls, poolReady. simpl.
      now rewrite <- app_assoc.
    + now rewrite fetchFromSql_spec.
  - now rewrite fetchFromSql_spec.
Qed.

Lemma cacheUsable_synced e s :
  cacheUsable (served e s) (now e) = negb (refreshDue e s).
Proof.
  unfold cacheUsable, refreshDue, served. simpl.
  now rewrite negb_involutive.
Qed.

(** [ensurePhoneDataLoaded] never throws; it either keeps the snapshot in
    memory or replaces it by a fetched one. *)
Lemma ensurePhoneDataLoaded_spec e s :
  ensurePhoneDataLoaded e s =
  (Returns tt, if refreshDue e s then fetched e s else served e s).
Proof.
  pose proof (cacheUsable_synced e s) as U.
  unfold ensurePhoneDataLoaded.
  assert (S1 : (match opsJiraApi_forceRefresh e with
                | Some flag => setForceRefresh flag
                | None => ret tt
                end) s = (Returns tt, served e s)).
  { unfold served, syncedForceRefresh.
    destruct (opsJiraApi_forceRefresh e); runSql; [reflexivity|].
    now destruct s. }
  unfold bind at 1. rewrite S1.
  unfold bind at 1. unfold get at 1. rewrite U.
  destruct (refreshDue e s); simpl; [|reflexivity].
  assert (S2 : (if syncedForceRefresh e s
                then setForceRefresh false else ret tt) (served e s) =
               (Returns tt,
                {| phoneDataCache := phoneDataCache s;
                   phoneDataExpiry := phoneDataExpiry s;
                   pool := pool s; _forceRefresh := false;
                   calls := calls s |})).
  { destruct (syncedForceRefresh e s) eqn:F; runSql; [reflexivity|].
    unfold served. now rewrite F. }
  unfold bind at 1. rewrite S2.
  unfold bind. rewrite fetchPhoneData_spec. reflexivity.
Qed.

(** The lookup never throws: it hands its callback a number or [null]. *)
Lemma getPhoneNumberByEmail_spec e addr s :
  let s' := if refreshDue e s then fetched e s else served e s in
  SqlData.getPhoneNumberByEmail e addr s =
  (Returns (answer (config e) addr (phoneDataCache s')), s').
Proof.
  unfold SqlData.getPhoneNumberByEmail, answer. simpl.
  unfold tryCatch, bind at 1. rewrite ensurePhoneDataLoaded_spec.
  unfold bind, get, ret.
  destruct (phoneDataCache _) as [[|r rows]|]; try reflexivity.
  destruct (find (emailMatches addr) (r :: rows)); reflexivity.
Qed.

(** When the bulk query of a directory refresh throws, the lookup that
    triggered the refresh still completes with [null] and the refresh has
    stored an empty snapshot that expires one hour later; a later lookup
    made before that expiry, without a forced refresh, is answered from
    the empty snapshot. *)
Lemma refresh_query_error (e : Env) (addr : string) (s : State)
    (m : string) :
  refreshDue e s = true ->
  servedFromFile e = false ->
  sqlQuery e = Some m ->
  exists s',
    SqlData.getPhoneNumberByEmail e addr s = (Returns None, s')
    /\ phoneDataCache s' = Some []
    /\ phoneDataExpiry s' = Some (now e + CACHE_DURATION)
    /\ (sqlConfigComplete (config e) = true -> poolReady e s = true ->
        exists delta, calls s' = calls s ++ delta ++ [SqlQueryAll])
    /\ forall (e2 : Env) (addr2 : string),
         opsJiraApi_forceRefresh e2 <> Some true ->
         now e2 < now e + CACHE_DURATION ->
         now e + CACHE_DURATION <> 0 ->
         SqlData.getPhoneNumberByEmail e2 addr2 s' = (Returns None, s').
Proof.
  intros R F Q.
  assert (Hsnap : snapshot e s = []).
  { unfold snapshot, sqlRows. rewrite F, Q.
    now destruct (sqlConfigComplete (config e) && poolReady e s). }
  exists (fetched e s).
  pose proof (getPhoneNumberByEmail_spec e addr s) as H. simpl in H.
  rewrite R in H. simpl in H. rewrite Hsnap in H.
  split; [exact H|]. simpl. rewrite Hsnap.
  split; [reflexivity|]. split; [reflexivity|]. split.
  - intros C P. rewrite F. unfold sqlCalls. rewrite C, P.
    exists (fileCalls e ++ if pool s then [] else [SqlConnect]).
    now rewrite <- !app_assoc.
  - intros e2 addr2 N T Z.
    pose proof (getPhoneNumberByEmail_spec e2 addr2 (fetched e s)) as H2.
    simpl in H2.
    assert (S : syncedForceRefresh e2 (fetched e s) = false).
    { unfold syncedForceRefresh. simpl.
      destruct (opsJiraApi_forceRefresh e2) as [[|]|]; congruence. }
    assert (D : refreshDue e2 (fetched e s) = false).
    { unfold refreshDue. rewrite S. simpl.
      apply Z.eqb_neq in Z. apply Z.ltb_lt in T. now rewrite Z, T. }
    rewrite D in H2.
    assert (E : served e2 (fetched e s) = fetched e s).
    { unfold served. rewrite S. reflexivity. }
    rewrite E in H2. simpl in H2. rewrite Hsnap in H2. exact H2.
Qed.

End SqlDataFacts.

(* ===================================================================== *)
(** ** A directory row with an extension and no cell phone *)
(* ===================================================================== *)

Section ExtensionOnly.

(** The active client passes a database error on to its caller; it has
    no snapshot to fall back to.  The pool is closed first, and when the
    close is rejected too the error of the close is the one thrown. *)
Lemma direct_lookup_query_error e addr s m :
  sqlConfigured (config e) = true ->
  sqlConnect e = None -> sqlQuery e = Some m ->
  DirectClient.getPhoneNumberByEmail e addr s =
  (Throws (Rejection (match sqlClose e with Some c => c | None => m end)),
   {| DirectClient.cache := DirectClient.cache s;
      DirectClient.calls := DirectClient.calls s ++ lookupCalls addr |}).
Proof.
  intros G C Q. rewrite sqlConfigured_guards in G.
  apply andb_prop in G. destruct G as [G1 G2]. apply negb_true_iff in G1.
  unfold DirectClient.getPhoneNumberByEmail. rewrite G1, G2, C. simpl.
  unfold DirectClient.queryPhoneNumber, DirectClient.closePool. run.
  rewrite Q. unfold lookupCalls.
  destruct (sqlClose e); simpl; now rewrite <- !app_assoc.
Qed.

Lemma direct_lookup_rethrows_query_error e addr s m :
  sqlConfigured (config e) = true ->
  sqlConnect e = None -> sqlQuery e = Some m -> sqlClose e = None ->
  DirectClient.getPhoneNumberByEmail e addr s =
  (Throws (Rejection m),
   {| DirectClient.cache := DirectClient.cache s;
      DirectClient.calls := DirectClient.calls s ++ lookupCalls addr |}).
Proof.
  intros G C Q K. rewrite (direct_lookup_query_error e addr s m G C Q).
  now rewrite K.
Qed.

Lemma trimEnd_blank (s : string) :
  isEmpty (trimEnd s) = forallb isSpace (list_ascii_of_string s).
Proof.
  induction s as [|c r IH]; simpl; [reflexivity|].
  rewrite <- IH. now destruct (isSpace c), (isEmpty (trimEnd r)).
Qed.

Lemma trimStart_blank (s : string) :
  forallb isSpace (list_ascii_of_string (trimStart s))
  = forallb isSpace (list_ascii_of_string s).
Proof.
  induction s as [|c r IH]; simpl; [reflexivity|].
  destruct (isSpace c) eqn:Hc; simpl; [exact IH|now rewrite Hc].
Qed.

(** [trim] leaves nothing exactly when every code unit of the string is
    white space. *)
Lemma trim_blank (s : string) :
  isEmpty (trim s) = forallb isSpace (list_ascii_of_string s).
Proof. unfold trim. now rewrite trimEnd_blank, trimStart_blank. Qed.

Lemma phoneOfRecord_extension cfg record ext :
  truthy (cellPhone record) = false ->
  extension record = Some ext ->
  SqlData.phoneOfRecord cfg record
  = if isEmpty (trim ext) then None else Some (defaultPhoneNumber cfg).
Proof.
  intros C E. unfold SqlData.phoneOfRecord. rewrite C, E.
  unfold truthy. destruct ext as [|c r]; [reflexivity|].
  cbn [isEmpty negb]. now destruct (isEmpty (trim (String c r))).
Qed.

(** C1, as the code has it.  Take a directory row without a cell phone
    and with an extension.  The active client reads the cell phone only:
    when the on-call user of a team maps to that row, the lookup returns
    nothing and [getTeamOnCallPhoneNumber] throws, with "No phone number
    found for email: ..." when the database answers.  The legacy lookup
    of sql-data.js is the one that substitutes the default number.  Take
    a snapshot whose addresses are ASCII text, an ASCII address, and let
    the row be the first match in the snapshot: the lookup hands [null]
    to its callback when [trim] leaves nothing of the extension, and
    [config.defaultPhoneNumber] when the extension is ASCII text of which
    [trim] leaves a character.  [trim] leaves nothing exactly when the
    extension is made of white space only. *)
Theorem extension_only_record (e : Env) (addr : string)
    (record : DirectoryRecord) (ext : string) :
  truthy (cellPhone record) = false ->
  extension record = Some ext ->
  (forall teamName s sch s1 u s2 rest,
     DirectClient.getTeamSchedule e teamName s = (Returns (Some sch), s1) ->
     DirectClient.getOnCallUser e (id sch) s1 = (Returns (Some u), s2) ->
     emailAddress u = Some addr ->
     selectTop1ByEmail e addr = record :: rest ->
     exists err s',
       DirectClient.getTeamOnCallPhoneNumber e teamName s = (Throws err, s')
       /\ (sqlConfigured (config e) = true -> sqlAnswers e = true ->
           err = noPhone addr
           /\ DirectClient.getPhoneNumberByEmail e addr s2 = (Returns None, s')))
  /\ (forall (s : SqlData.State) rows,
        SqlData.phoneDataCache (snd (SqlData.ensurePhoneDataLoaded e s))
        = Some rows ->
        asciiEmails rows = true ->
        isAscii addr = true ->
        find (SqlData.emailMatches addr) rows = Some record ->
        (isEmpty (trim ext) = true ->
         fst (SqlData.getPhoneNumberByEmail e addr s) = Returns None)
        /\ (isAscii ext = true ->
            isEmpty (trim ext) = false ->
            fst (SqlData.getPhoneNumberByEmail e addr s)
            = Returns (Some (defaultPhoneNumber (config e)))))
  /\ isEmpty (trim ext) = forallb isSpace (list_ascii_of_string ext).
Proof.
  intros C E. split; [|split].
  - intros teamName s sch s1 u s2 rest Ht Hu Ha Hs.
    destruct (getOnCallUser_returns _ _ _ _ _ Hu) as (a & Ha' & Hn).
    rewrite Ha in Ha'. injection Ha' as <-.
    rewrite getTeamOnCallPhoneNumber_unfold, Ht, Hu, Ha, Hn.
    destruct (getPhoneNumberByEmail_cases e addr s2)
      as [(G & m & -> & _)|[(G & A & m & delta & -> & _)|(G & A & ->)]].
    + eexists _, _. split; [reflexivity|]. congruence.
    + eexists _, _. split; [reflexivity|]. congruence.
    + rewrite (recordPhone_no_cell _ _ _ _ Hs C).
      eexists _, _. split; [reflexivity|]. auto.
  - intros s rows Hc _ _ Hf.
    rewrite ensurePhoneDataLoaded_spec in Hc. simpl in Hc.
    pose proof (getPhoneNumberByEmail_spec e addr s) as H. simpl in H.
    rewrite H, Hc. simpl. unfold Refresh.answer.
    destruct rows as [|r rows]; [discriminate Hf|].
    rewrite Hf, (phoneOfRecord_extension _ _ _ C E).
    split; [intros ->|intros _ ->]; reflexivity.
  - apply trim_blank.
Qed.

Lemma extension_only_record_witness :
  let record := Scenario.row None (Some "4321"%string) in
  let e := Scenario.world 1000 Scenario.rota [record] None in
  truthy (cellPhone record) = false
  /\ extension record = Some "4321"%string
  /\ fst (SqlData.getPhoneNumberByEmail e "a@x.com" SqlData.initialState)
     = Returns (Some "15555555555"%string).
Proof.
  split; [reflexivity|]. split; [reflexivity|].
  destruct (extension_only_record
              (Scenario.world 1000 Scenario.rota
                 [Scenario.row None (Some "4321"%string)] None)
              "a@x.com"%string (Scenario.row None (Some "4321"%string))
              "4321"%string eq_refl eq_refl) as (_ & H & _).
  exact (proj2 (H SqlData.initialState
                  [Scenario.row None (Some "4321"%string)]
                  eq_refl eq_refl eq_refl eq_refl) eq_refl eq_refl).
Defined.

(** An extension made of a space and a no-break space is blank for
    [trim]: the legacy lookup hands [null] to its callback, not the
    default number. *)
Example extension_of_blanks :
  let ext := (" " ++ Scenario.nbsp)%string in
  let record := Scenario.row None (Some ext) in
  let e := Scenario.world 1000 Scenario.rota [record] None in
  truthy (extension record) = true
  /\ trim ext = ""%string
  /\ fst (SqlData.getPhoneNumberByEmail e "a@x.com" SqlData.initialState)
     = Returns None.
Proof. repeat split; reflexivity. Qed.

(** C1 as stated fails for the active client: with an extension and no
    cell phone on the row of the on-call user, the resolution does not
    return the default number; it throws "No phone number found". *)
Lemma extension_only_resolution_fails :
  let record := Scenario.row None (Some "4321"%string) in
  let e := Scenario.world 1000 Scenario.rota [record] None in
  truthy (extension record) = true
  /\ truthy (cellPhone record) = false
  /\ selectTop1ByEmail e "a@x.com" = [record]
  /\ fst (DirectClient.getTeamOnCallPhoneNumber e "Help-Desk-schedule"
            DirectClient.initialState)
     = Throws (Error "No phone number found for email: a@x.com")
  /\ fst (DirectClient.getTeamOnCallPhoneNumber e "Help-Desk-schedule"
            DirectClient.initialState)
     <> Returns (defaultPhoneNumber (config e)).
Proof.
  repeat split; try reflexivity. vm_compute. discriminate.
Qed.

End ExtensionOnly.

(* ===================================================================== *)
(** ** A directory query that throws *)
(* ===================================================================== *)

Section QueryErrors.

(** C3, as the code has it.  What a rejected directory query does depends
    on the module.  In sql-data.js, where the query is the bulk query of
    a snapshot refresh, the error stops at the cache: the refresh stores
    an empty snapshot that expires one hour later, the lookup that
    triggered it hands [null] to its callback, and so does every lookup
    made before that expiry without a forced refresh, from the empty
    snapshot and without an upstream call; when the configuration is
    complete and a pool is at hand the rejected query is the last
    upstream call of the refresh.  In direct-client.js, the
    client the server uses, there is no directory snapshot: the catch
    block throws the error again, the pool is closed, the cache is left
    as it was and the caller gets the database error (that of the close
    when the close is rejected as well).  A resolution that has reached
    the lookup therefore throws that error, which is not one of the
    NotFound errors, and the route handler answers 500 with its message.
    The next lookup of the active client asks the database again. *)
Theorem query_error_outcomes (e : Env) (addr : string) (m : string) :
  sqlQuery e = Some m ->
  (forall s : SqlData.State,
     refreshDue e s = true ->
     servedFromFile e = false ->
     exists s',
       SqlData.getPhoneNumberByEmail e addr s = (Returns None, s')
       /\ SqlData.phoneDataCache s' = Some []
       /\ SqlData.phoneDataExpiry s' = Some (now e + 3600000)
       /\ (SqlData.sqlConfigComplete (config e) = true ->
           Refresh.poolReady e s = true ->
           exists delta,
             SqlData.calls s' = SqlData.calls s ++ delta ++ [SqlQueryAll])
       /\ forall (e2 : Env) (addr2 : string),
            opsJiraApi_forceRefresh e2 <> Some true ->
            now e2 < now e + 3600000 ->
            now e + 3600000 <> 0 ->
            SqlData.getPhoneNumberByEmail e2 addr2 s' = (Returns None, s'))
  /\ (forall s : DirectClient.State,
        sqlConfigured (config e) = true ->
        sqlConnect e = None ->
        exists m' s',
          DirectClient.getPhoneNumberByEmail e addr s
          = (Throws (Rejection m'), s')
          /\ m' = match sqlClose e with Some c => c | None => m end
          /\ DirectClient.cache s' = DirectClient.cache s
          /\ DirectClient.calls s' = DirectClient.calls s ++ lookupCalls addr
          /\ (forall teamName s0 sch s1 u,
                DirectClient.getTeamSchedule e teamName s0
                = (Returns (Some sch), s1) ->
                DirectClient.getOnCallUser e (id sch) s1
                = (Returns (Some u), s) ->
                emailAddress u = Some addr ->
                DirectClient.getTeamOnCallPhoneNumber e teamName s0
                = (Throws (Rejection m'), s')
                /\ classify (Rejection m') = UpstreamError
                /\ Server.handleTeamPhoneLookup e teamName s0
                   = (Server.SendError 500
                        (if isEmpty m' then fallbackMessage else m'), s'))
          /\ (forall e2 addr2,
                sqlConfigured (config e2) = true -> sqlAnswers e2 = true ->
                fst (DirectClient.getPhoneNumberByEmail e2 addr2 s')
                = Returns (recordPhone e2 addr2))).
Proof.
  intros Q. split.
  - intros s R F.
    destruct (refresh_query_error e addr s m R F Q)
      as (s' & H1 & H2 & H3 & H4 & H5).
    exists s'. split; [exact H1|]. split; [exact H2|]. split; [exact H3|].
    split; [exact H4|exact H5].
  - intros s G C.
    pose proof (direct_lookup_query_error e addr s m G C Q) as L.
    eexists _, _. split; [exact L|]. split; [reflexivity|].
    split; [reflexivity|]. split; [reflexivity|]. split.
    + intros teamName s0 sch s1 u Ht Hu Ha.
      destruct (getOnCallUser_returns _ _ _ _ _ Hu) as (a & Ha' & Hn).
      rewrite Ha in Ha'. injection Ha' as <-.
      assert (T : DirectClient.getTeamOnCallPhoneNumber e teamName s0
                  = (Throws (Rejection
                               (match sqlClose e with
                                | Some c => c | None => m end)),
                     {| DirectClient.cache := DirectClient.cache s;
                        DirectClient.calls :=
                          DirectClient.calls s ++ lookupCalls addr |})).
      { now rewrite getTeamOnCallPhoneNumber_unfold, Ht, Hu, Ha, Hn, L. }
      split; [exact T|]. split; [reflexivity|].
      unfold Server.handleTeamPhoneLookup. rewrite T. reflexivity.
    + intros e2 addr2 G2 A2.
      now rewrite (getPhoneNumberByEmail_answers e2 addr2 _ G2 A2).
Qed.

Lemma query_error_outcomes_witness :
  let e := Scenario.world 1000 Scenario.rota
             [Scenario.row (Some "555-123-4567"%string) None]
             (Some "Timeout: Request failed to complete"%string) in
  sqlQuery e = Some "Timeout: Request failed to complete"%string
  /\ (exists s',
        SqlData.getPhoneNumberByEmail e "a@x.com" SqlData.initialState
        = (Returns None, s')
        /\ SqlData.phoneDataCache s' = Some []
        /\ SqlData.phoneDataExpiry s' = Some 3601000)
  /\ fst (DirectClient.getPhoneNumberByEmail e "a@x.com"
            DirectClient.initialState)
     = Throws (Rejection "Timeout: Request failed to complete").
Proof.
  split; [reflexivity|].
  destruct (query_error_outcomes
              (Scenario.world 1000 Scenario.rota
                 [Scenario.row (Some "555-123-4567"%string) None]
                 (Some "Timeout: Request failed to complete"%string))
              "a@x.com"%string
              "Timeout: Request failed to complete"%string eq_refl)
    as [HL HD].
  split.
  - destruct (HL SqlData.initialState eq_refl eq_refl)
      as (s' & H1 & H2 & H3 & _).
    exists s'. exact (conj H1 (conj H2 H3)).
  - destruct (HD DirectClient.initialState eq_refl eq_refl)
      as (m' & s' & H1 & H2 & _).
    rewrite H1, H2. reflexivity.
Defined.

(** C3 as stated fails for the active client: when the query by e-mail
    is rejected, the resolution throws the database error, which is not
    a NotFound error; the directory slot of the cache stays empty, no
    empty snapshot is stored; the route answers 500 with the message of
    the database error; and the next resolution throws the database
    error again. *)
Lemma query_error_reaches_caller :
  let e := Scenario.world 1000 Scenario.rota
             [Scenario.row (Some "555-123-4567"%string) None]
             (Some "Timeout: Request failed to complete"%string) in
  let r := DirectClient.getTeamOnCallPhoneNumber e "Help-Desk-schedule"
             DirectClient.initialState in
  sqlQuery e = Some "Timeout: Request failed to complete"%string
  /\ fst r = Throws (Rejection "Timeout: Request failed to complete")
  /\ classify (Rejection "Timeout: Request failed to complete") <> NotFound
  /\ DirectClient.data (DirectClient.phoneData (DirectClient.cache (snd r)))
     = None
  /\ fst (Server.handleTeamPhoneLookup e "Help-Desk-schedule"
            DirectClient.initialState)
     = Server.SendError 500 "Timeout: Request failed to complete"
  /\ fst (DirectClient.getTeamOnCallPhoneNumber e "Help-Desk-schedule"
            (snd r))
     = Throws (Rejection "Timeout: Request failed to complete").
Proof.
  repeat split; try reflexivity. discriminate.
Qed.

End QueryErrors.

(* ===================================================================== *)
(** ** End-to-end scenarios *)
(* ===================================================================== *)

Section EndToEnd.

(** The route [/helpdesk]: Alice is on call for "Help-Desk-schedule" and
    her row holds 555-123-4567. *)
Example helpdesk_route :
  let e := Scenario.world 1000 Scenario.rota
             [Scenario.row (Some "555-123-4567"%string) None] None in
  match find (fun entry => String.eqb (fst entry) "helpdesk")
             Server.TEAM_MAPPING with
  | Some (_, teamName) =>
      fst (Server.handleTeamPhoneLookup e teamName DirectClient.initialState)
  | None => Server.SendError 404 ""
  end = Server.Send "15551234567".
Proof. reflexivity. Qed.

(** The same route when no row matches the address of the on-call user:
    the handler answers 500 with the message of the thrown error. *)
Example helpdesk_route_no_record :
  let e := Scenario.world 1000 Scenario.rota [] None in
  fst (Server.handleTeamPhoneLookup e "Help-Desk-schedule"
         DirectClient.initialState)
  = Server.SendError 500 "No phone number found for email: a@x.com".
Proof. reflexivity. Qed.

(** The roster service is down: the resolution throws the HTTP error, the
    handler answers 500 with its message, and the health probe answers
    [false]. *)
Example roster_unavailable :
  let e := Scenario.world 1000 Scenario.unavailable [] None in
  fst (Server.handleTeamPhoneLookup e "Help-Desk-schedule"
         DirectClient.initialState)
  = Server.SendError 500 "HTTP error 503: Service Unavailable"
  /\ fst (DirectClient.isHealthy e DirectClient.initialState) = Returns false.
Proof. split; reflexivity. Qed.

(** After [clearCaches] the next resolution requests the schedule list
    again, whatever was left of the freshness window. *)
Example clearCaches_then_lookup :
  let e := Scenario.world 1000 Scenario.rota
             [Scenario.row (Some "555-123-4567"%string) None] None in
  let s1 := snd (DirectClient.getTeamOnCallPhoneNumber e "Help-Desk-schedule"
                   DirectClient.initialState) in
  let s2 := snd (DirectClient.clearCaches s1) in
  let s3 := snd (DirectClient.getTeamOnCallPhoneNumber e "Help-Desk-schedule"
                   s2) in
  DirectClient.calls s3 =
  DirectClient.calls s1 ++
  [HttpSchedules; HttpOnCalls "sched-1"; HttpUser "acct-1"; SqlConnect;
   SqlQueryByEmail "a@x.com"; SqlClose].
Proof. reflexivity. Qed.

End EndToEnd.

(* ===================================================================== *)
(** ** direct-client.js: cache windows, call order and guards *)
(* ===================================================================== *)

Section ResolutionFacts.

Import DirectClient.

Lemma clearCaches_stale s t :
  schedulesFresh (cache (snd (clearCaches s))) t = false.
Proof. reflexivity. Qed.

Lemma fetchSchedulesFromJira_calls e s :
  jiraConfigured (config e) = true ->
  calls (snd (fetchSchedulesFromJira e s)) = calls s ++ [HttpSchedules].
Proof.
  intros C.
  destruct (fetchSchedulesFromJira_cases e s)
    as [(C' & _)|[(v & _ & _ & ->)|(err & _ & _ & _ & ->)]];
    [congruence|reflexivity|reflexivity].
Qed.

(** The calls of a resolution after the schedule list: a prefix of the
    five stage calls, never cut between the query and the close. *)
Lemma getTeamOnCallPhoneNumber_calls e teamName s :
  exists n sch acct addr r,
    getTeamOnCallPhoneNumber e teamName s =
    (r, {| cache := cache (snd (getSchedules e s));
           calls := calls (snd (getSchedules e s))
                    ++ firstn n (stageCalls (id sch) acct addr) |})
    /\ n <> 4%nat /\ (n <= 5)%nat
    /\ (forall p, r = Returns p -> n = 5%nat).
Proof.
  rewrite getTeamOnCallPhoneNumber_unfold, getTeamSchedule_unfold.
  destruct (getSchedules e s) as [[l|err] s0]; simpl.
  2:{ exists 0%nat, {| id := ""; name := "" |}, ""%string, ""%string,
        (Throws err).
      simpl. rewrite <- state_eta. repeat split; try lia; discriminate. }
  destruct (findSchedule teamName l) as [sch|].
  2:{ exists 0%nat, {| id := ""; name := "" |}, ""%string, ""%string,
        (Throws (noSchedule teamName)).
      simpl. rewrite <- state_eta. repeat split; try lia; discriminate. }
  destruct (getOnCallUser_effect e (id sch) s0) as (d1 & Hs1 & Hd1).
  destruct (getOnCallUser e (id sch) s0) as [[[u|]|err] s1] eqn:U;
    simpl in Hs1; subst s1.
  - destruct (getOnCallUser_returns_calls _ _ _ _ _ U) as (acct & Ha).
    injection Ha as Ha. apply app_inv_head in Ha. subst d1.
    destruct (emailAddress u) as [addr|].
    2:{ exists 2%nat, sch, acct, ""%string, (Throws (noUser teamName)).
        repeat split; try lia; discriminate. }
    destruct (isEmpty addr).
    { exists 2%nat, sch, acct, ""%string, (Throws (noUser teamName)).
      repeat split; try lia; discriminate. }
    set (s1 := {| cache := cache s0;
                  calls := calls s0 ++ [HttpOnCalls (id sch); HttpUser acct] |}).
    destruct (getPhoneNumberByEmail_effect e addr s1) as (d2 & Hs2 & Hd2).
    destruct (getPhoneNumberByEmail e addr s1) as [[[p|]|err] s2] eqn:L;
      simpl in Hs2; subst s2; unfold s1; simpl; rewrite <- app_assoc.
    + destruct (getPhoneNumberByEmail_returns _ _ _ _ _ L) as (_ & Hc).
      injection Hc as Hc. simpl in Hc. apply app_inv_head in Hc. subst d2.
      exists 5%nat, sch, acct, addr.
      destruct (isEmpty p); eexists; (split; [reflexivity|]);
        repeat split; try lia; discriminate.
    + destruct (getPhoneNumberByEmail_returns _ _ _ _ _ L) as (_ & Hc).
      injection Hc as Hc. simpl in Hc. apply app_inv_head in Hc. subst d2.
      exists 5%nat, sch, acct, addr, (Throws (noPhone addr)).
      repeat split; try lia; discriminate.
    + destruct Hd2 as [->|[->| ->]].
      * exists 2%nat, sch, acct, addr, (Throws err).
        repeat split; try lia; discriminate.
      * exists 3%nat, sch, acct, addr, (Throws err).
        repeat split; try lia; discriminate.
      * exists 5%nat, sch, acct, addr, (Throws err).
        repeat split; try lia; discriminate.
  - destruct Hd1 as [->|[acct ->]].
    + exists 1%nat, sch, ""%string, ""%string, (Throws (noUser teamName)).
      repeat split; try lia; discriminate.
    + exists 2%nat, sch, acct, ""%string, (Throws (noUser teamName)).
      repeat split; try lia; discriminate.
  - destruct Hd1 as [->|[acct ->]].
    + exists 1%nat, sch, ""%string, ""%string, (Throws err).
      repeat split; try lia; discriminate.
    + exists 2%nat, sch, acct, ""%string, (Throws err).
      repeat split; try lia; discriminate.
Qed.

(** X1.  After [clearCaches] the schedule slot is stale at every time: with
    a complete Jira configuration the next [getSchedules], the next health
    probe and the next resolution each start with a request for the
    schedule list, whatever was left of the freshness window. *)
Theorem clearCaches_forces_refetch (e : Env) (teamName : string) (s : State) :
  jiraConfigured (config e) = true ->
  calls (snd (getSchedules e (snd (clearCaches s))))
  = calls s ++ [HttpSchedules]
  /\ calls (snd (isHealthy e (snd (clearCaches s))))
     = calls s ++ [HttpSchedules]
  /\ exists rest,
       calls (snd (getTeamOnCallPhoneNumber e teamName (snd (clearCaches s))))
       = calls s ++ HttpSchedules :: rest.
Proof.
  intros C.
  assert (G : calls (snd (getSchedules e (snd (clearCaches s))))
              = calls s ++ [HttpSchedules]).
  { rewrite (getSchedules_stale e _ (clearCaches_stale s (now e))).
    now rewrite (fetchSchedulesFromJira_calls e _ C). }
  split; [exact G|]. split; [now rewrite isHealthy_state|].
  destruct (getTeamOnCallPhoneNumber_calls e teamName (snd (clearCaches s)))
    as (n & sch & acct & addr & r & -> & _).
  cbn [snd calls]. rewrite G, <- app_assoc. simpl app. eauto.
Qed.

Lemma clearCaches_forces_refetch_witness :
  let e := Scenario.world 2000 Scenario.rota [] None in
  let s := snd (getSchedules (Scenario.world 1000 Scenario.rota [] None)
                  initialState) in
  jiraConfigured (config e) = true
  /\ schedulesFresh (cache s) (now e) = true
  /\ calls (snd (getSchedules e (snd (clearCaches s))))
     = calls s ++ [HttpSchedules].
Proof.
  split; [reflexivity|]. split; [reflexivity|].
  apply (clearCaches_forces_refetch
           (Scenario.world 2000 Scenario.rota [] None) ""%string
           (snd (getSchedules (Scenario.world 1000 Scenario.rota [] None)
                   initialState))).
  reflexivity.
Defined.

(** No exported function changes the duration of the schedule slot. *)
Lemma getSchedules_duration e s :
  duration (schedules (cache (snd (getSchedules e s))))
  = duration (schedules (cache s)).
Proof.
  destruct (schedulesFresh (cache s) (now e)) eqn:F.
  - destruct (getSchedules_fresh e s F) as (l & _ & ->). reflexivity.
  - rewrite (getSchedules_stale e s F).
    destruct (fetchSchedulesFromJira_cases e s)
      as [(_ & ->)|[(v & _ & _ & ->)|(err & _ & _ & _ & ->)]]; reflexivity.
Qed.

Lemma serve_duration e r s :
  duration (schedules (cache (serve e r s)))
  = duration (schedules (cache s)).
Proof.
  destruct r as [t|t| |i|a| | |]; simpl.
  - destruct (getTeamOnCallPhoneNumber_calls e t s)
      as (n & sch & acct & addr & r & -> & _).
    simpl. apply getSchedules_duration.
  - rewrite getTeamSchedule_effect. apply getSchedules_duration.
  - apply getSchedules_duration.
  - now destruct (getOnCallUser_effect e i s) as (d & -> & _).
  - now destruct (getPhoneNumberByEmail_effect e a s) as (d & -> & _).
  - reflexivity.
  - rewrite isHealthy_state. apply getSchedules_duration.
  - reflexivity.
Qed.

Lemma reachable_duration s :
  reachable s -> duration (schedules (cache s)) = 900000.
Proof.
  induction 1 as [|e r s R IH]; [reflexivity|].
  now rewrite serve_duration.
Qed.

(** C8, as the code has it.  The health probe goes through
    [getSchedules] and nothing else: it issues no database call and
    leaves the directory slot alone.  With a fresh schedule slot the
    state is unchanged.  With a stale or empty slot the outcome of the
    schedule request decides: when the configuration is complete and the
    request delivers a list, the probe replaces the data of the slot by
    that list and its expiry by [now + 900000], fifteen minutes; when the
    configuration is incomplete, the request fails or its body holds no
    list, the cache stays as it was and the probe answers [false]. *)
Theorem isHealthy_cache_effect (e : Env) (s : State) :
  reachable s ->
  let s' := snd (isHealthy e s) in
  phoneData (cache s') = phoneData (cache s)
  /\ filter isDatabaseCall (calls s') = filter isDatabaseCall (calls s)
  /\ (schedulesFresh (cache s) (now e) = true -> s' = s)
  /\ (schedulesFresh (cache s) (now e) = false ->
      (forall values,
         jiraConfigured (config e) = true ->
         delivers (fetchSchedules e) = Some (Some values) ->
         data (schedules (cache s')) = Some values
         /\ expiry (schedules (cache s')) = Some (now e + 900000)
         /\ s' = refreshed e values s)
      /\ (jiraConfigured (config e) = false
          \/ delivers (fetchSchedules e) = None
          \/ delivers (fetchSchedules e) = Some None ->
          cache s' = cache s /\ fst (isHealthy e s) = Returns false)).
Proof.
  intros R. pose proof (reachable_duration s R) as Hd.
  simpl. rewrite isHealthy_state.
  destruct (getSchedules_effect e s) as [Hp Hc].
  split; [exact Hp|]. split.
  { destruct Hc as [->| ->]; [reflexivity|].
    rewrite filter_app. simpl. now rewrite app_nil_r. }
  split.
  { intros F. now destruct (getSchedules_fresh e s F) as (l & _ & ->). }
  intros F. pose proof (isHealthy_throws e s) as Ht.
  rewrite (getSchedules_stale e s F) in *.
  destruct (fetchSchedulesFromJira_cases e s)
    as [(C & Hf)|[(v & C & D & Hf)|(err & C & D & _ & Hf)]].
  - split.
    + intros values C'. congruence.
    + intros _. rewrite (Ht _ _ Hf), Hf. auto.
  - split.
    + intros values _ D'. rewrite D in D'. injection D' as <-.
      rewrite Hf. cbn [snd refreshed cache schedules data expiry].
      rewrite Hd. auto.
    + intros [C'|[D'|D']]; congruence.
  - split.
    + intros values _ D'. destruct D as [D|D]; congruence.
    + intros _. rewrite (Ht _ _ Hf), Hf. auto.
Qed.

Lemma isHealthy_cache_effect_witness :
  let e := Scenario.world 1000 Scenario.rota [] None in
  let s' := snd (isHealthy e initialState) in
  reachable initialState
  /\ schedulesFresh (cache initialState) (now e) = false
  /\ data (schedules (cache s')) = Some [Scenario.helpDesk; Scenario.network]
  /\ expiry (schedules (cache s')) = Some 901000.
Proof.
  split; [apply reachable_initial|]. split; [reflexivity|].
  destruct (isHealthy_cache_effect
              (Scenario.world 1000 Scenario.rota [] None) initialState
              reachable_initial) as (_ & _ & _ & H).
  destruct (H eq_refl) as [H1 _].
  destruct (H1 [Scenario.helpDesk; Scenario.network] eq_refl eq_refl)
    as (A & B & _).
  split; [exact A|exact B].
Defined.

(** X2.  After a refresh of the schedule slot at time [now e0] (not
    negative), the list fetched is served from the cache, with no request
    and no change of state, at every time before [now e0 + 900000]; from
    that time on the slot is stale and a call with a complete
    configuration requests the list again, exactly once. *)
Theorem schedules_window (e0 : Env) (s : State) (values : list Schedule) :
  reachable s ->
  0 <= now e0 ->
  schedulesFresh (cache s) (now e0) = false ->
  jiraConfigured (config e0) = true ->
  delivers (fetchSchedules e0) = Some (Some values) ->
  exists s1,
    getSchedules e0 s = (Returns values, s1)
    /\ forall e1,
         (now e1 < now e0 + 900000 ->
          getSchedules e1 s1 = (Returns values, s1))
         /\ (now e0 + 900000 <= now e1 ->
             jiraConfigured (config e1) = true ->
             calls (snd (getSchedules e1 s1)) = calls s1 ++ [HttpSchedules]).
Proof.
  intros R T F C D.
  pose proof (reachable_duration s R) as Hd.
  exists (refreshed e0 values s).
  assert (G : getSchedules e0 s = (Returns values, refreshed e0 values s)).
  { rewrite (getSchedules_stale e0 s F).
    destruct (fetchSchedulesFromJira_cases e0 s)
      as [(C' & _)|[(v & _ & D' & ->)|(err & _ & D' & _)]].
    - congruence.
    - rewrite D in D'. now injection D' as <-.
    - rewrite D in D'. destruct D'; discriminate. }
  split; [exact G|]. intros e1.
  assert (W : schedulesFresh (cache (refreshed e0 values s)) (now e1)
              = (now e1 <? now e0 + 900000)).
  { rewrite refreshed_window, Hd.
    replace (now e0 + 900000 =? 0) with false
      by (symmetry; apply Z.eqb_neq; lia).
    reflexivity. }
  split.
  - intros Lt. apply Z.ltb_lt in Lt. rewrite <- W in Lt.
    destruct (getSchedules_fresh e1 _ Lt) as (l & Hl & ->).
    simpl in Hl. now injection Hl as <-.
  - intros Ge C1. apply Z.ltb_ge in Ge. rewrite <- W in Ge.
    rewrite (getSchedules_stale e1 _ Ge).
    now apply fetchSchedulesFromJira_calls.
Qed.

Lemma schedules_window_witness :
  let e0 := Scenario.world 1000 Scenario.rota [] None in
  let e1 := Scenario.world 900999 Scenario.unavailable [] None in
  exists s1,
    getSchedules e0 initialState
    = (Returns [Scenario.helpDesk; Scenario.network], s1)
    /\ getSchedules e1 s1
       = (Returns [Scenario.helpDesk; Scenario.network], s1).
Proof.
  destruct (schedules_window
              (Scenario.world 1000 Scenario.rota [] None) initialState
              [Scenario.helpDesk; Scenario.network]
              reachable_initial ltac:(simpl; lia) eq_refl eq_refl eq_refl)
    as (s1 & H0 & H1).
  exists s1. split; [exact H0|].
  apply (proj1 (H1 (Scenario.world 900999 Scenario.unavailable [] None))).
  simpl. lia.
Defined.

(** X3.  What [getSchedules] returns is what the schedule slot holds
    afterwards, and it is never an expired list: either the slot was fresh
    at the time of the call and nothing changed, or the list was fetched
    in this call.  When the call throws, the slot was stale, the error is
    not one of the NotFound errors, and the cache is left as it was: the
    old list is neither served nor discarded. *)
Theorem getSchedules_outcome (e : Env) (s : State) :
  match getSchedules e s with
  | (Returns l, s') =>
      data (schedules (cache s')) = Some l
      /\ ((schedulesFresh (cache s) (now e) = true /\ s' = s)
          \/ (schedulesFresh (cache s) (now e) = false
              /\ delivers (fetchSchedules e) = Some (Some l)
              /\ s' = refreshed e l s))
  | (Throws err, s') =>
      schedulesFresh (cache s) (now e) = false
      /\ cache s' = cache s
      /\ classify err = UpstreamError
  end.
Proof.
  destruct (schedulesFresh (cache s) (now e)) eqn:F.
  - destruct (getSchedules_fresh e s F) as (l & Hl & ->). auto.
  - rewrite (getSchedules_stale e s F).
    destruct (fetchSchedulesFromJira_cases e s)
      as [(_ & ->)|[(v & _ & D & ->)|(err & _ & _ & Hc & ->)]]; simpl; auto.
Qed.

(** X4.  The upstream calls of a resolution come in one fixed order: the
    request for the schedule list when the slot is stale, then the
    on-call request, the user request, the database connection, the query
    and the close.  A resolution stops at some point of this sequence,
    never between the query and the close, and one that returns a number
    has gone through all of it. *)
Theorem resolution_call_order (e : Env) (teamName : string) (s : State) :
  exists pre n sch acct addr,
    calls (snd (getTeamOnCallPhoneNumber e teamName s))
    = calls s ++ pre ++ firstn n (stageCalls (id sch) acct addr)
    /\ (pre = [] \/ pre = [HttpSchedules])
    /\ n <> 4%nat /\ (n <= 5)%nat
    /\ (forall p, fst (getTeamOnCallPhoneNumber e teamName s) = Returns p ->
                  n = 5%nat).
Proof.
  destruct (getTeamOnCallPhoneNumber_calls e teamName s)
    as (n & sch & acct & addr & r & H & N4 & N5 & Hr).
  destruct (getSchedules_effect e s) as [_ Hc].
  rewrite H. simpl.
  destruct Hc as [Hc|Hc]; rewrite Hc.
  - exists [], n, sch, acct, addr. repeat split; auto.
  - exists [HttpSchedules], n, sch, acct, addr.
    rewrite <- app_assoc. repeat split; auto.
Qed.

(** *** Connections *)














(** *** Configuration guards *)

(** X6.  With a stale schedule slot and an incomplete Jira configuration
    nothing is requested: the resolution throws "Incomplete Jira API
    configuration" and leaves the state as it was, the route handler
    answers 500 with that message, and the health probe answers
    [false]. *)
Theorem jira_guard_fails_fast (e : Env) (teamName : string) (s : State) :
  schedulesFresh (cache s) (now e) = false ->
  jiraConfigured (config e) = false ->
  getTeamOnCallPhoneNumber e teamName s
  = (Throws (Error "Incomplete Jira API configuration"), s)
  /\ Server.handleTeamPhoneLookup e teamName s
     = (Server.SendError 500 "Incomplete Jira API configuration", s)
  /\ isHealthy e s = (Returns false, s).
Proof.
  intros F C.
  assert (G : getSchedules e s
              = (Throws (Error "Incomplete Jira API configuration"), s)).
  { rewrite (getSchedules_stale e s F).
    destruct (fetchSchedulesFromJira_cases e s)
      as [(_ & H)|[(v & C' & _)|(err & C' & _)]]; [exact H| |]; congruence. }
  assert (T : getTeamOnCallPhoneNumber e teamName s
              = (Throws (Error "Incomplete Jira API configuration"), s)).
  { now rewrite getTeamOnCallPhoneNumber_unfold, getTeamSchedule_unfold, G. }
  split; [exact T|]. split.
  - unfold Server.handleTeamPhoneLookup. now rewrite T.
  - now rewrite (isHealthy_throws e s _ _ G).
Qed.

Lemma jira_guard_fails_fast_witness :
  let cfg := {| jira_username := Some "svc-oncall"%string;
                jira_apiToken := None;
                jira_cloudId := Some "cloud-1"%string;
                jira_hostUrl := Some "https://api.example.com"%string;
                jira_basePath := Some "jsm/ops/api"%string;
                sql_database := Some "Directory"%string;
                sql_authMode := "sql"%string;
                sql_username := Some "reader"%string;
                sql_password := Some "secret"%string;
                fallback_useTempFile := false;
                defaultPhoneNumber := "15555555555"%string |} in
  let e := {| now := 1000; config := cfg;
              fetchSchedules := Scenario.rota;
              fetchOnCalls := fun _ => FetchRejects "unused"%string;
              fetchUser := fun _ => FetchRejects "unused"%string;
              sqlConnect := None; sqlQuery := None; sqlClose := None;
              sqlTable := []; sqlEquals := String.eqb;
              opsJiraApi_forceRefresh := None;
              tempFileExists := false; tempFileRecords := None |} in
  jiraConfigured (config e) = false
  /\ Server.handleTeamPhoneLookup e "Help-Desk-schedule" initialState
     = (Server.SendError 500 "Incomplete Jira API configuration",
        initialState).
Proof.
  split; [reflexivity|].
  refine (proj1 (proj2 (jira_guard_fails_fast _ _ _ _ _))); reflexivity.
Defined.

(** X7.  With an SQL configuration that does not pass the guards of the
    lookup (credentials missing outside Windows authentication, or no
    database name), no resolution returns a number and no call reaches
    the database: the resolution throws, and the calls it has issued are
    roster requests only. *)
Theorem sql_guard_blocks_database (e : Env) (teamName : string) (s : State) :
  sqlConfigured (config e) = false ->
  exists err s',
    getTeamOnCallPhoneNumber e teamName s = (Throws err, s')
    /\ filter isDatabaseCall (calls s') = filter isDatabaseCall (calls s).
Proof.
  intros G.
  assert (S0 : filter isDatabaseCall (calls (snd (getSchedules e s)))
               = filter isDatabaseCall (calls s)).
  { destruct (getSchedules_effect e s) as [_ [->| ->]]; [reflexivity|].
    rewrite filter_app. simpl. now rewrite app_nil_r. }
  rewrite getTeamOnCallPhoneNumber_unfold, getTeamSchedule_unfold.
  destruct (getSchedules e s) as [[l|err] s0]; simpl in *.
  2:{ eexists _, _. split; [reflexivity|exact S0]. }
  destruct (findSchedule teamName l) as [sch|].
  2:{ eexists _, _. split; [reflexivity|exact S0]. }
  destruct (getOnCallUser_effect e (id sch) s0) as (d1 & Hs1 & Hd1).
  assert (D1 : filter isDatabaseCall (calls s0 ++ d1)
               = filter isDatabaseCall (calls s)).
  { rewrite filter_app, S0.
    destruct Hd1 as [->|[p ->]]; simpl; now rewrite app_nil_r. }
  destruct (getOnCallUser e (id sch) s0) as [[[u|]|err] s1];
    simpl in Hs1; subst s1;
    try (eexists _, _; split; [reflexivity|exact D1]).
  destruct (emailAddress u) as [a|];
    [|eexists _, _; split; [reflexivity|exact D1]].
  destruct (isEmpty a);
    [eexists _, _; split; [reflexivity|exact D1]|].
  match goal with
  | |- context [getPhoneNumberByEmail e a ?st] =>
      destruct (getPhoneNumberByEmail_cases e a st)
        as [(_ & m & -> & _)|[(G' & _)|(G' & _)]]; try congruence
  end.
  eexists _, _. split; [reflexivity|exact D1].
Qed.

Lemma sql_guard_blocks_database_witness :
  let cfg := {| jira_username := Some "svc-oncall"%string;
                jira_apiToken := Some "token"%string;
                jira_cloudId := Some "cloud-1"%string;
                jira_hostUrl := Some "https://api.example.com"%string;
                jira_basePath := Some "jsm/ops/api"%string;
                sql_database := None;
                sql_authMode := "windows"%string;
                sql_username := None;
                sql_password := None;
                fallback_useTempFile := false;
                defaultPhoneNumber := "15555555555"%string |} in
  let e := {| now := 1000; config := cfg;
              fetchSchedules := Scenario.rota;
              fetchOnCalls := fun _ =>
                Response 200 "OK"
                  (Json {| onCallParticipants := Some ["acct-1"%string] |});
              fetchUser := fun _ => Response 200 "OK" (Json Scenario.alice);
              sqlConnect := None; sqlQuery := None; sqlClose := None;
              sqlTable := [Scenario.row (Some "555-123-4567"%string) None];
              sqlEquals := String.eqb;
              opsJiraApi_forceRefresh := None;
              tempFileExists := false; tempFileRecords := None |} in
  sqlConfigured (config e) = false
  /\ exists err s',
       getTeamOnCallPhoneNumber e "Help-Desk-schedule" initialState
       = (Throws err, s')
       /\ filter isDatabaseCall (calls s') = [].
Proof.
  split; [reflexivity|].
  refine (sql_guard_blocks_database _ "Help-Desk-schedule"%string
            initialState _).
  reflexivity.
Defined.

(** *** The route handler *)

(** X8.  The team route never answers 404 and never sends an empty body.
    What it sends is the number the resolution returned, a non-empty
    string of digits whose length is not ten; otherwise it answers 500
    with a non-empty message, the one of the thrown error or a fixed text
    when that message is empty.  The handler leaves the client in the
    state the resolution left. *)
Theorem handleTeamPhoneLookup_response (e : Env) (teamName : string)
    (s : State) :
  match Server.handleTeamPhoneLookup e teamName s with
  | (Server.Send body, s') =>
      getTeamOnCallPhoneNumber e teamName s = (Returns body, s')
      /\ isEmpty body = false
      /\ allDigits body = true
      /\ String.length body <> 10%nat
  | (Server.SendError status m, s') =>
      status = 500
      /\ isEmpty m = false
      /\ exists err,
           getTeamOnCallPhoneNumber e teamName s = (Throws err, s')
           /\ m = if isEmpty (JS.message err) then fallbackMessage
                  else JS.message err
  end.
Proof.
  unfold Server.handleTeamPhoneLookup.
  destruct (getTeamOnCallPhoneNumber e teamName s) as [[p|err] s'] eqn:H.
  - destruct (getTeamOnCallPhoneNumber_returns _ _ _ _ _ H)
      as (sch & s1 & u & s2 & addr & _ & _ & _ & L & Hp).
    rewrite Hp.
    destruct (getPhoneNumberByEmail_returns _ _ _ _ _ L) as (R & _).
    symmetry in R.
    destruct (recordPhone_some _ _ _ R) as (record & rest & raw & _ & _ & ->).
    repeat split; [exact Hp|apply formatPhoneNumber_allDigits
                  |apply formatPhoneNumber_length].
  - split; [reflexivity|]. split.
    + destruct (isEmpty (JS.message err)) eqn:M; [reflexivity|exact M].
    + exists err. split; reflexivity.
Qed.

End ResolutionFacts.

(* ===================================================================== *)
(** ** Phone formatting and masking *)
(* ===================================================================== *)

Section FormattingFacts.

Lemma replaceNonDigits_append (a b : string) :
  replaceNonDigits (a ++ b)%string
  = (replaceNonDigits a ++ replaceNonDigits b)%string.
Proof.
  induction a as [|c r IH]; simpl; [reflexivity|].
  destruct (isDigit c); simpl; now rewrite IH.
Qed.

Lemma replaceNonDigits_digits (s : string) :
  allDigits s = true -> replaceNonDigits s = s.
Proof.
  unfold allDigits.
  induction s as [|c r IH]; simpl; [reflexivity|].
  intros H. apply andb_prop in H. destruct H as [Hc Hr].
  now rewrite Hc, (IH Hr).
Qed.

(** X9.  Formatting is idempotent: a number that has been formatted is
    left unchanged by formatting it again. *)
Theorem formatPhoneNumber_idempotent (raw : string) :
  formatPhoneNumber (formatPhoneNumber raw) = formatPhoneNumber raw.
Proof.
  rewrite (formatPhoneNumber_unfold (formatPhoneNumber raw)).
  rewrite (replaceNonDigits_digits _ (formatPhoneNumber_allDigits raw)).
  destruct (Nat.eqb (String.length (formatPhoneNumber raw)) 10) eqn:L;
    [|reflexivity].
  apply Nat.eqb_eq in L. now apply formatPhoneNumber_length in L.
Qed.

(** X10.  A ten-digit number formats to the same eleven digits whether or
    not the country code is written in front of it: when the text before
    the number holds the single digit 1 (as in "+1 " or "1-"), the whole
    formats like the ten-digit number alone, to "1" followed by its
    digits. *)
Theorem formatPhoneNumber_country_code (pre raw : string) :
  replaceNonDigits pre = "1"%string ->
  String.length (replaceNonDigits raw) = 10%nat ->
  formatPhoneNumber (pre ++ raw)%string = formatPhoneNumber raw
  /\ formatPhoneNumber raw = ("1" ++ replaceNonDigits raw)%string
  /\ elevenDigitsFrom1 (formatPhoneNumber raw) = true.
Proof.
  intros P L.
  rewrite !formatPhoneNumber_unfold, replaceNonDigits_append, P, L.
  simpl. rewrite L. simpl. repeat split.
  apply elevenDigitsFrom1_ten; [apply replaceNonDigits_allDigits|exact L].
Qed.

Lemma formatPhoneNumber_country_code_witness :
  formatPhoneNumber "+1 (555) 123-4567" = formatPhoneNumber "555.123.4567"
  /\ formatPhoneNumber "555.123.4567" = "15551234567"%string.
Proof.
  pose proof (formatPhoneNumber_country_code "+1 "%string
                "(555) 123-4567"%string eq_refl eq_refl) as (H1 & H2 & _).
  split; [exact H1|reflexivity].
Defined.

Lemma substringFrom_suffix (n : nat) (s : string) :
  exists hidden,
    s = (hidden ++ ServerLog.substringFrom n s)%string
    /\ String.length hidden = Nat.min n (String.length s).
Proof.
  revert s. induction n as [|n IH]; intros s.
  - now exists ""%string.
  - destruct s as [|c r]; [now exists ""%string|].
    destruct (IH r) as (h & Hh & Hl).
    exists (String c h). simpl. split; [now rewrite <- Hh|now rewrite Hl].
Qed.

Lemma string_length_append (a b : string) :
  String.length (a ++ b)%string = (String.length a + String.length b)%nat.
Proof. induction a as [|c r IH]; simpl; [reflexivity|now rewrite IH]. Qed.

(** X11.  The number a route writes to the log is masked: four stars
    followed by a tail of the number of at most four characters.  For a
    number longer than four characters both routes show its last four
    characters and hide the rest.  For a shorter number the team route
    shows nothing of it, while the test route shows all of it. *)
Theorem maskedNumber_shows_tail (phoneNumber : string) :
  exists hidden shown,
    phoneNumber = (hidden ++ shown)%string
    /\ (String.length shown <= 4)%nat
    /\ ServerLog.maskedTestNumber phoneNumber = ("****" ++ shown)%string
    /\ ServerLog.maskedNumber phoneNumber
       = (if Nat.ltb 4 (String.length phoneNumber)
          then "****" ++ shown else "****")%string
    /\ (if Nat.ltb 4 (String.length phoneNumber)
        then String.length shown = 4%nat
        else hidden = ""%string).
Proof.
  destruct (substringFrom_suffix (String.length phoneNumber - 4) phoneNumber)
    as (hidden & Hs & Hl).
  exists hidden, (ServerLog.substringFrom (String.length phoneNumber - 4)
                    phoneNumber).
  pose proof (f_equal String.length Hs) as Hn.
  rewrite string_length_append, Hl in Hn.
  split; [exact Hs|]. split; [lia|]. split; [reflexivity|].
  unfold ServerLog.maskedNumber.
  destruct (Nat.ltb 4 (String.length phoneNumber)) eqn:C.
  - apply Nat.ltb_lt in C. split; [reflexivity|lia].
  - apply Nat.ltb_ge in C. split; [reflexivity|].
    destruct hidden; [reflexivity|]. simpl in Hl. lia.
Qed.

End FormattingFacts.

(* ===================================================================== *)
(** ** sql-data.js: snapshot window, forced refresh and call discipline *)
(* ===================================================================== *)

Section LegacyFacts.

Import SqlData Refresh.

Lemma lookup_state e addr s :
  snd (SqlData.getPhoneNumberByEmail e addr s)
  = if refreshDue e s then fetched e s else served e s.
Proof.
  pose proof (getPhoneNumberByEmail_spec e addr s) as H. simpl in H.
  now rewrite H.
Qed.

Lemma lookup_result e addr s :
  fst (SqlData.getPhoneNumberByEmail e addr s)
  = Returns (answer (config e) addr
               (phoneDataCache (snd (SqlData.getPhoneNumberByEmail e addr s)))).
Proof.
  pose proof (getPhoneNumberByEmail_spec e addr s) as H. simpl in H.
  now rewrite H.
Qed.

Lemma refreshDue_synced e s :
  refreshDue e s = false -> syncedForceRefresh e s = false.
Proof.
  unfold refreshDue. intros H. apply negb_false_iff in H.
  apply andb_prop in H. destruct H as [H _].
  now apply negb_true_iff in H.
Qed.

(** After every lookup the local force-refresh flag is off. *)
Lemma lookup_flag e addr s :
  _forceRefresh (snd (SqlData.getPhoneNumberByEmail e addr s)) = false.
Proof.
  rewrite lookup_state. destruct (refreshDue e s) eqn:R; [reflexivity|].
  simpl. now apply refreshDue_synced.
Qed.

Lemma served_same e s :
  _forceRefresh s = false -> syncedForceRefresh e s = false ->
  served e s = s.
Proof.
  intros F S. unfold served. rewrite S. destruct s; simpl in *. now subst.
Qed.

(** X12.  After a refresh of the directory snapshot at time [now e0] (not
    negative), every lookup made before [now e0 + 3600000] without a
    forced refresh is answered from that snapshot: it issues no upstream
    call and leaves the module state as it is, so a change of the table in
    the meantime is not seen.  From [now e0 + 3600000] on a lookup
    refreshes the snapshot again. *)
Theorem directory_window (e0 e1 : Env) (a0 a1 : string) (s : State) :
  refreshDue e0 s = true ->
  0 <= now e0 ->
  opsJiraApi_forceRefresh e1 <> Some true ->
  exists rows s1,
    snd (SqlData.getPhoneNumberByEmail e0 a0 s) = s1
    /\ phoneDataCache s1 = Some rows
    /\ (now e1 < now e0 + 3600000 ->
        SqlData.getPhoneNumberByEmail e1 a1 s1
        = (Returns (answer (config e1) a1 (Some rows)), s1))
    /\ (now e0 + 3600000 <= now e1 ->
        phoneDataExpiry (snd (SqlData.getPhoneNumberByEmail e1 a1 s1))
        = Some (now e1 + 3600000)).
Proof.
  intros R T N.
  exists (snapshot e0 s), (fetched e0 s).
  split; [now rewrite lookup_state, R|]. split; [reflexivity|].
  assert (S : syncedForceRefresh e1 (fetched e0 s) = false).
  { unfold syncedForceRefresh. simpl.
    destruct (opsJiraApi_forceRefresh e1) as [[|]|]; congruence. }
  assert (D : refreshDue e1 (fetched e0 s)
              = negb (now e1 <? now e0 + 3600000)).
  { unfold refreshDue. rewrite S. simpl. unfold CACHE_DURATION.
    replace (now e0 + 60 * 60 * 1000 =? 0) with false
      by (symmetry; apply Z.eqb_neq; lia).
    reflexivity. }
  split.
  - intros Lt. apply Z.ltb_lt in Lt.
    pose proof (getPhoneNumberByEmail_spec e1 a1 (fetched e0 s)) as H.
    simpl in H. rewrite D, Lt in H. simpl in H.
    rewrite (served_same e1 (fetched e0 s) eq_refl S) in H. exact H.
  - intros Ge. apply Z.ltb_ge in Ge.
    rewrite lookup_state, D, Ge. reflexivity.
Qed.

Lemma directory_window_witness :
  let e0 := Scenario.world 1000 Scenario.rota
              [Scenario.row (Some "555-123-4567"%string) None] None in
  let e1 := Scenario.world 3600999 Scenario.rota [] None in
  refreshDue e0 initialState = true
  /\ exists s1,
       snd (SqlData.getPhoneNumberByEmail e0 "a@x.com" initialState) = s1
       /\ SqlData.getPhoneNumberByEmail e1 "a@x.com" s1
          = (Returns (Some "15551234567"%string), s1).
Proof.
  split; [reflexivity|].
  destruct (directory_window
              (Scenario.world 1000 Scenario.rota
                 [Scenario.row (Some "555-123-4567"%string) None] None)
              (Scenario.world 3600999 Scenario.rota [] None)
              "a@x.com"%string "a@x.com"%string initialState
              eq_refl ltac:(simpl; lia) ltac:(simpl; discriminate))
    as (rows & s1 & H1 & H2 & H3 & _).
  exists s1. split; [exact H1|].
  rewrite <- H1 in H2. simpl in H2. injection H2 as <-.
  apply H3. simpl. lia.
Defined.

(** X13.  While ops-jira-api.js reports its force-refresh flag as set,
    every lookup refreshes the snapshot, however fresh it is: the expiry
    moves to one hour after the lookup, and with a complete SQL
    configuration, a pool at hand and a query that answers, the snapshot
    becomes the table as it is now.  The reset of the flag after use is
    local: the flag read at the next lookup is the imported one again. *)
Theorem forced_refresh (e : Env) (addr : string) (s : State) :
  opsJiraApi_forceRefresh e = Some true ->
  let s' := snd (SqlData.getPhoneNumberByEmail e addr s) in
  phoneDataExpiry s' = Some (now e + 3600000)
  /\ _forceRefresh s' = false
  /\ refreshDue e s' = true
  /\ (servedFromFile e = false -> sqlConfigComplete (config e) = true ->
      poolReady e s = true -> sqlQuery e = None ->
      phoneDataCache s' = Some (sqlTable e)).
Proof.
  intros F. simpl.
  assert (R : forall st, refreshDue e st = true).
  { intros st. unfold refreshDue, syncedForceRefresh. now rewrite F. }
  rewrite lookup_state, R. repeat split.
  - apply R.
  - intros N C P Q. simpl. unfold snapshot, sqlRows. now rewrite N, C, P, Q.
Qed.

Lemma forced_refresh_witness :
  let e := {| now := 2000; config := Scenario.cfg;
              fetchSchedules := Scenario.rota;
              fetchOnCalls := fun _ => FetchRejects "unused"%string;
              fetchUser := fun _ => FetchRejects "unused"%string;
              sqlConnect := None; sqlQuery := None; sqlClose := None;
              sqlTable := [Scenario.row (Some "555-123-4567"%string) None];
              sqlEquals := String.eqb;
              opsJiraApi_forceRefresh := Some true;
              tempFileExists := false; tempFileRecords := None |} in
  let s := snd (SqlData.getPhoneNumberByEmail
                  (Scenario.world 1000 Scenario.rota [] None)
                  "a@x.com" initialState) in
  opsJiraApi_forceRefresh e = Some true
  /\ phoneDataExpiry s = Some 3601000
  /\ phoneDataExpiry (snd (SqlData.getPhoneNumberByEmail e "a@x.com" s))
     = Some 3602000.
Proof.
  split; [reflexivity|]. split; [reflexivity|].
  refine (proj1 (forced_refresh _ "a@x.com"%string _ _)). reflexivity.
Defined.

Lemma emailMatches_lower a1 a2 row :
  toLowerCase a1 = toLowerCase a2 ->
  emailMatches a1 row = emailMatches a2 row.
Proof. unfold emailMatches. now intros ->. Qed.

Lemma find_ext_local {A} (f g : A -> bool) (l : list A) :
  (forall x, f x = g x) -> find f l = find g l.
Proof.
  intros H. induction l as [|x l IH]; simpl; [reflexivity|].
  now rewrite H, IH.
Qed.

(** X14.  The directory lookup does not look at the case of the address it
    is given: two addresses that agree once lower-cased get the same
    answer and leave the same state. *)
Theorem lookup_ignores_case (e : Env) (a1 a2 : string) (s : State) :
  toLowerCase a1 = toLowerCase a2 ->
  SqlData.getPhoneNumberByEmail e a1 s = SqlData.getPhoneNumberByEmail e a2 s.
Proof.
  intros H.
  pose proof (getPhoneNumberByEmail_spec e a1 s) as H1.
  pose proof (getPhoneNumberByEmail_spec e a2 s) as H2.
  simpl in H1, H2. rewrite H1, H2. f_equal. f_equal.
  unfold answer.
  destruct (phoneDataCache _) as [[|r rows]|]; try reflexivity.
  now rewrite (find_ext_local _ _ (r :: rows) (fun row => emailMatches_lower a1 a2 row H)).
Qed.

Lemma lookup_ignores_case_witness :
  let e := Scenario.world 1000 Scenario.rota
             [Scenario.row (Some "555-123-4567"%string) None] None in
  toLowerCase "A@X.Com" = toLowerCase "a@x.com"
  /\ fst (SqlData.getPhoneNumberByEmail e "A@X.Com" initialState)
     = Returns (Some "15551234567"%string).
Proof.
  split; [reflexivity|].
  rewrite (lookup_ignores_case
             (Scenario.world 1000 Scenario.rota
                [Scenario.row (Some "555-123-4567"%string) None] None)
             "A@X.Com"%string "a@x.com"%string initialState eq_refl).
  reflexivity.
Defined.

Lemma phoneOfRecord_shape cfg record p :
  phoneOfRecord cfg record = Some p ->
  p = defaultPhoneNumber cfg
  \/ (allDigits p = true /\ String.length p <> 10%nat).
Proof.
  unfold phoneOfRecord.
  destruct (truthy (cellPhone record)).
  - destruct (cellPhone record) as [raw|]; [|discriminate].
    intros H. injection H as <-. right.
    split; [apply formatPhoneNumber_allDigits|apply formatPhoneNumber_length].
  - destruct (truthy (extension record)); [|discriminate].
    destruct (extension record) as [ext|]; [|discriminate].
    destruct (negb (isEmpty (trim ext))); [|discriminate].
    intros H. injection H as <-. now left.
Qed.

(** X15.  Whatever number the directory lookup of sql-data.js hands to
    its callback is either the configured default number or a string of
    digits whose length is not ten.  The string may be empty: a cell
    phone value without any digit is handed over as the empty string. *)
Theorem legacy_number_shape (e : Env) (addr : string) (s : State)
    (p : string) (s' : State) :
  SqlData.getPhoneNumberByEmail e addr s = (Returns (Some p), s') ->
  p = defaultPhoneNumber (config e)
  \/ (allDigits p = true /\ String.length p <> 10%nat).
Proof.
  intros H.
  pose proof (lookup_result e addr s) as R. rewrite H in R. simpl in R.
  injection R as R. unfold answer in R.
  destruct (phoneDataCache s') as [[|r rows]|]; try discriminate.
  destruct (find (emailMatches addr) (r :: rows)) as [record|];
    [|discriminate].
  symmetry in R. now apply phoneOfRecord_shape in R.
Qed.

Lemma legacy_number_shape_witness :
  let e := Scenario.world 1000 Scenario.rota
             [Scenario.row (Some "n/a"%string) (Some "4321"%string)] None in
  fst (SqlData.getPhoneNumberByEmail e "a@x.com" initialState)
  = Returns (Some ""%string)
  /\ (""%string = defaultPhoneNumber (config e)
      \/ (allDigits "" = true /\ String.length "" <> 10%nat)).
Proof.
  split; [reflexivity|].
  apply (legacy_number_shape
           (Scenario.world 1000 Scenario.rota
              [Scenario.row (Some "n/a"%string) (Some "4321"%string)] None)
           "a@x.com"%string initialState ""%string
           (snd (SqlData.getPhoneNumberByEmail
                   (Scenario.world 1000 Scenario.rota
                      [Scenario.row (Some "n/a"%string)
                         (Some "4321"%string)] None)
                   "a@x.com" initialState))).
  reflexivity.
Defined.

(** X16.  The upstream calls of one directory lookup are, in this order,
    at most one read of the CSV file, at most one connection attempt and
    at most one bulk query.  The file is read only in temp-file mode and
    only when it exists; a connection is attempted only when the module
    holds no pool; when the file serves the snapshot the database is not
    called; and a lookup answered from the snapshot in memory issues no
    call at all. *)
Theorem refresh_call_discipline (e : Env) (addr : string) (s : State) :
  exists f c q,
    calls (snd (SqlData.getPhoneNumberByEmail e addr s))
    = calls s ++ f ++ c ++ q
    /\ (f = [] \/ (f = [FileRead]
                   /\ fallback_useTempFile (config e) = true
                   /\ tempFileExists e = true))
    /\ (c = [] \/ (c = [SqlConnect] /\ pool s = false))
    /\ (q = [] \/ q = [SqlQueryAll])
    /\ (if servedFromFile e then c = [] /\ q = [] else True)
    /\ (if refreshDue e s then True else f = [] /\ c = [] /\ q = []).
Proof.
  rewrite lookup_state.
  destruct (refreshDue e s).
  2:{ exists [], [], []. simpl. rewrite app_nil_r.
      repeat split; auto. now destruct (servedFromFile e). }
  simpl. unfold fileCalls, sqlCalls, servedFromFile.
  exists (if fallback_useTempFile (config e) && tempFileExists e
          then [FileRead] else []).
  destruct (fallback_useTempFile (config e)) eqn:U;
    destruct (tempFileExists e) eqn:X; simpl;
    destruct (tempFileRecords e) as [recs|]; simpl;
    try (exists [], []; repeat split; auto; fail);
    (destruct (sqlConfigComplete (config e)); simpl;
     [|exists [], []; repeat split; auto]);
    (exists (if pool s then [] else [SqlConnect]),
       (if poolReady e s then [SqlQueryAll] else []);
     repeat split; auto;
     [destruct (pool s); auto|destruct (poolReady e s); auto]).
Qed.

End LegacyFacts.

(* ===================================================================== *)
(** ** sql-data.js: the pool and the health probe *)
(* ===================================================================== *)

Section PoolFacts.

Import SqlData Refresh SqlDataPool.

Lemma closePool_spec e s :
  closePool e s =
  (Returns (negb (pool s) || match sqlClose e with
                              | None => true | Some _ => false end),
   {| phoneDataCache := phoneDataCache s;
      phoneDataExpiry := phoneDataExpiry s;
      pool := pool s && match sqlClose e with
                        | None => false | Some _ => true end;
      _forceRefresh := _forceRefresh s;
      calls := calls s ++ if pool s then [SqlClose] else [] |}).
Proof.
  unfold closePool, bind, get, ret, SqlData.call, setPool.
  destruct s as [c x p f tr]; simpl.
  destruct p; simpl; [|now rewrite app_nil_r].
  destruct (sqlClose e); reflexivity.
Qed.

Lemma pool_lifecycle_pool e addr s :
  pool s = true ->
  filter isConnect (calls (snd (SqlData.getPhoneNumberByEmail e addr s)))
  = filter isConnect (calls s)
  /\ pool (snd (SqlData.getPhoneNumberByEmail e addr s)) = true.
Proof.
  intros P. rewrite lookup_state.
  destruct (refreshDue e s); [|now split].
  simpl. unfold poolReady, sqlCalls, fileCalls, servedFromFile.
  rewrite P. simpl.
  split.
  - rewrite !filter_app.
    destruct (fallback_useTempFile (config e)), (tempFileExists e),
      (tempFileRecords e), (sqlConfigComplete (config e)),
      (poolReady e s);
      simpl; now rewrite ?app_nil_r.
  - unfold poolReady; rewrite ?P; simpl; now destruct (fallback_useTempFile (config e)), (tempFileExists e),
      (tempFileRecords e), (sqlConfigComplete (config e)).
Qed.

(** X17.  The connection pool of sql-data.js lives until [closePool]: a
    lookup made while the module holds a pool keeps it and attempts no
    connection.  [closePool] never throws; it answers [true] exactly when
    no pool is left afterwards (there was none, or the close succeeded)
    and [false] when the close was rejected and the pool is kept.  It
    leaves the directory snapshot and its expiry as they are. *)
Theorem pool_lifecycle (e : Env) (addr : string) (s : State) :
  (pool s = true ->
   pool (snd (SqlData.getPhoneNumberByEmail e addr s)) = true
   /\ filter isConnect (calls (snd (SqlData.getPhoneNumberByEmail e addr s)))
      = filter isConnect (calls s))
  /\ exists b s',
       closePool e s = (Returns b, s')
       /\ pool s' = negb b
       /\ phoneDataCache s' = phoneDataCache s
       /\ phoneDataExpiry s' = phoneDataExpiry s
       /\ calls s' = calls s ++ if pool s then [SqlClose] else [].
Proof.
  split.
  - intros P. destruct (pool_lifecycle_pool e addr s P). now split.
  - rewrite closePool_spec. eexists _, _. split; [reflexivity|].
    simpl. repeat split.
    destruct (pool s), (sqlClose e); reflexivity.
Qed.

(** X18.  The health probe of sql-data.js.  In temp-file mode it answers
    whether the file exists and touches nothing.  Otherwise, with a
    complete SQL configuration, it answers [true] exactly when a pool is
    at hand and the probe query succeeds, and the pool it has opened
    stays for later lookups.  With an incomplete SQL configuration the
    probe does not answer [false]: it throws, and the state is
    unchanged. *)
Theorem legacy_probe (e : Env) (s : Probed) :
  match isHealthy e s with
  | (Returns true, s') =>
      (fallback_useTempFile (config e) = true
       /\ tempFileExists e = true /\ s' = s)
      \/ (fallback_useTempFile (config e) = false
          /\ sqlConfigComplete (config e) = true
          /\ sqlQuery e = None
          /\ pool (moduleState s') = true
          /\ probeQueries s' = S (probeQueries s)
          /\ forall e2 addr,
               filter isConnect
                 (calls (snd (SqlData.getPhoneNumberByEmail e2 addr
                                (moduleState s'))))
               = filter isConnect (calls (moduleState s')))
  | (Returns false, s') =>
      (fallback_useTempFile (config e) = true
       /\ tempFileExists e = false /\ s' = s)
      \/ (fallback_useTempFile (config e) = false
          /\ sqlConfigComplete (config e) = true
          /\ (poolReady e (moduleState s) = false \/ sqlQuery e <> None))
  | (Throws err, s') =>
      fallback_useTempFile (config e) = false
      /\ sqlConfigComplete (config e) = false
      /\ s' = s
  end.
Proof.
  unfold isHealthy.
  destruct (fallback_useTempFile (config e)) eqn:U.
  { destruct (tempFileExists e); [left|left]; auto. }
  destruct (sqlConfigComplete (config e)) eqn:C; [|auto].
  rewrite initSqlPool_spec.
  destruct (poolReady e (moduleState s)) eqn:P; simpl.
  - destruct (sqlQuery e) eqn:Q; right; repeat split; auto.
    + right. discriminate.
    + intros e2 addr.
      refine (proj1 (pool_lifecycle_pool e2 addr _ _)). reflexivity.
  - right. auto.
Qed.

End PoolFacts.

(* ===================================================================== *)
(** ** console-dashboard.js: counters, error log and redraws *)
(* ===================================================================== *)

Section DashboardFacts.

Import Dashboard.

Lemma normTeam_routeName (r : Route) :
  keepLowerAlnum (toLowerCase (routeName r)) = routeName r.
Proof. destruct r; reflexivity. Qed.

Lemma increment_keys key teams :
  map fst (increment key teams) = map fst teams.
Proof.
  induction teams as [|[k v] rest IH]; simpl; [reflexivity|].
  destruct (String.eqb k key); simpl; [reflexivity|now rewrite IH].
Qed.

Lemma hasKey_keys key (a b : list (string * Z)) :
  map fst a = map fst b -> hasKey key a = hasKey key b.
Proof.
  unfold hasKey. revert b.
  induction a as [|[k v] a IH]; intros [|[k' v'] b]; simpl;
    try discriminate; [reflexivity|].
  intros H. injection H as -> H. now rewrite (IH b H).
Qed.

Lemma teamCount_increment key k teams :
  teamCount key (increment k teams)
  = teamCount key teams
    + (if String.eqb k key && hasKey k teams then 1 else 0).
Proof.
  unfold hasKey.
  induction teams as [|[k0 v] rest IH]; simpl.
  - rewrite andb_false_r. lia.
  - destruct (String.eqb k0 k) eqn:E; simpl.
    + apply String.eqb_eq in E. subst k0. rewrite andb_true_r.
      destruct (String.eqb k key); lia.
    + destruct (String.eqb k0 key) eqn:E2; [|exact IH].
      apply String.eqb_eq in E2. subst k0.
      rewrite String.eqb_sym in E. rewrite E. simpl. lia.
Qed.

Lemma teamsTotal_increment k teams :
  teamsTotal (increment k teams)
  = teamsTotal teams + (if hasKey k teams then 1 else 0).
Proof.
  unfold hasKey, teamsTotal.
  induction teams as [|[k0 v] rest IH]; simpl; [reflexivity|].
  destruct (String.eqb k0 k); simpl; [lia|]. rewrite IH. lia.
Qed.

Lemma teamsTotal_reset (teams : list (string * Z)) :
  teamsTotal (map (fun entry => (fst entry, 0)) teams) = 0.
Proof.
  unfold teamsTotal.
  induction teams as [|[k v] rest IH]; simpl; [reflexivity|exact IH].
Qed.

Lemma teamCount_reset key (teams : list (string * Z)) :
  teamCount key (map (fun entry => (fst entry, 0)) teams) = 0.
Proof.
  induction teams as [|[k v] rest IH]; simpl; [reflexivity|].
  now destruct (String.eqb k key).
Qed.

Lemma unshift_bounded {A} (x : A) (l : list A) :
  (List.length l <= 10)%nat ->
  (if Nat.ltb 10 (List.length (x :: l)) then removelast (x :: l)
   else x :: l) = x :: firstn 9 l.
Proof.
  intros H. destruct (Nat.ltb 10 (List.length (x :: l))) eqn:C.
  - apply Nat.ltb_lt in C. simpl in C.
    assert (L : List.length l = 10%nat) by lia.
    destruct l as [|y l]; [discriminate L|].
    change (removelast (x :: y :: l)) with (x :: removelast (y :: l)).
    rewrite removelast_firstn_len, L. reflexivity.
  - apply Nat.ltb_ge in C. simpl in C.
    rewrite firstn_all2 by lia. reflexivity.
Qed.

Lemma trackError_errors t msg err a :
  maxErrors a = 10%nat -> (List.length (errors a) <= 10)%nat ->
  errors (trackError t msg err a)
  = {| timestamp := t; message := msg; error := err |}
    :: firstn 9 (errors a).
Proof.
  intros M L. unfold trackError. cbn [errors]. rewrite M.
  now apply unshift_bounded.
Qed.

Lemma reachable_consistent s : reachable s -> consistent (app s).
Proof.
  induction 1 as [|ev s R IH].
  - unfold consistent. simpl. repeat split; lia.
  - destruct IH as (I1 & I2 & I3 & I4 & I5 & I6 & I7 & I8 & I9).
    destruct ev as [t|t|t msg err|url status| |t|t]; simpl;
      try (unfold consistent; repeat split; assumption).
    + unfold consistent. rewrite (trackError_errors _ _ _ _ I9 I7).
      unfold trackError. cbn -[firstn].
      repeat split; try assumption.
      rewrite length_firstn. lia.
    + unfold consistent, requestTracking, trackRequest. simpl.
      rewrite teamsTotal_increment, increment_keys.
      match goal with
      | |- context [hasKey ?k ?l] => destruct (hasKey k l)
      end; destruct (status <? 400); repeat split; try assumption; lia.
    + unfold consistent, resetStats. simpl.
      rewrite teamsTotal_reset, map_map. simpl.
      repeat split; try assumption; lia.
Qed.



(** X20.  The error log is bounded and ordered: in every reachable state
    it holds at most ten entries, and [lastError] is its first entry.
    Logging an error puts the new entry in front and keeps the nine most
    recent of the entries before it, so the oldest of ten is dropped. *)
Theorem error_log_bounded (s : State) :
  reachable s ->
  (List.length (errors (app s)) <= 10)%nat
  /\ lastError (app s) = hd_error (errors (app s))
  /\ forall t msg err,
       errors (app (step (LogError t msg err) s))
       = {| timestamp := t; message := msg; error := err |}
         :: firstn 9 (errors (app s)).
Proof.
  intros R.
  destruct (reachable_consistent s R) as (_ & _ & _ & _ & _ & _ & I7 & I8 & I9).
  split; [exact I7|]. split; [exact I8|].
  intros t msg err. cbn [step app]. now apply trackError_errors.
Qed.

Lemma error_log_bounded_witness :
  let s := step (LogError 2000 "second" None)
             (step (LogError 1000 "first" None) initialState) in
  reachable s
  /\ (List.length (errors (app s)) <= 10)%nat
  /\ lastError (app s)
     = Some {| timestamp := 2000; message := "second"; error := None |}.
Proof.
  assert (R : reachable
                (step (LogError 2000 "second" None)
                   (step (LogError 1000 "first" None) initialState)))
    by (repeat apply reachable_step; apply reachable_initial).
  split; [exact R|].
  destruct (error_log_bounded _ R) as (H1 & H2 & _).
  split; [exact H1|exact H2].
Defined.

Lemma lowerChar_idempotent (c : ascii) : lowerChar (lowerChar c) = lowerChar c.
Proof. destruct c as [[] [] [] [] [] [] [] []]; reflexivity. Qed.

Lemma toLowerCase_idempotent (s : string) :
  toLowerCase (toLowerCase s) = toLowerCase s.
Proof.
  induction s as [|c r IH]; simpl; [reflexivity|].
  now rewrite lowerChar_idempotent, IH.
Qed.

(** X21.  When the response of a request ends, the total goes up by one,
    and so does exactly one of the success and error counters: success
    for a status below 400, error otherwise.  The counter of a team goes
    up by one exactly when the lower-cased URL starts with the route of
    that team; a request to any other URL changes no team counter.  The
    case of the URL does not matter. *)
Theorem requestTracking_counts (reqUrl : string) (statusCode : Z)
    (s : State) :
  reachable s ->
  let a := app s in
  let a' := app (step (RequestEnd reqUrl statusCode) s) in
  requests_total a' = requests_total a + 1
  /\ requests_success a'
     = requests_success a + (if statusCode <? 400 then 1 else 0)
  /\ requests_error a'
     = requests_error a + (if statusCode <? 400 then 0 else 1)
  /\ (forall key,
        teamCount key (requests_teams a')
        = teamCount key (requests_teams a)
          + (if String.eqb (routeName (teamOfUrl reqUrl)) key
                && negb (String.eqb key "other")
             then 1 else 0))
  /\ teamOfUrl (toLowerCase reqUrl) = teamOfUrl reqUrl.
Proof.
  intros R.
  destruct (reachable_consistent s R) as (_ & _ & _ & _ & _ & I6 & _).
  simpl. unfold requestTracking, trackRequest. simpl.
  split; [reflexivity|].
  split; [destruct (statusCode <? 400); lia|].
  split; [destruct (statusCode <? 400); lia|].
  split.
  - intros key. rewrite normTeam_routeName, teamCount_increment.
    rewrite (hasKey_keys _ _ _ I6).
    destruct (String.eqb (routeName (teamOfUrl reqUrl)) key) eqn:E;
      [|reflexivity].
    apply String.eqb_eq in E. subst key.
    now destruct (teamOfUrl reqUrl).
  - unfold teamOfUrl. now rewrite toLowerCase_idempotent.
Qed.

Lemma requestTracking_counts_witness :
  let s := step (RequestEnd "/SQL?x=1" 404) initialState in
  reachable initialState
  /\ requests_total (app s) = 1
  /\ requests_error (app s) = 1
  /\ teamCount "sql" (requests_teams (app s)) = 1.
Proof.
  split; [apply reachable_initial|].
  destruct (requestTracking_counts "/SQL?x=1"%string 404 initialState
              reachable_initial) as (H1 & _ & H3 & H4 & _).
  split; [exact H1|]. split; [exact H3|exact (H4 "sql"%string)].
Defined.

(** X22.  Once an error has been logged, [lastError] stays set whatever
    happens next: no event clears it.  [resetStats] sets the total, the
    success and error counters and every team counter to zero and leaves
    [lastError] and the error log as they are. *)
Theorem last_error_is_sticky (ev : Event) (s : State) :
  lastError (app s) <> None ->
  lastError (app (step ev s)) <> None
  /\ lastError (app (step ResetStats s)) = lastError (app s)
  /\ errors (app (step ResetStats s)) = errors (app s)
  /\ requests_total (app (step ResetStats s)) = 0
  /\ requests_success (app (step ResetStats s)) = 0
  /\ requests_error (app (step ResetStats s)) = 0
  /\ forall key,
       teamCount key (requests_teams (app (step ResetStats s))) = 0.
Proof.
  intros H. split.
  - destruct ev; simpl; try exact H. discriminate.
  - simpl. repeat split. intros key. apply teamCount_reset.
Qed.

Lemma last_error_is_sticky_witness :
  let s := step (RequestEnd "/network" 200)
             (step (LogError 1000 "Health check failed" None)
                initialState) in
  lastError (app s) <> None
  /\ lastError (app (step ResetStats s)) <> None
  /\ requests_total (app s) = 1
  /\ requests_total (app (step ResetStats s)) = 0.
Proof.
  assert (H : lastError
                (app (step (RequestEnd "/network" 200)
                        (step (LogError 1000 "Health check failed" None)
                           initialState))) <> None)
    by (simpl; discriminate).
  split; [exact H|].
  destruct (last_error_is_sticky ResetStats _ H) as (H1 & _ & _ & H4 & _).
  split; [exact H1|]. split; [reflexivity|exact H4].
Defined.

Lemma updateDashboard_orderly force t sc :
  orderly sc -> orderly (updateDashboard force t sc).
Proof.
  intros (T & L & V). unfold updateDashboard.
  destruct (isDashboardVisible sc) eqn:E; simpl;
    [|unfold orderly; rewrite E; split; [exact T|split; [exact L|exact V]]].
  destruct (negb force && (t - lastUpdateTime sc <? 250)) eqn:C.
  - unfold orderly. simpl. split; [exact T|]. split; [exact L|discriminate].
  - unfold orderly. simpl. split; [|split; [reflexivity|discriminate]].
    destruct (redraws sc) as [|[t1 f1] rest]; simpl; [exact I|].
    split; [|exact T].
    intros ->. simpl in C. apply Z.ltb_ge in C. simpl in L. lia.
Qed.

Lemma reachable_orderly s : reachable s -> orderly (screen s).
Proof.
  induction 1 as [|ev s R IH].
  - unfold orderly. simpl. repeat split; reflexivity.
  - destruct ev as [t|t|t msg err|url status| |t|t]; simpl;
      try exact IH; try now apply updateDashboard_orderly.
    + unfold initializeDashboard, updateDashboard, orderly. simpl.
      destruct IH as (T & L & V).
      split; [|split; [reflexivity|discriminate]].
      destruct (redraws (screen s)) as [|[t1 f1] rest]; simpl; [exact I|].
      split; [discriminate|exact T].
    + unfold intervalTick.
      destruct (pendingUpdate (screen s)
                || (15000 <=? t - lastUpdateTime (screen s)));
        [now apply updateDashboard_orderly|exact IH].
Qed.

(** X23.  Redraws of the dashboard are throttled: in every reachable
    state, each redraw that was not forced came at least 250 ms after the
    redraw before it, and nothing is drawn before the dashboard has been
    initialised.  Forced redraws are not held back: once the dashboard is
    visible, logging an error redraws at once. *)
Theorem redraws_throttled (s : State) :
  reachable s ->
  throttled (redraws (screen s))
  /\ (isDashboardVisible (screen s) = false -> redraws (screen s) = [])
  /\ forall t msg err,
       isDashboardVisible (screen s) = true ->
       redraws (screen (step (LogError t msg err) s))
       = (t, true) :: redraws (screen s).
Proof.
  intros R. destruct (reachable_orderly s R) as (T & _ & V).
  split; [exact T|]. split; [exact V|].
  intros t msg err E. simpl. unfold updateDashboard. now rewrite E.
Qed.

Lemma redraws_throttled_witness :
  let s := step (Log 1400)
             (step (Log 1300) (step (Log 1100)
                (step (Initialize 1000) initialState))) in
  reachable s
  /\ redraws (screen s) = [(1300, false); (1000, true)]
  /\ throttled (redraws (screen s)).
Proof.
  assert (R : reachable
                (step (Log 1400)
                   (step (Log 1300) (step (Log 1100)
                      (step (Initialize 1000) initialState)))))
    by (repeat apply reachable_step; apply reachable_initial).
  split; [exact R|]. split; [reflexivity|].
  exact (proj1 (redraws_throttled _ R)).
Defined.

End DashboardFacts.

(* ===================================================================== *)
(** ** config.js: validation against the guards of the client *)
(* ===================================================================== *)

Section ConfigFacts.

Import ConfigJs.

Lemma orDefault_truthy value fallback :
  isEmpty fallback = false -> isEmpty (orDefault value fallback) = false.
Proof.
  intros F. unfold orDefault.
  destruct value as [v|]; [|exact F].
  destruct (isEmpty v) eqn:E; [exact F|exact E].
Qed.

Lemma missing_subset (f : string * option string -> bool) vars name :
  In name (map fst (filter f vars)) -> In name (map fst vars).
Proof.
  intros H. apply in_map_iff in H. destruct H as (x & <- & Hx).
  apply filter_In in Hx. apply in_map. exact (proj1 Hx).
Qed.

(** X24.  A configuration that [validateConfig] accepts passes the guards
    of the client: when no variable is reported missing and the
    authentication mode is "sql" or "windows", the Jira configuration is
    complete for [getSchedules] and the SQL configuration passes the
    guards of the lookup by e-mail; in mode "sql" it is complete for the
    bulk query of sql-data.js as well. *)
Theorem validated_config_passes_guards (penv : ProcessEnv) :
  missingVars penv = [] ->
  sql_authMode (loadConfig penv) = "sql"%string
  \/ sql_authMode (loadConfig penv) = "windows"%string ->
  DirectClient.jiraConfigured (loadConfig penv) = true
  /\ sqlConfigured (loadConfig penv) = true
  /\ (sql_authMode (loadConfig penv) = "sql"%string ->
      SqlData.sqlConfigComplete (loadConfig penv) = true).
Proof.
  unfold missingVars, checkSqlConfig, jiraVars, DirectClient.jiraConfigured,
    sqlConfigured, SqlData.sqlConfigComplete.
  cbn [loadConfig jira_username jira_apiToken jira_cloudId jira_hostUrl
       jira_basePath sql_database sql_authMode sql_username sql_password
       fallback_useTempFile negb app filter map fst snd].
  intros M A.
  destruct (truthy (penv "JIRA_USERNAME"%string)); [|discriminate M].
  destruct (truthy (penv "JIRA_API_TOKEN"%string)); [|discriminate M].
  destruct (truthy (penv "JIRA_CLOUD_ID"%string)); [|discriminate M].
  destruct (truthy (penv "JIRA_HOST_URL"%string)); [|discriminate M].
  destruct (truthy (penv "JIRA_BASE_PATH"%string)); [|discriminate M].
  cbn [negb] in M.
  destruct (truthy (Some (sql_server penv))); [|discriminate M].
  destruct (truthy (penv "SQL_DATABASE"%string)); [|discriminate M].
  cbn [negb] in M.
  destruct A as [A|A]; rewrite A in *; cbn in M |- *.
  - destruct (truthy (penv "SQL_USERNAME"%string)); [|discriminate M].
    destruct (truthy (penv "SQL_PASSWORD"%string)); [|discriminate M].
    repeat split.
  - repeat split. discriminate.
Qed.

Lemma validated_config_passes_guards_witness :
  let penv := ScenarioEnv.processEnv (Some "Windows"%string) None None in
  missingVars penv = []
  /\ sql_authMode (loadConfig penv) = "windows"%string
  /\ DirectClient.jiraConfigured (loadConfig penv) = true
  /\ sqlConfigured (loadConfig penv) = true.
Proof.
  split; [reflexivity|]. split; [reflexivity|].
  destruct (validated_config_passes_guards
              (ScenarioEnv.processEnv (Some "Windows"%string) None None)
              eq_refl (or_intror eq_refl)) as (H1 & H2 & _).
  split; [exact H1|exact H2].
Defined.

(** X25.  For an authentication mode other than "sql" and "windows",
    validation and the client disagree: [validateConfig] never reports
    SQL_USERNAME or SQL_PASSWORD as missing, yet the lookup by e-mail
    treats the mode as SQL authentication, and without both credentials
    it throws "SQL authentication requires username and password" before
    it connects. *)
Theorem unknown_auth_mode_unchecked (penv : ProcessEnv) :
  sql_authMode (loadConfig penv) <> "sql"%string ->
  sql_authMode (loadConfig penv) <> "windows"%string ->
  ~ In "SQL_USERNAME"%string (missingVars penv)
  /\ ~ In "SQL_PASSWORD"%string (missingVars penv)
  /\ (truthy (penv "SQL_USERNAME"%string)
      && truthy (penv "SQL_PASSWORD"%string) = false ->
      forall e addr s,
        config e = loadConfig penv ->
        DirectClient.getPhoneNumberByEmail e addr s
        = (Throws
             (Error "SQL authentication requires username and password"),
           s)).
Proof.
  intros NS NW.
  apply String.eqb_neq in NS. apply String.eqb_neq in NW.
  assert (V : forall name,
             In name (missingVars penv) ->
             In name ["JIRA_USERNAME"; "JIRA_API_TOKEN"; "JIRA_CLOUD_ID";
                      "JIRA_HOST_URL"; "JIRA_BASE_PATH"; "SQL_SERVER";
                      "SQL_DATABASE"]%string).
  { intros name H. unfold missingVars in H. apply missing_subset in H.
    unfold checkSqlConfig in H. rewrite NS in H. exact H. }
  split; [|split].
  - intros H. apply V in H. simpl in H.
    repeat (destruct H as [H|H]; [discriminate H|]). exact H.
  - intros H. apply V in H. simpl in H.
    repeat (destruct H as [H|H]; [discriminate H|]). exact H.
  - intros C e addr s E. unfold DirectClient.getPhoneNumberByEmail.
    rewrite E. cbn [loadConfig sql_authMode sql_username sql_password].
    cbn [loadConfig sql_authMode] in NW. rewrite NW, C. reflexivity.
Qed.

Lemma unknown_auth_mode_unchecked_witness :
  let penv := ScenarioEnv.processEnv (Some "kerberos"%string) None None in
  missingVars penv = []
  /\ fst (DirectClient.getTeamOnCallPhoneNumber
            (ScenarioEnv.worldWith (loadConfig penv)
               [Scenario.row (Some "555-123-4567"%string) None])
            "Help-Desk-schedule" DirectClient.initialState)
     = Throws (Error "SQL authentication requires username and password")
  /\ ~ In "SQL_USERNAME"%string (missingVars penv).
Proof.
  split; [reflexivity|]. split; [reflexivity|].
  refine (proj1 (unknown_auth_mode_unchecked
                   (ScenarioEnv.processEnv (Some "kerberos"%string) None None)
                   _ _)); vm_compute; discriminate.
Defined.

(** X26.  Under any configuration that config.js loads, the default
    number is never empty, and temp-file mode is off: a directory lookup
    of sql-data.js never reads the CSV file, even when the file exists
    and parses. *)
Theorem loaded_config_defaults (penv : ProcessEnv) :
  isEmpty (defaultPhoneNumber (loadConfig penv)) = false
  /\ forall e addr s,
       config e = loadConfig penv ->
       servedFromFile e = false
       /\ filter isFileRead
            (SqlData.calls (snd (SqlData.getPhoneNumberByEmail e addr s)))
          = filter isFileRead (SqlData.calls s).
Proof.
  split; [now apply orDefault_truthy|].
  intros e addr s E.
  assert (U : fallback_useTempFile (config e) = false) by now rewrite E.
  split; [unfold servedFromFile; now rewrite U|].
  rewrite lookup_state.
  destruct (refreshDue e s); [|reflexivity].
  simpl. unfold Refresh.fileCalls, servedFromFile, Refresh.sqlCalls.
  rewrite U. simpl. rewrite filter_app.
  destruct (SqlData.sqlConfigComplete (config e));
    [|now rewrite app_nil_r].
  destruct (SqlData.pool s), (Refresh.poolReady e s); simpl;
    now rewrite app_nil_r.
Qed.

End ConfigFacts.

(* ===================================================================== *)
(** ** test-jira.js: sanitising and suggested matches *)
(* ===================================================================== *)

Section DiagnosticFacts.

Import Diagnostic.

Lemma sanitize_clean (s : string) :
  forallb clean (list_ascii_of_string (sanitize s)) = true.
Proof.
  unfold sanitize.
  induction s as [|c r IH]; simpl; [reflexivity|].
  destruct (isLineBreak c) eqn:B; simpl; [now rewrite IH|].
  destruct (isQuote c) eqn:Q; simpl; [exact IH|].
  unfold clean at 1. now rewrite B, Q, IH.
Qed.

Lemma sanitize_fixpoint (s : string) :
  forallb clean (list_ascii_of_string s) = true -> sanitize s = s.
Proof.
  unfold sanitize.
  induction s as [|c r IH]; simpl; [reflexivity|].
  intros H. apply andb_prop in H. destruct H as [Hc Hr].
  unfold clean in Hc. apply andb_prop in Hc. destruct Hc as [B Q].
  apply negb_true_iff in B. apply negb_true_iff in Q.
  rewrite B. simpl. rewrite Q. now rewrite (IH Hr).
Qed.

Lemma sanitize_length (s : string) :
  (String.length (sanitize s) <= String.length s)%nat.
Proof.
  unfold sanitize.
  induction s as [|c r IH]; simpl; [lia|].
  destruct (isQuote (if isLineBreak c then " "%char else c)); simpl; lia.
Qed.

(** X27.  The text the schedule listing prints is sanitised: it holds no
    carriage return, no line feed, no double quote and no single quote;
    it is never longer than the input; and sanitising is idempotent, a
    text without those characters being left as it is. *)
Theorem sanitize_spec (str : string) :
  forallb clean (list_ascii_of_string (sanitize str)) = true
  /\ (String.length (sanitize str) <= String.length str)%nat
  /\ sanitize (sanitize str) = sanitize str
  /\ (forallb clean (list_ascii_of_string str) = true -> sanitize str = str).
Proof.
  split; [apply sanitize_clean|]. split; [apply sanitize_length|].
  split; [apply sanitize_fixpoint, sanitize_clean|apply sanitize_fixpoint].
Qed.

Lemma startsWith_refl (s : string) : startsWith s s = true.
Proof.
  induction s as [|c r IH]; simpl; [reflexivity|].
  now rewrite Ascii.eqb_refl, IH.
Qed.

Lemma includes_refl (s : string) : includes s s = true.
Proof. destruct s; simpl; [reflexivity|]. now rewrite Ascii.eqb_refl, startsWith_refl. Qed.

Lemma potentialMatches_In endpoint schedules sch :
  In sch (potentialMatches endpoint schedules)
  <-> In sch schedules
      /\ (includes (toLowerCase (name sch)) (toLowerCase endpoint)
          || includes (toLowerCase endpoint) (toLowerCase (name sch)))%bool
         = true.
Proof. unfold potentialMatches. apply filter_In. Qed.

(** X28.  The offline listing and the routes of the server go through
    the same six endpoints, but they do not look for the same thing: the
    listing looks for the endpoint name inside the schedule names, case
    ignored, the server for the schedule whose name is the entry of the
    endpoint in [TEAM_MAPPING].  On any schedule list, for the endpoints
    network, windows, sql and sharepoint the schedule the server selects
    is among the schedules the listing suggests; for helpdesk and ibmi it
    never is, because "Help-Desk-schedule" and "IBM-i-schedule" do not
    contain the endpoint name.  What the listing suggests are schedules
    of the list. *)
Theorem listing_against_team_mapping (schedules : list Schedule)
    (endpoint teamName : string) (sch : Schedule) :
  In (endpoint, teamName) Server.TEAM_MAPPING ->
  DirectClient.findSchedule teamName schedules = Some sch ->
  map fst Server.TEAM_MAPPING = endpoints
  /\ (In sch (potentialMatches endpoint schedules)
      <-> endpoint <> "helpdesk"%string /\ endpoint <> "ibmi"%string)
  /\ (forall m, In m (potentialMatches endpoint schedules) -> In m schedules).
Proof.
  intros M F. apply findSchedule_some in F. destruct F as [Hin Hn].
  split; [reflexivity|]. split.
  - simpl in M.
    destruct M as [M|[M|[M|[M|[M|[M|[]]]]]]]; injection M as <- <-.
    + split.
      * intros H. apply potentialMatches_In in H. destruct H as [_ H].
        rewrite Hn in H. discriminate H.
      * intros [A B]. congruence.
    + split.
      * intros _. split; discriminate.
      * intros _. apply potentialMatches_In. split; [exact Hin|].
        rewrite Hn. reflexivity.
    + split.
      * intros H. apply potentialMatches_In in H. destruct H as [_ H].
        rewrite Hn in H. discriminate H.
      * intros [A B]. congruence.
    + split.
      * intros _. split; discriminate.
      * intros _. apply potentialMatches_In. split; [exact Hin|].
        rewrite Hn. reflexivity.
    + split.
      * intros _. split; discriminate.
      * intros _. apply potentialMatches_In. split; [exact Hin|].
        rewrite Hn. reflexivity.
    + split.
      * intros _. split; discriminate.
      * intros _. apply potentialMatches_In. split; [exact Hin|].
        rewrite Hn. reflexivity.
  - intros m H. apply potentialMatches_In in H. exact (proj1 H).
Qed.

Lemma listing_against_team_mapping_witness :
  In ("helpdesk"%string, "Help-Desk-schedule"%string) Server.TEAM_MAPPING
  /\ DirectClient.findSchedule "Help-Desk-schedule"
       [Scenario.helpDesk; Scenario.network] = Some Scenario.helpDesk
  /\ ~ In Scenario.helpDesk
        (potentialMatches "helpdesk" [Scenario.helpDesk; Scenario.network]).
Proof.
  split; [simpl; auto|]. split; [reflexivity|].
  intros H.
  destruct (listing_against_team_mapping
              [Scenario.helpDesk; Scenario.network]
              "helpdesk"%string "Help-Desk-schedule"%string
              Scenario.helpDesk (or_introl eq_refl) eq_refl)
    as (_ & [K _] & _).
  destruct (K H) as [N _]. now apply N.
Defined.

End DiagnosticFacts.

(* ===================================================================== *)
(** ** direct-client.js: when a resolution succeeds *)
(* ===================================================================== *)

Section SuccessFacts.

Import DirectClient.

(** X29.  A resolution succeeds when every stage has what it needs: the
    schedule list holds a schedule with the team name, the roster service
    delivers a first on-call participant and a profile with a non-empty
    e-mail address, the SQL guards pass, the database answers, and the
    row selected for the address has a cell phone with at least one
    digit.  The number returned is the formatted cell phone of that row,
    and the calls issued after the schedule list are the five stage calls
    in their order. *)
Theorem resolution_succeeds (e : Env) (teamName : string) (s s0 : State)
    (l : list Schedule) (sch : Schedule) (d : OnCallData)
    (acct : string) (others : list string) (u : UserData) (addr : string)
    (record : DirectoryRecord) (rest : list DirectoryRecord) (raw : string) :
  getSchedules e s = (Returns l, s0) ->
  findSchedule teamName l = Some sch ->
  delivers (fetchOnCalls e (id sch)) = Some d ->
  onCallParticipants d = Some (acct :: others) ->
  delivers (fetchUser e acct) = Some u ->
  emailAddress u = Some addr ->
  isEmpty addr = false ->
  sqlConfigured (config e) = true ->
  sqlAnswers e = true ->
  selectTop1ByEmail e addr = record :: rest ->
  cellPhone record = Some raw ->
  isEmpty (replaceNonDigits raw) = false ->
  getTeamOnCallPhoneNumber e teamName s
  = (Returns (formatPhoneNumber raw),
     {| cache := cache s0;
        calls := calls s0 ++ stageCalls (id sch) acct addr |}).
Proof.
  intros G F D P U E N C A S R Z.
  assert (Zr : isEmpty raw = false).
  { destruct raw; [discriminate Z|reflexivity]. }
  assert (Zf : isEmpty (formatPhoneNumber raw) = false).
  { rewrite formatPhoneNumber_unfold.
    destruct (Nat.eqb _ 10); [reflexivity|exact Z]. }
  rewrite getTeamOnCallPhoneNumber_unfold, getTeamSchedule_unfold, G, F.
  rewrite getOnCallUser_unfold, (fetchJson_delivers _ _ _ _ D), P.
  rewrite (fetchJson_delivers _ _ _ _ U).
  assert (T : truthy (emailAddress u) = true).
  { rewrite E. simpl. now rewrite N. }
  rewrite T, E, N.
  rewrite (getPhoneNumberByEmail_answers _ _ _ C A).
  unfold recordPhone. rewrite S, R, Zr, Zf.
  unfold stageCalls, lookupCalls. simpl.
  now rewrite <- !app_assoc.
Qed.

Lemma resolution_succeeds_witness :
  let e := Scenario.world 1000 Scenario.rota
             [Scenario.row (Some "555-123-4567"%string) None] None in
  fst (getTeamOnCallPhoneNumber e "Network-schedule" initialState)
  = Returns "15551234567"%string.
Proof.
  exact (f_equal fst
           (resolution_succeeds
              (Scenario.world 1000 Scenario.rota
                 [Scenario.row (Some "555-123-4567"%string) None] None)
              "Network-schedule"%string initialState
              (refreshed (Scenario.world 1000 Scenario.rota [] None)
                 [Scenario.helpDesk; Scenario.network] initialState)
              [Scenario.helpDesk; Scenario.network] Scenario.network
              {| onCallParticipants := Some ["acct-1"%string] |}
              "acct-1"%string [] Scenario.alice "a@x.com"%string
              (Scenario.row (Some "555-123-4567"%string) None) []
              "555-123-4567"%string
              eq_refl eq_refl eq_refl eq_refl eq_refl eq_refl eq_refl
              eq_refl eq_refl eq_refl eq_refl eq_refl)).
Defined.

(** X30.  With a fresh schedule slot the health probe does not contact
    the roster service: it answers from the cached list, [true] when the
    list is not empty, and leaves the state unchanged, whatever the
    service would answer at that moment.  An outage that begins while
    the slot is fresh is not seen by the probe until the slot expires. *)
Theorem isHealthy_warm_cache (e : Env) (s : State) :
  schedulesFresh (cache s) (now e) = true ->
  exists l,
    data (schedules (cache s)) = Some l
    /\ isHealthy e s
       = (Returns (match l with [] => false | _ => true end), s)
    /\ forall e',
         now e' = now e ->
         isHealthy e' s = isHealthy e s.
Proof.
  intros F.
  destruct (getSchedules_fresh e s F) as (l & Hl & G).
  exists l. split; [exact Hl|]. split.
  - now rewrite isHealthy_unfold, G.
  - intros e' T. rewrite <- T in F.
    destruct (getSchedules_fresh e' s F) as (l' & Hl' & G').
    rewrite Hl in Hl'. injection Hl' as <-.
    now rewrite !isHealthy_unfold, G, G'.
Qed.

Lemma isHealthy_warm_cache_witness :
  let s := snd (getSchedules (Scenario.world 1000 Scenario.rota [] None)
                  initialState) in
  let down := Scenario.world 2000 Scenario.unavailable [] None in
  schedulesFresh (cache s) (now down) = true
  /\ exists l,
       data (schedules (cache s)) = Some l
       /\ isHealthy down s
          = (Returns (match l with [] => false | _ => true end), s).
Proof.
  split; [reflexivity|].
  destruct (isHealthy_warm_cache
              (Scenario.world 2000 Scenario.unavailable [] None)
              (snd (getSchedules (Scenario.world 1000 Scenario.rota [] None)
                      initialState))
              eq_refl) as (l & H1 & H2 & _).
  exists l. split; [exact H1|exact H2].
Defined.

End SuccessFacts.
